(** * DupScan: duplicate_file_report.py

    A shallow embedding of the duplicate-file report script and the
    properties of its three parts: the directory walk ([list_all_files]),
    the per-file fingerprint ([calculate_full_hash], [is_form_type], the
    extension) and the report builder ([generate_styled_excel_report]). *)

From Stdlib Require Import ZArith NArith Ascii String List Bool Lia.
From Stdlib.Strings Require Import Byte.
From stdpp Require Import base tactics option list strings gmap sorting pretty.

Local Open Scope string_scope.
Local Open Scope Z_scope.
Local Open Scope list_scope.

(** ** Python strings

    A [str] is modelled by [string]; the operations below are the ones the
    script and the library functions it calls rely on. *)

Module Str.

Definition len (s : string) : Z := Z.of_nat (String.length s).

(** [s.rfind(c)] for a one-character needle: the highest index, or -1. *)
Fixpoint rfind (c : ascii) (s : string) : Z :=
  match s with
  | EmptyString => -1
  | String a t =>
      let r := rfind c t in
      if 0 <=? r then r + 1
      else if Ascii.eqb a c then 0 else -1
  end.

Fixpoint take (n : nat) (s : string) : string :=
  match n, s with
  | S n', String a t => String a (take n' t)
  | _, _ => EmptyString
  end.

Fixpoint drop (n : nat) (s : string) : string :=
  match n, s with
  | S n', String _ t => drop n' t
  | _, _ => s
  end.

(** A slice bound as Python normalises it: negative bounds count from the
    end, and every bound is clamped to [0, len s]. *)
Definition bound (s : string) (i : Z) : nat :=
  Z.to_nat (if i <? 0 then Z.max 0 (i + len s) else Z.min i (len s)).

(** [s[:i]] and [s[i:]]. *)
Definition slice_to (s : string) (i : Z) : string := take (bound s i) s.
Definition slice_from (s : string) (i : Z) : string := drop (bound s i) s.

(** [s[i:i+1]]: the character at [i] as a string, empty past the end. *)
Definition slice1 (s : string) (i : Z) : string :=
  take (bound s (i + 1) - bound s i) (drop (bound s i) s).

Definition in_range (lo hi c : ascii) : bool :=
  (N_of_ascii lo <=? N_of_ascii c)%N && (N_of_ascii c <=? N_of_ascii hi)%N.

Definition lower_char (c : ascii) : ascii :=
  if in_range "A" "Z" c then ascii_of_N (N_of_ascii c + 32) else c.

(** [s.lower()] on the 8-bit characters of the model. *)
Fixpoint lower (s : string) : string :=
  match s with
  | EmptyString => EmptyString
  | String a t => String (lower_char a) (lower t)
  end.

Fixpoint all (p : ascii → bool) (s : string) : bool :=
  match s with
  | EmptyString => true
  | String a t => p a && all p t
  end.

Definition startswith_char (c : ascii) (s : string) : bool :=
  match s with
  | String a _ => Ascii.eqb a c
  | EmptyString => false
  end.

Fixpoint endswith_char (c : ascii) (s : string) : bool :=
  match s with
  | EmptyString => false
  | String a EmptyString => Ascii.eqb a c
  | String _ t => endswith_char c t
  end.

End Str.

(** ** Regular expressions, as far as [re.match] is used

    [re.match(pattern, s)] looks for a match of the pattern that starts at
    index 0 of [s] and may end anywhere.  Patterns are kept as syntax trees
    and matched with Brzozowski derivatives. *)

Module Re.

Inductive regex : Type :=
| Empty                                   (* matches nothing *)
| Eps                                     (* the empty string *)
| Chr (c : ascii)                         (* an escaped literal, \( *)
| Class (ranges : list (ascii * ascii))   (* [a-bc-d...] *)
| Seq (r1 r2 : regex)
| Alt (r1 r2 : regex)
| Star (r : regex).

(** [r+] is one [r] followed by [r*]. *)
Definition Plus (r : regex) : regex := Seq r (Star r).

Definition in_class (ranges : list (ascii * ascii)) (c : ascii) : bool :=
  existsb (λ lh, Str.in_range lh.1 lh.2 c) ranges.

Fixpoint nullable (r : regex) : bool :=
  match r with
  | Empty => false
  | Eps => true
  | Chr _ => false
  | Class _ => false
  | Seq r1 r2 => nullable r1 && nullable r2
  | Alt r1 r2 => nullable r1 || nullable r2
  | Star _ => true
  end.

Fixpoint deriv (a : ascii) (r : regex) : regex :=
  match r with
  | Empty => Empty
  | Eps => Empty
  | Chr c => if Ascii.eqb a c then Eps else Empty
  | Class ranges => if in_class ranges a then Eps else Empty
  | Seq r1 r2 =>
      if nullable r1 then Alt (Seq (deriv a r1) r2) (deriv a r2)
      else Seq (deriv a r1) r2
  | Alt r1 r2 => Alt (deriv a r1) (deriv a r2)
  | Star r1 => Seq (deriv a r1) (Star r1)
  end.

(** [re.match(r, s)] seen as a truth value: some prefix of [s] is in the
    language of [r]. *)
Fixpoint re_match (r : regex) (s : string) : bool :=
  nullable r ||
  match s with
  | EmptyString => false
  | String a t => re_match (deriv a r) t
  end.

(** The language of a pattern, for stating what [re_match] decides. *)
Inductive matches : regex → string → Prop :=
| m_eps : matches Eps ""
| m_chr c : matches (Chr c) (String c "")
| m_class ranges c : in_class ranges c = true → matches (Class ranges) (String c "")
| m_seq r1 r2 s1 s2 : matches r1 s1 → matches r2 s2 → matches (Seq r1 r2) (s1 +:+ s2)
| m_alt_l r1 r2 s : matches r1 s → matches (Alt r1 r2) s
| m_alt_r r1 r2 s : matches r2 s → matches (Alt r1 r2) s
| m_star_nil r : matches (Star r) ""
| m_star_cons r s1 s2 : matches r s1 → matches (Star r) s2 → matches (Star r) (s1 +:+ s2).

End Re.

(** ** os.path (posixpath) *)

Module PosixPath.

(** [genericpath._splitext(p, sep, altsep, extsep)].  The [while] loop
    walks [filenameIndex] over [sepIndex + 1 .. dotIndex - 1] and returns
    at the first character that is not [extsep]; [altsep] is [None] on
    POSIX. *)
Fixpoint skip_leading_dots (p : string) (extsep : ascii) (dotIndex : Z)
    (indices : list Z) : string * string :=
  match indices with
  | [] => (p, Str.slice_to p 0)
  | filenameIndex :: later =>
      if negb (String.eqb (Str.slice1 p filenameIndex) (String extsep ""))
      then (Str.slice_to p dotIndex, Str.slice_from p dotIndex)
      else skip_leading_dots p extsep dotIndex later
  end.

Definition _splitext (p : string) (sep : ascii) (altsep : option ascii)
    (extsep : ascii) : string * string :=
  let sepIndex := Str.rfind sep p in
  let sepIndex :=
    match altsep with
    | Some a => Z.max sepIndex (Str.rfind a p)
    | None => sepIndex
    end in
  let dotIndex := Str.rfind extsep p in
  if sepIndex <? dotIndex then
    skip_leading_dots p extsep dotIndex
      (seqZ (sepIndex + 1) (dotIndex - (sepIndex + 1)))
  else (p, Str.slice_to p 0).

Definition splitext (p : string) : string * string :=
  _splitext p "/" None ".".

(** [os.path.basename(p)]: what follows the last slash. *)
Definition basename (p : string) : string :=
  Str.slice_from p (Str.rfind "/" p + 1).

(** [os.path.join(a, b)] for two components. *)
Definition join (a b : string) : string :=
  if Str.startswith_char "/" b then b
  else if String.eqb a "" || Str.endswith_char "/" a then a +:+ b
  else a +:+ "/" +:+ b.

End PosixPath.

(** ** hashlib.md5

    The digest function of RFC 1321 on byte strings, and the hash object of
    [hashlib]: [update] may be called any number of times, and the object
    stands for the concatenation of everything it was fed. *)

Module MD5.

Definition word (x : Z) : Z := Z.land x 0xffffffff.

Definition rotl (x c : Z) : Z :=
  word (Z.lor (Z.shiftl x c) (Z.shiftr x (32 - c))).

Definition K : list Z :=
  [ 0xd76aa478; 0xe8c7b756; 0x242070db; 0xc1bdceee;
    0xf57c0faf; 0x4787c62a; 0xa8304613; 0xfd469501;
    0x698098d8; 0x8b44f7af; 0xffff5bb1; 0x895cd7be;
    0x6b901122; 0xfd987193; 0xa679438e; 0x49b40821;
    0xf61e2562; 0xc040b340; 0x265e5a51; 0xe9b6c7aa;
    0xd62f105d; 0x02441453; 0xd8a1e681; 0xe7d3fbc8;
    0x21e1cde6; 0xc33707d6; 0xf4d50d87; 0x455a14ed;
    0xa9e3e905; 0xfcefa3f8; 0x676f02d9; 0x8d2a4c8a;
    0xfffa3942; 0x8771f681; 0x6d9d6122; 0xfde5380c;
    0xa4beea44; 0x4bdecfa9; 0xf6bb4b60; 0xbebfbc70;
    0x289b7ec6; 0xeaa127fa; 0xd4ef3085; 0x04881d05;
    0xd9d4d039; 0xe6db99e5; 0x1fa27cf8; 0xc4ac5665;
    0xf4292244; 0x432aff97; 0xab9423a7; 0xfc93a039;
    0x655b59c3; 0x8f0ccc92; 0xffeff47d; 0x85845dd1;
    0x6fa87e4f; 0xfe2ce6e0; 0xa3014314; 0x4e0811a1;
    0xf7537e82; 0xbd3af235; 0x2ad7d2bb; 0xeb86d391 ].

Definition shifts : list Z :=
  [ 7; 12; 17; 22; 7; 12; 17; 22; 7; 12; 17; 22; 7; 12; 17; 22;
    5; 9; 14; 20; 5; 9; 14; 20; 5; 9; 14; 20; 5; 9; 14; 20;
    4; 11; 16; 23; 4; 11; 16; 23; 4; 11; 16; 23; 4; 11; 16; 23;
    6; 10; 15; 21; 6; 10; 15; 21; 6; 10; 15; 21; 6; 10; 15; 21 ].

Definition byte_val (b : byte) : Z := Z.of_N (Byte.to_N b).

(** [n] as [k] little-endian bytes. *)
Fixpoint le_bytes (k : nat) (n : Z) : list Z :=
  match k with
  | O => []
  | S k' => Z.land n 0xff :: le_bytes k' (Z.shiftr n 8)
  end.

Fixpoint le_word (bs : list Z) : Z :=
  match bs with
  | [] => 0
  | b :: bs' => Z.lor b (Z.shiftl (le_word bs') 8)
  end.

(** The message, a 1 bit, zeros up to 56 modulo 64, the bit length. *)
Definition pad (msg : list byte) : list Z :=
  let n := Z.of_nat (length msg) in
  (byte_val <$> msg) ++ [0x80] ++ replicate (Z.to_nat ((55 - n) mod 64)) 0
    ++ le_bytes 8 (8 * n).

Fixpoint groups {A} (size count : nat) (l : list A) : list (list A) :=
  match count with
  | O => []
  | S count' => firstn size l :: groups size count' (skipn size l)
  end.

Definition blocks (bs : list Z) : list (list Z) :=
  (λ block, le_word <$> groups 4 16 block) <$> groups 64 (length bs / 64) bs.

Definition state : Type := Z * Z * Z * Z.

Definition init : state := (0x67452301, 0xefcdab89, 0x98badcfe, 0x10325476).

Definition step (M : list Z) (st : state) (i : nat) : state :=
  let '(A, B, C, D) := st in
  let iz := Z.of_nat i in
  let '(F, g) :=
    if iz <? 16 then (Z.lor (Z.land B C) (Z.land (Z.lxor B 0xffffffff) D), iz)
    else if iz <? 32 then
      (Z.lor (Z.land D B) (Z.land (Z.lxor D 0xffffffff) C), (5 * iz + 1) mod 16)
    else if iz <? 48 then (Z.lxor (Z.lxor B C) D, (3 * iz + 5) mod 16)
    else (Z.lxor C (Z.lor B (Z.lxor D 0xffffffff)), (7 * iz) mod 16) in
  let F := word (F + A + nth i K 0 + nth (Z.to_nat g) M 0) in
  (D, word (B + rotl F (nth i shifts 0)), B, C).

Definition compress (st : state) (M : list Z) : state :=
  let '(A, B, C, D) := st in
  let '(A', B', C', D') := foldl (step M) st (seq 0 64) in
  (word (A + A'), word (B + B'), word (C + C'), word (D + D')).

Definition digest (msg : list byte) : list Z :=
  let '(A, B, C, D) := foldl compress init (blocks (pad msg)) in
  le_bytes 4 A ++ le_bytes 4 B ++ le_bytes 4 C ++ le_bytes 4 D.

Definition hex_digit (n : Z) : ascii :=
  nth (Z.to_nat n) (list_ascii_of_string "0123456789abcdef") "0"%char.

Fixpoint hex (bs : list Z) : string :=
  match bs with
  | [] => ""
  | b :: bs' => String (hex_digit (Z.shiftr b 4)) (String (hex_digit (Z.land b 0xf)) (hex bs'))
  end.

(** The hash object: what it has been fed so far. *)
Record md5 : Type := { fed : list byte }.

Definition new : md5 := {| fed := [] |}.
Definition update (h : md5) (data : list byte) : md5 := {| fed := fed h ++ data |}.
Definition hexdigest (h : md5) : string := hex (digest (fed h)).

End MD5.

(** ** Exceptions and results *)

Inductive exn : Type :=
| FileNotFoundError (path : string)
| NotADirectoryError (path : string)
| IsADirectoryError (path : string)
| PermissionError (path : string)
| TypeError
| ValueError
| OverflowError
| IllegalCharacterError.

Inductive result (A : Type) : Type :=
| Ok (a : A)
| Raise (e : exn).
Arguments Ok {A} a.
Arguments Raise {A} e.

(** Sequencing: [x ← m; k] runs [k] unless [m] raised. *)
Global Instance result_bind : MBind result := λ A B k m,
  match m with
  | Ok a => k a
  | Raise e => Raise e
  end.

(** A [for] loop whose body may raise: the first exception ends it. *)
Fixpoint for_each {A S} (body : S → A → result S) (xs : list A) (s : S) : result S :=
  match xs with
  | [] => Ok s
  | x :: xs' => s' ← body s x; for_each body xs' s'
  end.

(** ** The file system

    A tree of directories and regular files, without links.  Paths are
    resolved from the root of the tree, which is also the working
    directory, component by component. *)

Module FS.

(** A file-system tree.  [Locked] is a directory without read permission:
    it cannot be listed; when [searchable] its entries can still be
    reached by name. *)
#[warnings="-register-all"]
Inductive node : Type :=
| File (readable : bool) (content : list byte)
| Dir (st_size : Z) (entries : list (string * node))
| Locked (st_size : Z) (searchable : bool) (entries : list (string * node)).

Definition is_dir (n : node) : bool :=
  match n with
  | Dir _ _ | Locked _ _ _ => true
  | File _ _ => false
  end.

(** The components of a path, empty ones (from doubled or trailing
    slashes) included. *)
Fixpoint components (path : string) : list string :=
  match path with
  | EmptyString => [""]
  | String a t =>
      if Ascii.eqb a "/" then "" :: components t
      else match components t with
           | c :: cs => String a c :: cs
           | [] => [String a ""]
           end
  end.

Fixpoint child (name : string) (entries : list (string * node)) : option node :=
  match entries with
  | [] => None
  | (n, x) :: rest => if String.eqb n name then Some x else child name rest
  end.

(** One component [c] of a path, looked up from the node [n] whose
    ancestors are [up], the nearest first.  An empty component (doubled or
    trailing slash) and [.] stay where they are, [..] goes to the parent
    (the root is its own parent); any component after a regular file is an
    error, and so is any name looked up in a directory without search
    permission. *)
Definition step (up : list node) (n : node) (c : string) : result (list node * node) :=
  match n with
  | File _ _ => Raise (NotADirectoryError c)
  | Locked _ false _ =>
      if String.eqb c "" then Ok (up, n) else Raise (PermissionError c)
  | Dir _ entries | Locked _ true entries =>
      if String.eqb c "" || String.eqb c "." then Ok (up, n)
      else if String.eqb c ".." then
        match up with
        | [] => Ok ([], n)
        | parent :: up' => Ok (up', parent)
        end
      else match child c entries with
           | Some x => Ok (n :: up, x)
           | None => Raise (FileNotFoundError c)
           end
  end.

Fixpoint resolve_from (up : list node) (n : node) (cs : list string)
    : result (list node * node) :=
  match cs with
  | [] => Ok (up, n)
  | c :: cs' =>
      match step up n c with
      | Ok (up', n') => resolve_from up' n' cs'
      | Raise e => Raise e
      end
  end.

(** The path holds no NUL character. *)
Definition no_nul (path : string) : bool :=
  Str.all (λ a, negb (Ascii.eqb a Ascii.zero)) path.

(** What [path] names in the tree [fs]; the exception carries the path.
    A path with an embedded NUL is refused with [ValueError] before the
    tree is looked at; the empty path names nothing. *)
Definition resolve (fs : node) (path : string) : result node :=
  if negb (no_nul path) then Raise ValueError
  else if String.eqb path "" then Raise (FileNotFoundError path)
  else match resolve_from [] fs (components path) with
       | Ok (_, n) => Ok n
       | Raise (NotADirectoryError _) => Raise (NotADirectoryError path)
       | Raise (PermissionError _) => Raise (PermissionError path)
       | Raise _ => Raise (FileNotFoundError path)
       end.

(** [os.path.getsize(path)], the [st_size] of [os.stat]. *)
Definition getsize (fs : node) (path : string) : result Z :=
  n ← resolve fs path;
  match n with
  | File _ content => Ok (Z.of_nat (length content))
  | Dir st_size _ | Locked st_size _ _ => Ok st_size
  end.

(** An open binary file: its bytes and the read position. *)
Record handle : Type := { data : list byte; pos : nat }.

Definition open_rb (fs : node) (path : string) : result handle :=
  n ← resolve fs path;
  match n with
  | File true content => Ok {| data := content; pos := 0 |}
  | File false _ | Locked _ _ _ => Raise (PermissionError path)
  | Dir _ _ => Raise (IsADirectoryError path)
  end.

(** The size argument of [f.read]: it must fit a signed 64-bit integer
    ([OverflowError] otherwise), and [-1] is the only negative size
    ([ValueError] otherwise). *)
Definition read_size (n : Z) : result Z :=
  if (n <? - 2 ^ 63) || (2 ^ 63 <=? n) then Raise OverflowError
  else if n <? -1 then Raise ValueError
  else Ok n.

(** [f.read(n)]: up to [n] bytes from the position, all of the rest when
    [n] is [-1]; the position moves past what was read. *)
Definition read (f : handle) (n : Z) : result (list byte * handle) :=
  n ← read_size n;
  let rest := drop (pos f) (data f) in
  let chunk := if n <? 0 then rest else take (Z.to_nat n) rest in
  Ok (chunk, {| data := data f; pos := (pos f + length chunk)%nat |}).

Definition remaining (f : handle) : nat := (length (data f) - pos f)%nat.

(** [os.walk(top)] with its defaults: top-down, errors of [scandir]
    swallowed ([onerror=None]), so that a directory that cannot be listed
    gives nothing.  One triple [(dirpath, dirnames, filenames)] per
    directory listed. *)
Definition names_where (p : node → bool) (entries : list (string * node)) : list string :=
  fst <$> filter (λ e, p e.2 = true) entries.

Fixpoint walk_node (top : string) (n : node) : list (string * list string * list string) :=
  match n with
  | File _ _ | Locked _ _ _ => []
  | Dir _ entries =>
      (top, names_where is_dir entries, names_where (λ x, negb (is_dir x)) entries)
      :: flat_map (λ e, if is_dir e.2 then walk_node (PosixPath.join top e.1) e.2 else [])
           entries
  end.

(** The [OSError]s of [scandir(top)] are swallowed; the [ValueError] for
    a NUL in [top] is not one of them. *)
Definition walk (fs : node) (top : string)
    : result (list (string * list string * list string)) :=
  match resolve fs top with
  | Ok n => Ok (walk_node top n)
  | Raise ValueError => Raise ValueError
  | Raise _ => Ok []
  end.

End FS.

(** ** The fingerprint helpers of the script *)

(** The pattern [r"^\([A-Za-z0-9]+\)"].  The leading [^] holds at index 0,
    where [re.match] starts, so it contributes nothing further. *)
Definition alnum_class : list (ascii * ascii) :=
  [("A", "Z"); ("a", "z"); ("0", "9")]%char.

Definition form_pattern : Re.regex :=
  Re.Seq (Re.Chr "(") (Re.Seq (Re.Plus (Re.Class alnum_class)) (Re.Chr ")")).

Definition is_form_type (filename : string) : string :=
  if Re.re_match form_pattern filename then "Form(maybe)" else "".

(** [os.path.splitext(file)[1].lower()], line 32 of the script. *)
Definition file_extension (file : string) : string :=
  Str.lower (PosixPath.splitext file).2.

(** The extension as the specification words it: from the last '.' onward,
    lowercased, and empty when there is no '.'. *)
Definition extension_per_spec (file : string) : string :=
  let i := Str.rfind "." file in
  if i <? 0 then "" else Str.lower (Str.slice_from file i).

(** Every pass of [while chunk := f.read(chunk_size)] that enters the body
    leaves less of the file unread, which is why the loop ends. *)
Lemma read_progress (f : FS.handle) (n : Z) (chunk : list byte) (f' : FS.handle) :
  FS.read f n = Ok (chunk, f') → chunk ≠ [] → (FS.remaining f' < FS.remaining f)%nat.
Proof.
  unfold FS.read, FS.remaining. destruct (FS.read_size n) as [m|e]; [|done].
  cbn [mbind result_bind].
  set (rest := drop (FS.pos f) (FS.data f)).
  assert (length rest = length (FS.data f) - FS.pos f)%nat by apply length_drop.
  intros [= <- <-] Hne. simpl.
  assert (length (if (m <? 0)%Z then rest else take (Z.to_nat m) rest) ≤ length rest)%nat.
  { destruct (m <? 0); [lia | rewrite length_take; lia]. }
  destruct (if m <? 0 then rest else take (Z.to_nat m) rest); [done | simpl in *; lia].
Qed.

(** A value together with the equation that says what it is. *)
Definition inspect {A : Type} (a : A) : {b : A | a = b} := exist _ a eq_refl.

Fixpoint read_loop (chunk_size : Z) (f : FS.handle) (hash_algo : MD5.md5)
    (acc : Acc lt (FS.remaining f)) {struct acc} : result MD5.md5 :=
  match inspect (FS.read f chunk_size) with
  | exist _ (Raise e) _ => Raise e
  | exist _ (Ok (chunk, f')) was_read =>
      match decide (chunk = []) with
      | left _ => Ok hash_algo
      | right nonempty =>
          read_loop chunk_size f' (MD5.update hash_algo chunk)
            (Acc_inv acc (read_progress f chunk_size chunk f' was_read nonempty))
      end
  end.

Definition default_chunk_size : Z := 1024 * 1024.

Definition calculate_full_hash (fs : FS.node) (file_path : string)
    (chunk_size : Z) : result string :=
  f ← FS.open_rb fs file_path;
  hash_algo ← read_loop chunk_size f MD5.new (wf_guard 32 lt_wf _);
  Ok (MD5.hexdigest hash_algo).

(** One row of the listing: the 6-tuple the script appends, with the
    fields named after the report's columns. *)
Record FileRecord : Type := {
  file_name : string;
  file_hash : string;
  file_type : string;
  file_size : Z;
  folder : string;
  content_type : string
}.

Global Instance FileRecord_eq_dec : EqDecision FileRecord.
Proof. solve_decision. Defined.

(** The body of the inner loop of [list_all_files], for one [file] of the
    directory [root]. *)
Definition append_file (fs : FS.node) (root folder_label : string)
    (file_list : list FileRecord) (file : string) : result (list FileRecord) :=
  let file_path := PosixPath.join root file in
  file_size ← FS.getsize fs file_path;
  file_hash ← calculate_full_hash fs file_path default_chunk_size;
  let file_extension := file_extension file in
  let content_type := is_form_type file in
  Ok (file_list ++ [{| file_name := PosixPath.basename file;
                       file_hash := file_hash;
                       file_type := file_extension;
                       file_size := file_size;
                       folder := folder_label;
                       content_type := content_type |}])%list.

Definition list_all_files (fs : FS.node) (folder_path folder_label : string)
    : result (list FileRecord) :=
  triples ← FS.walk fs folder_path;
  for_each
    (λ file_list triple,
       let '(root, _, files) := triple in
       for_each (append_file fs root folder_label) files file_list)
    triples [].


(** A small tree to run the listing on. *)
Definition sample_fs : FS.node :=
  FS.Dir 4096
    [ ("folder1", FS.Dir 4096
         [ ("x.txt", FS.File true (list_byte_of_string "hello"));
           ("sub", FS.Dir 4096
              [ ("(A1)Form.PDF", FS.File true (list_byte_of_string "0123456789")) ]) ]);
      ("folder2", FS.Dir 4096
         [ ("y.txt", FS.File true (list_byte_of_string "hello"));
           (".hidden", FS.File true []) ]);
      ("locked", FS.Dir 4096 [ ("secret", FS.File false (list_byte_of_string "x")) ]);
      ("notes.txt", FS.File true (list_byte_of_string "abc")) ].

(** ** Worksheets (openpyxl)

    A workbook with its one active sheet: a grid of cells, each with a
    value and the style attributes the script sets, and the column widths.
    Cell text is stored as it is given; the limits openpyxl puts on cell
    text (32767 characters, no control characters) and on saving are not
    part of the model. *)

Module Sheet.

Inductive value : Type :=
| VNone
| VStr (s : string)
| VInt (n : Z).

(** [str(cell.value)] *)
Definition str (v : value) : string :=
  match v with
  | VNone => "None"
  | VStr s => s
  | VInt n => pretty n
  end.

Record PatternFill : Type := {
  start_color : string;
  end_color : string;
  fill_type : string
}.

Record Alignment : Type := { horizontal : string; vertical : string }.

Record Font : Type := { bold : bool }.

(** A cell; [None] in a style attribute is the default of a fresh cell
    (no fill, the default font, no alignment). *)
Record cell : Type := {
  value_of : value;
  fill : option PatternFill;
  font : option Font;
  alignment : option Alignment
}.

Definition new_cell (v : value) : cell :=
  {| value_of := v; fill := None; font := None; alignment := None |}.

Definition set_fill (f : PatternFill) (c : cell) : cell :=
  {| value_of := value_of c; fill := Some f; font := font c; alignment := alignment c |}.
Definition set_font (f : Font) (c : cell) : cell :=
  {| value_of := value_of c; fill := fill c; font := Some f; alignment := alignment c |}.
Definition set_alignment (a : Alignment) (c : cell) : cell :=
  {| value_of := value_of c; fill := fill c; font := font c; alignment := Some a |}.

Record worksheet : Type := {
  title : string;
  grid : list (list cell);                 (* row 1 first *)
  column_widths : gmap string Z            (* column_dimensions[letter].width *)
}.

(** [Workbook().active] *)
Definition empty : worksheet :=
  {| title := "Sheet"; grid := []; column_widths := ∅ |}.

Definition set_title (t : string) (ws : worksheet) : worksheet :=
  {| title := t; grid := grid ws; column_widths := column_widths ws |}.

(** [ws.append(row)], for values that the cells store as they are given
    ([bind_values] below is the check that comes first). *)
Definition append (row : list value) (ws : worksheet) : worksheet :=
  {| title := title ws; grid := grid ws ++ [new_cell <$> row];
     column_widths := column_widths ws |}.

(** [ws.max_row] and [ws.max_column]: the last row and column that hold
    cells, and 1 on a sheet without cells. *)
Definition max_row (ws : worksheet) : nat := Nat.max 1 (length (grid ws)).

Definition max_column (ws : worksheet) : nat := Nat.max 1 (max_list (length <$> grid ws)).

(** Column letters; the sheets of the script have six columns. *)
Definition column_letter (j : nat) : string := String (ascii_of_nat (65 + j)) "".
Definition column_index (letter : ascii) : nat := nat_of_ascii letter - 65.

(** [for cell in ws[row_num]: cell.attr = ...] *)
Definition style_row (row_num : nat) (f : cell → cell) (ws : worksheet) : worksheet :=
  {| title := title ws; grid := alter (fmap f) (row_num - 1)%nat (grid ws);
     column_widths := column_widths ws |}.

(** [ws[f"{letter}{row_num}"].attr = ...], for a cell that exists (every
    row the script appends has all six). *)
Definition style_cell (letter : ascii) (row_num : nat) (f : cell → cell)
    (ws : worksheet) : worksheet :=
  {| title := title ws;
     grid := alter (alter f (column_index letter)) (row_num - 1)%nat (grid ws);
     column_widths := column_widths ws |}.

(** [ws.columns]: nothing on a sheet without rows; otherwise the cells of
    each column, top to bottom, a position a short row lacks reading as a
    fresh empty cell. *)
Definition columns (ws : worksheet) : list (list cell) :=
  match grid ws with
  | [] => []
  | _ =>
      (λ j, (λ row, default (new_cell VNone) (row !! j)) <$> grid ws)
        <$> seq 0 (max_column ws)
  end.

Definition set_width (letter : string) (width : Z) (ws : worksheet) : worksheet :=
  {| title := title ws; grid := grid ws;
     column_widths := <[letter := width]> (column_widths ws) |}.

(** What the cell's value setter does with text ([Cell.check_string]):
    it is cut to 32767 characters, and refused with
    [IllegalCharacterError] if a control character other than tab, line
    feed and carriage return is left ([ILLEGAL_CHARACTERS_RE], the codes
    0-8, 11-12 and 14-31).  Numbers are taken as they are. *)
Definition illegal_character (a : ascii) : bool :=
  let n := nat_of_ascii a in
  Nat.leb n 8 || (Nat.leb 11 n && Nat.leb n 12) || (Nat.leb 14 n && Nat.leb n 31).

Definition check_string (s : string) : result string :=
  let s := Str.slice_to s 32767 in
  if Str.all (λ a, negb (illegal_character a)) s then Ok s
  else Raise IllegalCharacterError.

Definition bind_value (v : value) : result value :=
  match v with
  | VStr s => s ← check_string s; Ok (VStr s)
  | VNone | VInt _ => Ok v
  end.

Fixpoint bind_values (row : list value) : result (list value) :=
  match row with
  | [] => Ok []
  | v :: row => v ← bind_value v; row ← bind_values row; Ok (v :: row)
  end.

End Sheet.

(** [max(iterable)]: raises [ValueError] on an empty iterable. *)
Definition py_max (xs : list Z) : result Z :=
  match xs with
  | [] => Raise ValueError
  | x :: xs' => Ok (foldl Z.max x xs')
  end.

(** ** Python objects and the store

    The objects the report builder handles live in a store, addressed by
    location: the caller's list, and the DataFrame, the [defaultdict] and
    the workbook the function creates.  Saved workbooks are on [disk]. *)

Definition loc : Type := positive.

Inductive obj : Type :=
| PyList (items : list FileRecord)
| PyDataFrame (rows : list FileRecord)
| PyDefaultDict (items : gmap string Z)
| PyWorkbook (active : Sheet.worksheet).

Record world : Type := {
  heap : gmap loc obj;
  disk : gmap string Sheet.worksheet
}.

Definition alloc (o : obj) (w : world) : loc * world :=
  let l := fresh (dom (heap w)) in
  (l, {| heap := <[l := o]> (heap w); disk := disk w |}).

(** In-place change of the object at [l]. *)
Definition mutate (l : loc) (f : obj → obj) (w : world) : world :=
  {| heap := alter f l (heap w); disk := disk w |}.

Definition df_rows (df : loc) (w : world) : list FileRecord :=
  match heap w !! df with
  | Some (PyDataFrame rows) => rows
  | _ => []
  end.

Definition sheet_at (wb : loc) (w : world) : Sheet.worksheet :=
  match heap w !! wb with
  | Some (PyWorkbook ws) => ws
  | _ => Sheet.empty
  end.

Definition on_df (f : list FileRecord → list FileRecord) (o : obj) : obj :=
  match o with
  | PyDataFrame rows => PyDataFrame (f rows)
  | _ => o
  end.

Definition on_dict (f : gmap string Z → gmap string Z) (o : obj) : obj :=
  match o with
  | PyDefaultDict d => PyDefaultDict (f d)
  | _ => o
  end.

Definition on_sheet (f : Sheet.worksheet → Sheet.worksheet) (o : obj) : obj :=
  match o with
  | PyWorkbook ws => PyWorkbook (f ws)
  | _ => o
  end.

(** [pd.DataFrame(data, columns=[...])]: a new frame holding a copy of the
    rows of the list at [data]. *)
Definition DataFrame (data : loc) (w : world) : result (loc * world) :=
  match heap w !! data with
  | Some (PyList tuples) => Ok (alloc (PyDataFrame tuples) w)
  | _ => Raise TypeError
  end.

(** [d[key]] on a [defaultdict(int)]: a missing key is first stored with
    the default 0. *)
Definition dict_getitem (d : loc) (key : string) (w : world) : Z * world :=
  match heap w !! d with
  | Some (PyDefaultDict items) =>
      match items !! key with
      | Some n => (n, w)
      | None => (0, mutate d (on_dict <[key := 0]>) w)
      end
  | _ => (0, w)
  end.

(** [d[key] = n] *)
Definition dict_setitem (d : loc) (key : string) (n : Z) (w : world) : world :=
  mutate d (on_dict <[key := n]>) w.

(** [wb.save(path)]: the file at [path] is replaced. *)
Definition save (wb : loc) (path : string) (w : world) : world :=
  {| heap := heap w; disk := <[path := sheet_at wb w]> (disk w) |}.

(** ** The report builder *)

Section ReportBuilder.

(** [argsort ks] stands for the index array pandas obtains from
    [nargsort(ks, kind="quicksort")], which [sort_values] then uses to
    reorder the rows.  The script passes no [kind], so the default
    "quicksort" applies; pandas documents "mergesort" and "stable" as the
    only stable kinds.  [Numpy.argsort] below is that sort. *)
Variable argsort : list Z → list nat.

Definition sort_values (rows : list FileRecord) : list FileRecord :=
  omap (λ i, rows !! i) (argsort (file_size <$> rows)).

Definition headers : list string :=
  ["File Name"; "File Hash"; "File Type"; "File Size"; "Folder"; "Content Type"].

Definition header_fill : Sheet.PatternFill :=
  {| Sheet.start_color := "FFD700"; Sheet.end_color := "FFD700"; Sheet.fill_type := "solid" |}.
Definition folder1_fill : Sheet.PatternFill :=
  {| Sheet.start_color := "ADD8E6"; Sheet.end_color := "ADD8E6"; Sheet.fill_type := "solid" |}.
Definition folder2_fill : Sheet.PatternFill :=
  {| Sheet.start_color := "FFC0CB"; Sheet.end_color := "FFC0CB"; Sheet.fill_type := "solid" |}.
Definition duplicate_hash_fill : Sheet.PatternFill :=
  {| Sheet.start_color := "FFFF00"; Sheet.end_color := "FFFF00"; Sheet.fill_type := "solid" |}.
Definition center_alignment : Sheet.Alignment :=
  {| Sheet.horizontal := "center"; Sheet.vertical := "center" |}.

(** A row of [dataframe_to_rows(df, index=False, header=False)] as the
    list of cell values [ws.append] receives. *)
Definition row_values (row : FileRecord) : list Sheet.value :=
  [ Sheet.VStr (file_name row); Sheet.VStr (file_hash row); Sheet.VStr (file_type row);
    Sheet.VInt (file_size row); Sheet.VStr (folder row); Sheet.VStr (content_type row) ].

(** Lines 51-52: [hash_counts[file_hash] += 1]. *)
Definition count_hash (hash_counts : loc) (w : world) (file_hash : string) : world :=
  let '(n, w) := dict_getitem hash_counts file_hash w in
  dict_setitem hash_counts file_hash (n + 1) w.

(** Lines 69-72: the style of the header cells. *)
Definition header_style (c : Sheet.cell) : Sheet.cell :=
  Sheet.set_alignment center_alignment
    (Sheet.set_font {| Sheet.bold := true |} (Sheet.set_fill header_fill c)).

(** Lines 76-95: the body of the loop over the data rows, [values] being
    what the cells of the new row hold. *)
Definition write_values (hash_counts wb : loc) (w : world) (row : FileRecord)
    (values : list Sheet.value) : world :=
  let w := mutate wb (on_sheet (Sheet.append values)) w in
  let row_num := Sheet.max_row (sheet_at wb w) in
  let folder_name := folder row in
  let file_hash := file_hash row in
  let w :=
    if String.eqb folder_name "Folder1"
    then mutate wb (on_sheet (Sheet.style_cell "E" row_num (Sheet.set_fill folder1_fill))) w
    else if String.eqb folder_name "Folder2"
    then mutate wb (on_sheet (Sheet.style_cell "E" row_num (Sheet.set_fill folder2_fill))) w
    else w in
  let '(count, w) := dict_getitem hash_counts file_hash w in
  let w :=
    if 1 <? count
    then mutate wb (on_sheet (Sheet.style_cell "B" row_num (Sheet.set_fill duplicate_hash_fill))) w
    else w in
  mutate wb (on_sheet (Sheet.style_row row_num (Sheet.set_alignment center_alignment))) w.

Definition write_row (hash_counts wb : loc) (w : world) (row : FileRecord) : world :=
  write_values hash_counts wb w row (row_values row).

(** Lines 99-100: the width of one column, [col] being its cells and [j]
    the position that gives [col[0].column_letter]. *)
Definition fit_column (wb : loc) (w : world) (jcol : nat * list Sheet.cell) : result world :=
  max_length ← py_max ((λ c, Str.len (Sheet.str (Sheet.value_of c))) <$> jcol.2);
  Ok (mutate wb (on_sheet (Sheet.set_width (Sheet.column_letter jcol.1) (max_length + 2))) w).

Definition generate_styled_excel_report (file_list : loc) (report_path : string)
    (w : world) : result world :=
  '(df, w) ← DataFrame file_list w;
  let w := mutate df (on_df sort_values) w in
  let '(hash_counts, w) := alloc (PyDefaultDict ∅) w in
  let w := foldl (count_hash hash_counts) w (file_hash <$> df_rows df w) in
  let '(wb, w) := alloc (PyWorkbook Sheet.empty) w in
  let w := mutate wb (on_sheet (Sheet.set_title "File List Report")) w in
  let w := mutate wb (on_sheet (Sheet.append (Sheet.VStr <$> headers))) w in
  let w := mutate wb (on_sheet (Sheet.style_row 1 header_style)) w in
  let w := foldl (write_row hash_counts wb) w (df_rows df w) in
  let cols := Sheet.columns (sheet_at wb w) in
  w ← for_each (fit_column wb) (zip (seq 0 (length cols)) cols) w;
  Ok (save wb report_path w).

(** [generate_styled_excel_report] above takes cell text as the worksheet
    stores it.  The same function with the check that [ws.append] makes on
    every value it is given: text is cut to the length a cell holds, and a
    control character in it makes the call raise, so that nothing is
    saved. *)
Definition write_row_checked (hash_counts wb : loc) (w : world) (row : FileRecord)
    : result world :=
  values ← Sheet.bind_values (row_values row);
  Ok (write_values hash_counts wb w row values).

Definition generate_styled_excel_report_checked (file_list : loc) (report_path : string)
    (w : world) : result world :=
  '(df, w) ← DataFrame file_list w;
  let w := mutate df (on_df sort_values) w in
  let '(hash_counts, w) := alloc (PyDefaultDict ∅) w in
  let w := foldl (count_hash hash_counts) w (file_hash <$> df_rows df w) in
  let '(wb, w) := alloc (PyWorkbook Sheet.empty) w in
  let w := mutate wb (on_sheet (Sheet.set_title "File List Report")) w in
  values ← Sheet.bind_values (Sheet.VStr <$> headers);
  let w := mutate wb (on_sheet (Sheet.append values)) w in
  let w := mutate wb (on_sheet (Sheet.style_row 1 header_style)) w in
  w ← for_each (write_row_checked hash_counts wb) (df_rows df w) w;
  let cols := Sheet.columns (sheet_at wb w) in
  w ← for_each (fit_column wb) (zip (seq 0 (length cols)) cols) w;
  Ok (save wb report_path w).

End ReportBuilder.

(** What the script relies on from the sort: the index array is a
    rearrangement of the row positions, and the keys read in that order
    are non-decreasing.  The default kind promises nothing about the order
    of rows with equal keys. *)
Definition argsort_spec (argsort : list Z → list nat) : Prop :=
  ∀ ks, argsort ks ≡ₚ seq 0 (length ks)
        ∧ Sorted Z.le ((λ i, ks !!! i) <$> argsort ks).

(** One sort that meets [argsort_spec], to run the theorems on examples:
    merge sort of the keys paired with their positions, compared by key
    alone. *)
Definition key_le (a b : Z * nat) : Prop := a.1 ≤ b.1.

Global Instance key_le_dec : RelDecision key_le := λ a b, decide (a.1 ≤ b.1).

Definition merge_argsort (ks : list Z) : list nat :=
  (merge_sort key_le (zip ks (seq 0 (length ks)))).*2.

(** ** The sort behind [sort_values]

    [df.sort_values(by=...)] with the default [kind="quicksort"] asks
    numpy for [argsort(kind="quicksort")] of the key column.  This is
    numpy's introsort on an index array ([aquicksort_] of
    npysort/quicksort.cpp, the code that is not specific to a CPU): ranges
    of more than 16 indices are partitioned around the median of three,
    the others are sorted by insertion, and a range whose depth budget of
    [2 * floor(log2 n)] is spent is heap-sorted.  [tosort] is the index
    array, [v] the keys. *)
Module Numpy.

Definition SMALL_QUICKSORT : nat := 16.

Section Argsort.

Variable v : list Z.

Definition less (x y : Z) : bool := x <? y.

(** [v[*p]] *)
Definition key (tosort : list nat) (p : nat) : Z := v !!! (tosort !!! p).

Definition INTP_SWAP (p q : nat) (tosort : list nat) : list nat :=
  <[p := tosort !!! q]> (<[q := tosort !!! p]> tosort).

(** [while (less(v[*pi], vp)) ++pi] and [while (less(vp, v[*pj])) --pj];
    the pivot at either end of the range stops them. *)
Fixpoint scan_up (fuel : nat) (vp : Z) (tosort : list nat) (pi : nat) : nat :=
  match fuel with
  | O => pi
  | S fuel => if less (key tosort pi) vp then scan_up fuel vp tosort (S pi) else pi
  end.

Fixpoint scan_down (fuel : nat) (vp : Z) (tosort : list nat) (pj : nat) : nat :=
  match fuel with
  | O => pj
  | S fuel => if less vp (key tosort pj) then scan_down fuel vp tosort (pred pj) else pj
  end.

(** The [for (;;)] loop of the partition. *)
Fixpoint partition_loop (fuel : nat) (vp : Z) (pi pj : nat) (tosort : list nat)
    : nat * list nat :=
  match fuel with
  | O => (pi, tosort)
  | S fuel =>
      let pi := scan_up (length tosort) vp tosort (S pi) in
      let pj := scan_down (length tosort) vp tosort (pred pj) in
      if Nat.leb pj pi then (pi, tosort)
      else partition_loop fuel vp pi pj (INTP_SWAP pi pj tosort)
  end.

(** One partition of the range [pl..pr]; the result is the final place
    [pi] of the pivot. *)
Definition partition (pl pr : nat) (tosort : list nat) : nat * list nat :=
  let pm := (pl + (pr - pl) / 2)%nat in
  let tosort := if less (key tosort pm) (key tosort pl) then INTP_SWAP pm pl tosort
                else tosort in
  let tosort := if less (key tosort pr) (key tosort pm) then INTP_SWAP pr pm tosort
                else tosort in
  let tosort := if less (key tosort pm) (key tosort pl) then INTP_SWAP pm pl tosort
                else tosort in
  let vp := key tosort pm in
  let tosort := INTP_SWAP pm (pr - 1) tosort in
  let '(pi, tosort) := partition_loop (length tosort) vp pl (pr - 1)%nat tosort in
  (pi, INTP_SWAP pi (pr - 1) tosort).

(** Insertion sort of [pl..pr]: [while (pj > pl && less(vp, v[*pk]))
    *pj-- = *pk--]. *)
Fixpoint shift (fuel : nat) (pl : nat) (vp : Z) (pj : nat) (tosort : list nat)
    : nat * list nat :=
  match fuel with
  | O => (pj, tosort)
  | S fuel =>
      if Nat.ltb pl pj && less vp (key tosort (pj - 1))
      then shift fuel pl vp (pj - 1)%nat (<[pj := tosort !!! (pj - 1)%nat]> tosort)
      else (pj, tosort)
  end.

Definition insert_one (pl : nat) (tosort : list nat) (pi : nat) : list nat :=
  let vi := tosort !!! pi in
  let '(pj, tosort) := shift (length tosort) pl (v !!! vi) pi tosort in
  <[pj := vi]> tosort.

Definition insertion_sort (pl pr : nat) (tosort : list nat) : list nat :=
  foldl (insert_one pl) tosort (seq (S pl) (pr - pl)).

(** Heap sort of the [n] indices from [pl] on ([aheapsort_]); the heap is
    indexed from 1, [a[i]] being [tosort[pl + i - 1]]. *)
Definition heap_at (pl : nat) (tosort : list nat) (i : nat) : nat :=
  tosort !!! (pl + i - 1)%nat.

(** [for (i, j; j <= n;)]: the hole at [i] moves down past larger keys. *)
Fixpoint sift (fuel : nat) (pl n tmp i j : nat) (tosort : list nat) : nat * list nat :=
  match fuel with
  | O => (i, tosort)
  | S fuel =>
      if Nat.leb j n then
        let j := if Nat.ltb j n
                    && less (v !!! heap_at pl tosort j) (v !!! heap_at pl tosort (j + 1))
                 then (j + 1)%nat else j in
        if less (v !!! tmp) (v !!! heap_at pl tosort j)
        then sift fuel pl n tmp j (j + j)%nat
               (<[(pl + i - 1)%nat := heap_at pl tosort j]> tosort)
        else (i, tosort)
      else (i, tosort)
  end.

Definition build_heap (pl n : nat) (tosort : list nat) (l : nat) : list nat :=
  let tmp := heap_at pl tosort l in
  let '(i, tosort) := sift (length tosort) pl n tmp l (2 * l)%nat tosort in
  <[(pl + i - 1)%nat := tmp]> tosort.

Definition pop_heap (pl : nat) (tosort : list nat) (n : nat) : list nat :=
  let tmp := heap_at pl tosort n in
  let tosort := <[(pl + n - 1)%nat := heap_at pl tosort 1]> tosort in
  let '(i, tosort) := sift (length tosort) pl (n - 1) tmp 1 2 tosort in
  <[(pl + i - 1)%nat := tmp]> tosort.

Definition aheapsort (pl n : nat) (tosort : list nat) : list nat :=
  let tosort := foldl (build_heap pl n) tosort (rev (seq 1 (n / 2))) in
  foldl (pop_heap pl) tosort (rev (seq 2 (n - 1))).

(** The ranges of [aquicksort_].  After a partition the smaller part is
    sorted next and the larger is put on the stack; [popped] tells that
    the range comes from the stack, where its depth budget is checked.
    The parts are disjoint, so the order in which they are sorted does not
    show in the result. *)
Fixpoint sort_range (fuel : nat) (popped : bool) (cdepth : Z) (pl pr : nat)
    (tosort : list nat) : list nat :=
  match fuel with
  | O => tosort
  | S fuel =>
      if popped && (cdepth <? 0) then aheapsort pl (pr - pl + 1) tosort
      else if Nat.ltb SMALL_QUICKSORT (pr - pl) then
        let '(pi, tosort) := partition pl pr tosort in
        let cdepth := cdepth - 1 in
        if Nat.ltb (pi - pl) (pr - pi)
        then sort_range fuel true cdepth (pi + 1) pr
               (sort_range fuel false cdepth pl (pi - 1) tosort)
        else sort_range fuel true cdepth pl (pi - 1)
               (sort_range fuel false cdepth (pi + 1) pr tosort)
      else insertion_sort pl pr tosort
  end.

(** [npy_get_msb(num)], the position of the highest set bit. *)
Definition npy_get_msb (num : nat) : Z := Z.log2 (Z.of_nat num).

Definition aquicksort : list nat :=
  let num := length v in
  sort_range (S num) true (npy_get_msb num * 2) 0 (num - 1) (seq 0 num).

End Argsort.

(** [ks.argsort(kind="quicksort")] *)
Definition argsort (ks : list Z) : list nat := aquicksort ks.

End Numpy.

(** ** The sheet as a function of the listed files

    The same steps as [generate_styled_excel_report], on the values alone;
    [report_run] below shows that this is the sheet the function saves. *)

Section ReportSheet.

Variable argsort : list Z → list nat.

Definition count_step (d : gmap string Z) (file_hash : string) : gmap string Z :=
  <[file_hash := default 0 (d !! file_hash) + 1]> d.

Definition hash_counts_of (rows : list FileRecord) : gmap string Z :=
  foldl count_step ∅ (file_hash <$> rows).

Definition header_sheet : Sheet.worksheet :=
  Sheet.style_row 1 header_style
    (Sheet.append (Sheet.VStr <$> headers) (Sheet.set_title "File List Report" Sheet.empty)).

Definition sheet_row (counts : gmap string Z) (ws : Sheet.worksheet) (row : FileRecord)
    : Sheet.worksheet :=
  let ws := Sheet.append (row_values row) ws in
  let row_num := Sheet.max_row ws in
  let ws :=
    if String.eqb (folder row) "Folder1"
    then Sheet.style_cell "E" row_num (Sheet.set_fill folder1_fill) ws
    else if String.eqb (folder row) "Folder2"
    then Sheet.style_cell "E" row_num (Sheet.set_fill folder2_fill) ws
    else ws in
  let ws :=
    if 1 <? default 0 (counts !! file_hash row)
    then Sheet.style_cell "B" row_num (Sheet.set_fill duplicate_hash_fill) ws
    else ws in
  Sheet.style_row row_num (Sheet.set_alignment center_alignment) ws.

(** The length of a cell's rendered value, [len(str(cell.value))]. *)
Definition rendered_length (c : Sheet.cell) : Z := Str.len (Sheet.str (Sheet.value_of c)).

Definition fit_step (ws : Sheet.worksheet) (jcol : nat * list Sheet.cell) : Sheet.worksheet :=
  Sheet.set_width (Sheet.column_letter jcol.1)
    (foldr Z.max 0 (rendered_length <$> jcol.2) + 2) ws.

Definition fit_columns (ws : Sheet.worksheet) : Sheet.worksheet :=
  let cols := Sheet.columns ws in
  foldl fit_step ws (zip (seq 0 (length cols)) cols).

Definition report_sheet (file_list : list FileRecord) : Sheet.worksheet :=
  let rows := sort_values argsort file_list in
  fit_columns (foldl (sheet_row (hash_counts_of rows)) header_sheet rows).

(** The cells of the header row and of a data row, written out. *)
Definition header_cells : list Sheet.cell :=
  (λ h, {| Sheet.value_of := Sheet.VStr h; Sheet.fill := Some header_fill;
           Sheet.font := Some {| Sheet.bold := true |};
           Sheet.alignment := Some center_alignment |}) <$> headers.

Definition plain (v : Sheet.value) (f : option Sheet.PatternFill) : Sheet.cell :=
  {| Sheet.value_of := v; Sheet.fill := f; Sheet.font := None;
     Sheet.alignment := Some center_alignment |}.

Definition folder_fill (label : string) : option Sheet.PatternFill :=
  if String.eqb label "Folder1" then Some folder1_fill
  else if String.eqb label "Folder2" then Some folder2_fill
  else None.

Definition hash_fill (counts : gmap string Z) (h : string) : option Sheet.PatternFill :=
  if 1 <? default 0 (counts !! h) then Some duplicate_hash_fill else None.

Definition data_cells (counts : gmap string Z) (row : FileRecord) : list Sheet.cell :=
  [ plain (Sheet.VStr (file_name row)) None;
    plain (Sheet.VStr (file_hash row)) (hash_fill counts (file_hash row));
    plain (Sheet.VStr (file_type row)) None;
    plain (Sheet.VInt (file_size row)) None;
    plain (Sheet.VStr (folder row)) (folder_fill (folder row));
    plain (Sheet.VStr (content_type row)) None ].

End ReportSheet.

(** ** Vocabulary of the statements *)

(** An ASCII letter or digit. *)
Definition is_alnum (c : ascii) : bool :=
  Str.in_range "A" "Z" c || Str.in_range "a" "z" c || Str.in_range "0" "9" c.

(** The name begins with a parenthesised, non-empty alphanumeric token. *)
Definition form_name (name : string) : Prop :=
  ∃ token rest, name = "(" +:+ token +:+ ")" +:+ rest
                ∧ token ≠ "" ∧ Str.all is_alnum token = true.

(** A character of the ASCII range, where [str.lower] changes the
    letters A-Z alone. *)
Definition is_ascii (a : ascii) : bool := Nat.ltb (nat_of_ascii a) 128.

(** [c] does not occur in [s]. *)
Definition no_char (c : ascii) (s : string) : bool :=
  Str.all (λ a, negb (Ascii.eqb a c)) s.

(** Every character of [s] is [c]. *)
Definition only_char (c : ascii) (s : string) : bool :=
  Str.all (λ a, Ascii.eqb a c) s.

(** The world [w] with the object at [l] replaced by [o]. *)
Definition store (l : loc) (o : obj) (w : world) : world :=
  {| heap := <[l := o]> (heap w); disk := disk w |}.

(** Text that a cell stores as it is given: at most 32767 characters, no
    control character other than tab, line feed and carriage return. *)
Definition accepted (s : string) : bool :=
  (Str.len s <=? 32767) && Str.all (λ a, negb (Sheet.illegal_character a)) s.

Definition record_accepted (row : FileRecord) : bool :=
  accepted (file_name row) && accepted (file_hash row) && accepted (file_type row)
  && accepted (folder row) && accepted (content_type row).


(** A listing of twenty files of four sizes, as two folders give it. *)
Definition sized_file (label : string) (i size : Z) : FileRecord :=
  {| file_name := "file" +:+ pretty i +:+ ".dat";
     file_hash := MD5.hex (MD5.digest (list_byte_of_string (pretty i)));
     file_type := ".dat"; file_size := size; folder := label; content_type := "" |}.

Definition twenty_files : list FileRecord :=
  zip_with (sized_file "Folder1") (seqZ 0 10)
    [4096; 120; 4096; 120; 7; 4096; 0; 120; 7; 4096]
  ++ zip_with (sized_file "Folder2") (seqZ 10 10)
       [120; 0; 4096; 7; 120; 4096; 0; 7; 120; 4096].

(** The scenario of two folders: folder A with a 10-byte and a 5-byte
    file, folder B with a 10-byte file of the same content as A's. *)
Definition sample_files : list FileRecord :=
  [ {| file_name := "a10.bin"; file_hash := "781e5e245d69b566979b86e28d23f2c7";
       file_type := ".bin"; file_size := 10; folder := "Folder1"; content_type := "" |};
    {| file_name := "a5.txt"; file_hash := "5d41402abc4b2a76b9719d911017c592";
       file_type := ".txt"; file_size := 5; folder := "Folder1"; content_type := "" |};
    {| file_name := "b10.bin"; file_hash := "781e5e245d69b566979b86e28d23f2c7";
       file_type := ".bin"; file_size := 10; folder := "Folder2"; content_type := "" |} ].

Definition sample_world : world :=
  {| heap := {[ 1%positive := PyList sample_files ]}; disk := ∅ |}.

Definition empty_world : world :=
  {| heap := {[ 1%positive := PyList [] ]}; disk := ∅ |}.

(** The sample files and one more under a third label. *)
Definition labelled_files : list FileRecord :=
  sample_files
  ++ [ {| file_name := "old.txt"; file_hash := "900150983cd24fb0d6963f7d28e17f72";
          file_type := ".txt"; file_size := 3; folder := "Archive"; content_type := "" |} ].

Definition labelled_world : world :=
  {| heap := {[ 1%positive := PyList labelled_files ]}; disk := ∅ |}.

(** One file under a label that holds the control character U+0001. *)
Definition bad_label_files : list FileRecord :=
  [ {| file_name := "a.txt"; file_hash := "900150983cd24fb0d6963f7d28e17f72";
       file_type := ".txt"; file_size := 3;
       folder := "Bad" +:+ String "001" "Label"; content_type := "" |} ].

Definition bad_label_world : world :=
  {| heap := {[ 1%positive := PyList bad_label_files ]}; disk := ∅ |}.

(** ** The script's entry point, lines 106-115 *)

Section Main.

Variable argsort : list Z → list nat.

Definition folder1 : string := "folder1".
Definition folder2 : string := "folder2".
Definition report_path : string := "all_files_report.xlsx".

(** The two listings are concatenated into a new list, the report is
    built from it, and one line is printed; the result is the world after
    the run and the printed line. *)
Definition main (fs : FS.node) (w : world) : result (world * string) :=
  files1 ← list_all_files fs folder1 "Folder1";
  files2 ← list_all_files fs folder2 "Folder2";
  let '(all_files, w) := alloc (PyList (files1 ++ files2)) w in
  w ← generate_styled_excel_report argsort all_files report_path w;
  Ok (w, "Styled Excel report generated: " +:+ report_path).

End Main.

(** ** Trees the listing is stated on *)

(** A name a directory entry can have: not empty, not "." or "..", no
    slash and no NUL. *)
Definition valid_name (name : string) : bool :=
  negb (String.eqb name "") && negb (String.eqb name ".")
  && negb (String.eqb name "..")
  && Str.all (λ a, negb (Ascii.eqb a "/")) name
  && FS.no_nul name.

(** Entry names are valid and differ within a directory. *)
Fixpoint well_formed (n : FS.node) : bool :=
  match n with
  | FS.File _ _ => true
  | FS.Dir _ entries | FS.Locked _ _ entries =>
      bool_decide (NoDup entries.*1)
      && forallb (λ e, valid_name e.1 && well_formed e.2) entries
  end.

Fixpoint all_readable (n : FS.node) : bool :=
  match n with
  | FS.File readable _ => readable
  | FS.Dir _ entries => forallb (λ e, all_readable e.2) entries
  | FS.Locked _ _ _ => true
  end.

(** The record of the regular file [name] with the given content. *)
Definition record_of (folder_label name : string) (content : list byte) : FileRecord :=
  {| file_name := name;
     file_hash := MD5.hex (MD5.digest content);
     file_type := file_extension name;
     file_size := Z.of_nat (length content);
     folder := folder_label;
     content_type := is_form_type name |}.

Definition file_records (folder_label : string) (entries : list (string * FS.node))
    : list FileRecord :=
  flat_map (λ e, match e.2 with
                 | FS.File _ content => [record_of folder_label e.1 content]
                 | FS.Dir _ _ | FS.Locked _ _ _ => []
                 end) entries.

(** The records of all regular files the walk reaches below a node, in
    its order: the files of a directory first, then its subdirectories in
    turn; nothing below a directory that cannot be listed. *)
Fixpoint records_under (folder_label : string) (n : FS.node) : list FileRecord :=
  match n with
  | FS.File _ _ | FS.Locked _ _ _ => []
  | FS.Dir _ entries =>
      file_records folder_label entries
      ++ flat_map (λ e, records_under folder_label e.2) entries
  end.

(** [path] is not empty, holds no NUL and names the node [n] of the tree
    [fs]. *)
Definition at_path (fs : FS.node) (path : string) (n : FS.node) : Prop :=
  FS.no_nul path = true ∧ path ≠ ""
  ∧ ∃ up, FS.resolve_from [] fs (FS.components path) = Ok (up, n).

(** The regular files directly in a directory are all readable; so are
    all files the walk reaches below its subdirectories. *)
Definition files_readable (entries : list (string * FS.node)) : bool :=
  forallb (λ e, match e.2 with FS.File readable _ => readable | _ => true end)
    entries.

Definition dirs_readable (entries : list (string * FS.node)) : bool :=
  forallb (λ e, match e.2 with FS.File _ _ => true | _ => all_readable e.2 end)
    entries.

(** The body of the outer loop of [list_all_files], for one triple of the
    walk. *)
Definition listing_step (fs : FS.node) (folder_label : string)
    (file_list : list FileRecord) (triple : string * list string * list string)
    : result (list FileRecord) :=
  let '(root, _, files) := triple in
  for_each (append_file fs root folder_label) files file_list.

(** What the walk below a directory gives: all records, in walk order, or
    a [PermissionError] at the first unreadable file. *)
Definition listing_of (fs : FS.node) (folder_label : string) (n : FS.node) : Prop :=
  ∀ path file_list,
    at_path fs path n → well_formed n = true → FS.is_dir n = true →
    (all_readable n = true →
     for_each (listing_step fs folder_label) (FS.walk_node path n) file_list
     = Ok (file_list ++ records_under folder_label n))
    ∧ (all_readable n = false →
       ∃ bad, for_each (listing_step fs folder_label) (FS.walk_node path n) file_list
              = Raise (PermissionError bad)).

(** What every record of a listing satisfies: it carries the label, and
    its name, type and hint come from one entry name, its size and hash
    from the content of one readable file. *)
Definition describes_a_file (fs : FS.node) (folder_label : string) (row : FileRecord) : Prop :=
  folder row = folder_label
  ∧ (∃ file, file_name row = PosixPath.basename file
             ∧ file_type row = file_extension file
             ∧ content_type row = is_form_type file)
  ∧ (∃ path content, FS.resolve fs path = Ok (FS.File true content)
                     ∧ file_size row = Z.of_nat (length content)
                     ∧ file_hash row = MD5.hex (MD5.digest content)).

(** A lowercase hexadecimal digit. *)
Definition is_hex (c : ascii) : bool :=
  Str.in_range "0" "9" c || Str.in_range "a" "f" c.

(** * Properties *)

Example md5_empty : MD5.hexdigest MD5.new = "d41d8cd98f00b204e9800998ecf8427e".
Proof. vm_compute. reflexivity. Qed.

Example md5_hello :
  MD5.hexdigest (MD5.update MD5.new (list_byte_of_string "hello"))
  = "5d41402abc4b2a76b9719d911017c592".
Proof. vm_compute. reflexivity. Qed.

Example md5_two_blocks :
  MD5.hex (MD5.digest (replicate 64 "a"%byte)) = "014842d480b571495a4a0363793f7367".
Proof. vm_compute. reflexivity. Qed.

Example list_folder1 :
  list_all_files sample_fs "folder1" "Folder1"
  = Ok [ {| file_name := "x.txt"; file_hash := "5d41402abc4b2a76b9719d911017c592";
            file_type := ".txt"; file_size := 5; folder := "Folder1";
            content_type := "" |};
         {| file_name := "(A1)Form.PDF"; file_hash := "781e5e245d69b566979b86e28d23f2c7";
            file_type := ".pdf"; file_size := 10; folder := "Folder1";
            content_type := "Form(maybe)" |} ].
Proof. vm_compute. reflexivity. Qed.

Example list_locked :
  list_all_files sample_fs "locked" "Folder1" = Raise (PermissionError "locked/secret").
Proof. vm_compute. reflexivity. Qed.

Example is_form_type_ex1 : is_form_type "(AB12)invoice.pdf" = "Form(maybe)".
Proof. reflexivity. Qed.

Example is_form_type_ex2 : is_form_type "invoice(AB12).pdf" = "".
Proof. reflexivity. Qed.

Example is_form_type_ex3 : is_form_type "()empty.txt" = "".
Proof. reflexivity. Qed.

Example ext_ex1 : file_extension "report.final.PDF" = ".pdf".
Proof. reflexivity. Qed.

Example ext_ex2 : file_extension "README" = "".
Proof. reflexivity. Qed.

Example ext_ex3 : file_extension ".bashrc" = "".
Proof. reflexivity. Qed.

Example ext_ex4 : file_extension "..a.B" = ".b".
Proof. reflexivity. Qed.

Example ext_ex5 : PosixPath.splitext "a/b.c/d" = ("a/b.c/d", "").
Proof. reflexivity. Qed.

(** ** Strings *)

Lemma str_app_nil_l (s : string) : "" +:+ s = s.
Proof. reflexivity. Qed.

Lemma str_app_cons (a : ascii) (s t : string) : String a s +:+ t = String a (s +:+ t).
Proof. reflexivity. Qed.

Lemma str_app_nil_r (s : string) : s +:+ "" = s.
Proof. induction s as [|a s IH]; [done|]. by rewrite str_app_cons, IH. Qed.

Lemma str_app_assoc (s t u : string) : (s +:+ t) +:+ u = s +:+ (t +:+ u).
Proof. induction s as [|a s IH]; [done|]. by rewrite !str_app_cons, IH. Qed.

Lemma str_app_eq_nil (s t : string) : s +:+ t = "" → s = "" ∧ t = "".
Proof. destruct s; [rewrite str_app_nil_l; auto | rewrite str_app_cons; discriminate]. Qed.

Lemma str_app_eq_cons (s t u : string) (a : ascii) :
  s +:+ t = String a u →
  (s = "" ∧ t = String a u) ∨ (∃ s', s = String a s' ∧ u = s' +:+ t).
Proof.
  destruct s as [|b s]; [rewrite str_app_nil_l; auto|].
  rewrite str_app_cons. intros [= -> <-]. right. eauto.
Qed.

(** ** Regular expressions: what [re_match] decides *)

Lemma nullable_matches (r : Re.regex) : Re.nullable r = true ↔ Re.matches r "".
Proof.
  split.
  - induction r; simpl; intros H; try discriminate.
    + constructor.
    + apply andb_true_iff in H as [H1 H2].
      change "" with ("" +:+ ""). constructor; auto.
    + apply orb_true_iff in H as [H|H]; [apply Re.m_alt_l | apply Re.m_alt_r]; auto.
    + constructor.
  - intros H. remember "" as s eqn:Hs. induction H; simpl; try discriminate; try done.
    + apply str_app_eq_nil in Hs as [-> ->]. rewrite IHmatches1, IHmatches2; done.
    + rewrite IHmatches; done.
    + rewrite IHmatches, orb_true_r; done.
Qed.

Lemma matches_seq_inv (r1 r2 : Re.regex) (s : string) :
  Re.matches (Re.Seq r1 r2) s →
  ∃ s1 s2, s = s1 +:+ s2 ∧ Re.matches r1 s1 ∧ Re.matches r2 s2.
Proof. inversion 1; subst; eauto. Qed.

Lemma matches_star_cons (r : Re.regex) (a : ascii) (s : string) :
  Re.matches (Re.Star r) (String a s) →
  ∃ s1 s2, s = s1 +:+ s2 ∧ Re.matches r (String a s1) ∧ Re.matches (Re.Star r) s2.
Proof.
  intros H. remember (Re.Star r) as r' eqn:Hr. remember (String a s) as t eqn:Ht.
  revert s Ht. induction H; intros s' Ht; try discriminate.
  injection Hr as ->.
  apply str_app_eq_cons in Ht as [[-> ->]|(s1' & -> & ->)].
  - apply IHmatches2; done.
  - eauto.
Qed.

Lemma deriv_matches (r : Re.regex) (a : ascii) (s : string) :
  Re.matches (Re.deriv a r) s ↔ Re.matches r (String a s).
Proof.
  revert s. induction r as [| |c|ranges|r1 IH1 r2 IH2|r1 IH1 r2 IH2|r1 IH1]; intros s; simpl.
  - split; inversion 1.
  - split; inversion 1.
  - destruct (Ascii.eqb_spec a c) as [->|Hne]; split; inversion 1; subst; try constructor.
    done.
  - destruct (Re.in_class ranges a) eqn:Hin; split; inversion 1; subst.
    + by constructor.
    + constructor.
    + congruence.
  - assert (Hseq : ∀ s, Re.matches (Re.Seq (Re.deriv a r1) r2) s →
                        Re.matches (Re.Seq r1 r2) (String a s)).
    { intros s0 H. inversion H; subst. rewrite <- str_app_cons.
      constructor; [by apply IH1 | done]. }
    destruct (Re.nullable r1) eqn:Hnull; split.
    + inversion 1; subst; [by apply Hseq|].
      rewrite <- (str_app_nil_l (String a s)). constructor; [by apply nullable_matches | by apply IH2].
    + intros (s1 & s2 & Heq & H1 & H2)%matches_seq_inv. symmetry in Heq.
      apply str_app_eq_cons in Heq as [[-> ->]|(s1' & -> & ->)].
      * apply Re.m_alt_r. by apply IH2.
      * apply Re.m_alt_l. constructor; [by apply IH1 | done].
    + apply Hseq.
    + intros (s1 & s2 & Heq & H1 & H2)%matches_seq_inv. symmetry in Heq.
      apply str_app_eq_cons in Heq as [[-> ->]|(s1' & -> & ->)].
      * apply nullable_matches in H1. congruence.
      * constructor; [by apply IH1 | done].
  - split.
    + inversion 1; subst; [apply Re.m_alt_l; by apply IH1 | apply Re.m_alt_r; by apply IH2].
    + inversion 1; subst; [apply Re.m_alt_l; by apply IH1 | apply Re.m_alt_r; by apply IH2].
  - split.
    + inversion 1; subst. rewrite <- str_app_cons. constructor; [by apply IH1 | done].
    + intros H. apply matches_star_cons in H as (s1 & s2 & -> & H1 & H2).
      constructor; [by apply IH1 | done].
Qed.

Lemma re_match_spec (r : Re.regex) (s : string) :
  Re.re_match r s = true ↔ ∃ p q, s = p +:+ q ∧ Re.matches r p.
Proof.
  revert r. induction s as [|a s IH]; intros r; simpl.
  - rewrite orb_false_r, nullable_matches. split.
    + intros H. by exists "", "".
    + intros (p & q & Heq & H). symmetry in Heq. apply str_app_eq_nil in Heq as [-> _]. done.
  - rewrite orb_true_iff, nullable_matches, IH. split.
    + intros [H|(p & q & -> & H)].
      * by exists "", (String a s).
      * exists (String a p), q. split; [done | by apply deriv_matches].
    + intros (p & q & Heq & H). symmetry in Heq.
      apply str_app_eq_cons in Heq as [[-> _]|(p' & -> & ->)]; [by left|].
      right. exists p', q. split; [done | by apply deriv_matches].
Qed.

(** ** The form heuristic *)

Lemma in_alnum_class (c : ascii) : Re.in_class alnum_class c = is_alnum c.
Proof. unfold Re.in_class, alnum_class, is_alnum; simpl. by rewrite orb_false_r, orb_assoc. Qed.

Lemma all_ext (p q : ascii → bool) (s : string) :
  (∀ a, p a = q a) → Str.all p s = Str.all q s.
Proof. intros Hpq. induction s as [|a s IH]; simpl; [done|]. by rewrite Hpq, IH. Qed.

Lemma matches_star_class (ranges : list (ascii * ascii)) (s : string) :
  Re.matches (Re.Star (Re.Class ranges)) s ↔ Str.all (Re.in_class ranges) s = true.
Proof.
  split.
  - intros H. remember (Re.Star (Re.Class ranges)) as r eqn:Hr.
    induction H; try discriminate; [done|].
    injection Hr as ->. inversion H; subst. rewrite str_app_cons, str_app_nil_l. simpl.
    rewrite IHmatches2 by done. by rewrite andb_true_r.
  - induction s as [|a s IH]; simpl; [constructor|].
    intros [Ha Hs]%andb_true_iff.
    change (String a s) with (String a "" +:+ s). constructor; [by constructor | auto].
Qed.

Lemma matches_form_pattern (p : string) :
  Re.matches form_pattern p ↔
  ∃ token, p = "(" +:+ token +:+ ")" ∧ token ≠ "" ∧ Str.all is_alnum token = true.
Proof.
  unfold form_pattern, Re.Plus. split.
  - intros (s1 & s2 & -> & H1 & (s3 & s4 & -> & H3 & H4)%matches_seq_inv)%matches_seq_inv.
    apply matches_seq_inv in H3 as (s5 & s6 & -> & H5 & H6).
    inversion H1; subst. inversion H4; subst. inversion H5; subst.
    apply matches_star_class in H6.
    exists (String c s6). split; [by rewrite !str_app_cons, !str_app_nil_l|].
    split; [done|]. simpl.
    rewrite <- (all_ext _ _ s6 in_alnum_class), <- in_alnum_class.
    by apply andb_true_iff.
  - intros (token & -> & Hne & Hall). destruct token as [|c token]; [done|].
    simpl in Hall. apply andb_true_iff in Hall as [Hc Htok].
    change ("(" +:+ String c token +:+ ")")
      with (String "(" "" +:+ ((String c "" +:+ token) +:+ String ")" "")).
    constructor; [constructor|]. constructor; [|constructor].
    constructor.
    + constructor. by rewrite in_alnum_class.
    + apply matches_star_class. by rewrite (all_ext _ _ token in_alnum_class).
Qed.

Lemma re_match_form_pattern (name : string) :
  Re.re_match form_pattern name = true ↔ form_name name.
Proof.
  rewrite re_match_spec. unfold form_name. split.
  - intros (p & q & -> & (token & -> & Hne & Hall)%matches_form_pattern).
    exists token, q. by rewrite !str_app_assoc.
  - intros (token & rest & -> & Hne & Hall).
    exists ("(" +:+ token +:+ ")"), rest. split; [by rewrite !str_app_assoc|].
    apply matches_form_pattern. eauto.
Qed.

(** C4 (as amended): the hint is "Form(maybe)" exactly when the name
    begins with an opening parenthesis, one or more ASCII letters or digits
    and a closing parenthesis, and is the empty string otherwise; so
    "(AB12)invoice.pdf" gives "Form(maybe)", while "invoice(AB12).pdf" and
    "()empty.txt" give the empty string. *)
Theorem is_form_type_spec (name : string) :
  (is_form_type name = "Form(maybe)" ↔ form_name name)
  ∧ (is_form_type name = "" ↔ ¬ form_name name)
  ∧ is_form_type "(AB12)invoice.pdf" = "Form(maybe)"
  ∧ is_form_type "invoice(AB12).pdf" = ""
  ∧ is_form_type "()empty.txt" = "".
Proof.
  pose proof (re_match_form_pattern name) as Hm. unfold is_form_type.
  destruct (Re.re_match form_pattern name).
  - split_and!; try done.
    + split; [intros _; by apply Hm | done].
    + split; [done | intros Hn; destruct Hn; by apply Hm].
  - split_and!; try done.
    + split; [done | intros Hf; apply Hm in Hf; done].
    + split; [intros _ Hf; apply Hm in Hf; done | done].
Qed.

(** C4 as written fails on its own third example: empty parentheses do not
    match, and "()empty.txt" gets the empty hint. *)
Lemma is_form_type_empty_parens : is_form_type "()empty.txt" ≠ "Form(maybe)".
Proof. vm_compute. discriminate. Qed.

(** ** The extension *)

Lemma rfind_ge (c : ascii) (s : string) : -1 ≤ Str.rfind c s.
Proof.
  induction s as [|a s IH]; simpl; [lia|].
  destruct (0 <=? Str.rfind c s) eqn:E; [apply Z.leb_le in E; lia|].
  destruct (Ascii.eqb a c); lia.
Qed.

Lemma rfind_none (c : ascii) (s : string) :
  no_char c s = true → Str.rfind c s = -1.
Proof.
  unfold no_char. induction s as [|a s IH]; simpl; [done|].
  intros [Ha Hs]%andb_true_iff. rewrite (IH Hs). simpl.
  by destruct (Ascii.eqb a c).
Qed.

Lemma rfind_last (c : ascii) (stem suffix : string) :
  no_char c suffix = true →
  Str.rfind c (stem +:+ String c suffix) = Str.len stem.
Proof.
  intros Hs. induction stem as [|a stem IH].
  - rewrite str_app_nil_l. simpl. rewrite (rfind_none _ _ Hs). simpl.
    by rewrite Ascii.eqb_refl.
  - rewrite str_app_cons. simpl. rewrite IH. unfold Str.len. simpl String.length.
    destruct (0 <=? Z.of_nat (String.length stem)) eqn:E; [lia|].
    apply Z.leb_gt in E. lia.
Qed.

Lemma bound_nonneg (s : string) (i : Z) :
  0 ≤ i → Str.bound s i = Z.to_nat (Z.min i (Str.len s)).
Proof. intros Hi. unfold Str.bound. destruct (i <? 0) eqn:E; [lia | done]. Qed.

Lemma str_take_app_len (s t : string) : Str.take (String.length s) (s +:+ t) = s.
Proof. induction s as [|a s IH]; [by destruct t|]. rewrite str_app_cons. simpl. by rewrite IH. Qed.

Lemma str_drop_app_len (s t : string) : Str.drop (String.length s) (s +:+ t) = t.
Proof. induction s as [|a s IH]; [done|]. rewrite str_app_cons. simpl. by rewrite IH. Qed.

Lemma str_length_app (s t : string) :
  String.length (s +:+ t) = (String.length s + String.length t)%nat.
Proof. induction s as [|a s IH]; [done|]. rewrite str_app_cons. simpl. by rewrite IH. Qed.

Lemma slice_from_app (s t : string) : Str.slice_from (s +:+ t) (Str.len s) = t.
Proof.
  unfold Str.slice_from. rewrite bound_nonneg by (unfold Str.len; lia).
  unfold Str.len. rewrite str_length_app.
  replace (Z.to_nat _) with (String.length s) by lia. apply str_drop_app_len.
Qed.

Lemma slice1_head (a : ascii) (s : string) : Str.slice1 (String a s) 0 = String a "".
Proof.
  unfold Str.slice1. rewrite !bound_nonneg by lia. unfold Str.len. simpl String.length.
  replace (Z.to_nat (Z.min (0 + 1) _)) with 1%nat by lia.
  replace (Z.to_nat (Z.min 0 _)) with 0%nat by lia. done.
Qed.

Lemma slice1_tail (a : ascii) (s : string) (i : Z) :
  0 ≤ i → Str.slice1 (String a s) (i + 1) = Str.slice1 s i.
Proof.
  intros Hi. unfold Str.slice1. rewrite !bound_nonneg by lia.
  unfold Str.len. simpl String.length.
  replace (Z.to_nat (Z.min (i + 1 + 1) (Z.of_nat (S (String.length s)))))
    with (S (Z.to_nat (Z.min (i + 1) (Z.of_nat (String.length s))))) by lia.
  replace (Z.to_nat (Z.min (i + 1) (Z.of_nat (S (String.length s)))))
    with (S (Z.to_nat (Z.min i (Z.of_nat (String.length s))))) by lia.
  done.
Qed.

Lemma skip_leading_dots_spec (p : string) (extsep : ascii) (dotIndex : Z) (indices : list Z) :
  PosixPath.skip_leading_dots p extsep dotIndex indices =
  if forallb (λ i, String.eqb (Str.slice1 p i) (String extsep "")) indices
  then (p, Str.slice_to p 0)
  else (Str.slice_to p dotIndex, Str.slice_from p dotIndex).
Proof.
  induction indices as [|i indices IH]; simpl; [done|].
  destruct (String.eqb (Str.slice1 p i) (String extsep "")); simpl; done.
Qed.

Lemma forallb_fmap_ext {A B} (f : B → bool) (g : A → B) (h : A → bool) (l : list A) :
  Forall (λ x, f (g x) = h x) l → forallb f (g <$> l) = forallb h l.
Proof.
  induction 1 as [|x l Hx _ IH]; [done|].
  rewrite fmap_cons. cbn [forallb]. by rewrite Hx, IH.
Qed.

Lemma leading_dots_scan (c : ascii) (stem rest : string) :
  forallb (λ i, String.eqb (Str.slice1 (stem +:+ rest) i) (String c ""))
    (seqZ 0 (Str.len stem))
  = only_char c stem.
Proof.
  unfold only_char. induction stem as [|a stem IH]; [done|].
  rewrite str_app_cons. unfold Str.len. simpl String.length.
  rewrite seqZ_cons by lia.
  replace (Z.pred (Z.of_nat (S (String.length stem)))) with (Str.len stem)
    by (unfold Str.len; lia).
  change (Z.succ 0) with (1 + 0). rewrite <- fmap_add_seqZ.
  simpl. rewrite slice1_head. f_equal.
  - simpl. by destruct (Ascii.eqb a c).
  - rewrite <- IH. apply forallb_fmap_ext, Forall_seqZ. intros i Hi.
    by rewrite Z.add_comm, slice1_tail by lia.
Qed.

Lemma splitext_no_sep (name : string) :
  Str.rfind "/" name = -1 →
  PosixPath.splitext name =
  let dotIndex := Str.rfind "." name in
  if -1 <? dotIndex then
    if forallb (λ i, String.eqb (Str.slice1 name i) ".") (seqZ 0 dotIndex)
    then (name, "")
    else (Str.slice_to name dotIndex, Str.slice_from name dotIndex)
  else (name, "").
Proof.
  intros Hsep. unfold PosixPath.splitext, PosixPath._splitext. rewrite Hsep. simpl.
  replace (Str.slice_to name 0) with "" by (by destruct name).
  destruct (-1 <? Str.rfind "." name); [|done].
  rewrite skip_leading_dots_spec. rewrite Z.sub_0_r.
  by replace (Str.slice_to name 0) with "" by (by destruct name).
Qed.

(** C5 (as amended): for a file name (no slash in it), the extension is
    empty when the name has no '.', and also when only '.' characters, or
    nothing, come before its last '.'; otherwise it is the substring from
    the last '.' onward, lowercased.  "report.final.PDF" gives ".pdf" and
    "README" gives the empty string. *)
Theorem file_extension_spec (name : string) :
  Str.rfind "/" name = -1 →
  (no_char "." name = true → file_extension name = "")
  ∧ (∀ stem suffix,
       name = stem +:+ "." +:+ suffix → no_char "." suffix = true →
       file_extension name
       = if only_char "." stem then "" else Str.lower ("." +:+ suffix))
  ∧ file_extension "report.final.PDF" = ".pdf"
  ∧ file_extension "README" = "".
Proof.
  intros Hsep. unfold file_extension. rewrite (splitext_no_sep _ Hsep).
  split_and!; try done.
  - intros Hno. by rewrite (rfind_none _ _ Hno).
  - intros stem suffix -> Hno. cbv zeta.
    change ("." +:+ suffix) with (String "." suffix).
    rewrite (rfind_last _ _ _ Hno).
    assert ((-1 <? Str.len stem) = true) as -> by (apply Z.ltb_lt; unfold Str.len; lia).
    rewrite leading_dots_scan. destruct (only_char "." stem); [done|].
    simpl snd. by rewrite slice_from_app.
Qed.

Lemma file_extension_spec_witness :
  Str.rfind "/" "..a.B" = -1
  ∧ file_extension "..a.B" = Str.lower ".B"
  ∧ file_extension ".bashrc" = "".
Proof.
  split; [reflexivity|]. split.
  - apply (proj1 (proj2 (file_extension_spec "..a.B" eq_refl)) "..a" "B"); reflexivity.
  - apply (proj1 (proj2 (file_extension_spec ".bashrc" eq_refl)) "" "bashrc"); reflexivity.
Defined.

(** C5 as written fails on names that begin with their only dots: the
    substring from the last '.' of ".bashrc" is ".bashrc", and the recorded
    extension is empty. *)
Lemma file_extension_leading_dot :
  extension_per_spec ".bashrc" = ".bashrc" ∧ file_extension ".bashrc" = "".
Proof. split; reflexivity. Qed.

(** ** The content hash *)

Lemma update_nil (h : MD5.md5) : MD5.update h [] = h.
Proof. destruct h as [fed]. unfold MD5.update. simpl. by rewrite app_nil_r. Qed.

Lemma update_update (h : MD5.md5) (a b : list byte) :
  MD5.update (MD5.update h a) b = MD5.update h (a ++ b)%list.
Proof. unfold MD5.update. simpl. by rewrite app_assoc. Qed.

Lemma read_size_ok (n : Z) : -1 ≤ n < 2 ^ 63 → FS.read_size n = Ok n.
Proof.
  intros Hn. unfold FS.read_size.
  destruct (n <? - 2 ^ 63) eqn:E1; [apply Z.ltb_lt in E1; lia|].
  destruct (2 ^ 63 <=? n) eqn:E2; [apply Z.leb_le in E2; lia|].
  destruct (n <? -1) eqn:E3; [apply Z.ltb_lt in E3; lia|]. done.
Qed.

(** A read returns a prefix of what is left, and leaves the position just
    after it. *)
Lemma read_chunk (f f' : FS.handle) (n : Z) (chunk : list byte) :
  FS.read f n = Ok (chunk, f') →
  (chunk ++ drop (FS.pos f') (FS.data f'))%list = drop (FS.pos f) (FS.data f).
Proof.
  unfold FS.read. destruct (FS.read_size n) as [m|e]; [|done].
  cbn [mbind result_bind]. intros [= <- <-]. simpl. rewrite <- drop_drop.
  generalize (drop (FS.pos f) (FS.data f)) as rest. intros rest.
  destruct (m <? 0).
  - by rewrite drop_all, app_nil_r.
  - rewrite length_take.
    destruct (decide (Z.to_nat m ≤ length rest)%nat).
    + rewrite Nat.min_l by done. apply take_drop.
    + rewrite Nat.min_r by lia. rewrite take_ge by lia. by rewrite drop_all, app_nil_r.
Qed.

Lemma read_nothing (f f' : FS.handle) (n : Z) :
  n ≠ 0 → FS.read f n = Ok ([], f') → drop (FS.pos f) (FS.data f) = [].
Proof.
  unfold FS.read, FS.read_size. intros Hn.
  destruct ((n <? - 2 ^ 63) || (2 ^ 63 <=? n)); [done|].
  destruct (n <? -1); [done|]. cbn [mbind result_bind].
  destruct (n <? 0) eqn:E; [by intros [= -> _]|].
  apply Z.ltb_ge in E. destruct (Z.to_nat n) eqn:En; [lia|].
  by destruct (drop (FS.pos f) (FS.data f)).
Qed.

(** The loop feeds the hash object everything from the position on. *)
Lemma read_loop_feeds (chunk_size : Z) :
  chunk_size ≠ 0 → -1 ≤ chunk_size < 2 ^ 63 →
  ∀ (n : nat) (f : FS.handle) (h : MD5.md5) (acc : Acc lt (FS.remaining f)),
    FS.remaining f = n →
    read_loop chunk_size f h acc = Ok (MD5.update h (drop (FS.pos f) (FS.data f))).
Proof.
  intros Hcs Hsize n. induction (lt_wf n) as [n _ IH]. intros f h acc Hn.
  destruct acc as [a]. cbn [read_loop].
  destruct (inspect (FS.read f chunk_size)) as [[[chunk f']|e] Hread].
  - destruct (decide (chunk = [])) as [->|Hne].
    + by rewrite (read_nothing f f' chunk_size Hcs Hread), update_nil.
    + pose proof (read_progress f chunk_size chunk f' Hread Hne) as Hlt.
      rewrite (IH (FS.remaining f')) by (done || lia).
      by rewrite update_update, (read_chunk _ _ _ _ Hread).
  - unfold FS.read in Hread. by rewrite (read_size_ok _ Hsize) in Hread.
Qed.

Lemma bind_Ok {A B} (a : A) (k : A → result B) : (x ← Ok a; k x) = k a.
Proof. reflexivity. Qed.

Lemma bind_Raise {A B} (e : exn) (k : A → result B) : (x ← Raise e; k x) = Raise e.
Proof. reflexivity. Qed.

Lemma calculate_full_hash_ok (fs : FS.node) (file_path : string) (content : list byte)
    (chunk_size : Z) :
  chunk_size ≠ 0 → -1 ≤ chunk_size < 2 ^ 63 →
  FS.resolve fs file_path = Ok (FS.File true content) →
  calculate_full_hash fs file_path chunk_size = Ok (MD5.hex (MD5.digest content)).
Proof.
  intros Hcs Hsize Hres. unfold calculate_full_hash, FS.open_rb.
  rewrite Hres, !bind_Ok. by rewrite (read_loop_feeds _ Hcs Hsize _ _ _ _ eq_refl).
Qed.

(** C6: two files with the same bytes get the same hash string, whatever
    their paths and whatever tree they are in: the hash is the MD5 digest
    of the content, which the chunked loop reads in full. *)
Theorem calculate_full_hash_deterministic (fs1 fs2 : FS.node) (path1 path2 : string)
    (content : list byte) :
  FS.resolve fs1 path1 = Ok (FS.File true content) →
  FS.resolve fs2 path2 = Ok (FS.File true content) →
  calculate_full_hash fs1 path1 default_chunk_size
  = calculate_full_hash fs2 path2 default_chunk_size
  ∧ calculate_full_hash fs1 path1 default_chunk_size = Ok (MD5.hex (MD5.digest content)).
Proof.
  intros H1 H2.
  rewrite (calculate_full_hash_ok fs1 path1 content) by done.
  by rewrite (calculate_full_hash_ok fs2 path2 content) by done.
Qed.

Lemma calculate_full_hash_deterministic_witness :
  calculate_full_hash sample_fs "folder1/x.txt" default_chunk_size
  = calculate_full_hash sample_fs "./folder2//y.txt" default_chunk_size
  ∧ calculate_full_hash sample_fs "folder1/x.txt" default_chunk_size
    = Ok (MD5.hex (MD5.digest (list_byte_of_string "hello"))).
Proof.
  apply (calculate_full_hash_deterministic sample_fs sample_fs
           "folder1/x.txt" "./folder2//y.txt" (list_byte_of_string "hello"));
    vm_compute; reflexivity.
Defined.

(** ** The directory walk *)

(** Only a NUL in the path makes path resolution raise [ValueError]. *)
Lemma resolve_ValueError (fs : FS.node) (path : string) :
  FS.resolve fs path = Raise ValueError ↔ FS.no_nul path = false.
Proof.
  unfold FS.resolve. destruct (FS.no_nul path); simpl; [|done].
  split; [|done]. destruct (String.eqb path ""); [done|].
  by destruct (FS.resolve_from [] fs (FS.components path)) as [[up n]|[]].
Qed.

Lemma walk_ok (fs : FS.node) (top : string) :
  FS.no_nul top = true →
  FS.walk fs top = Ok (match FS.resolve fs top with
                       | Ok n => FS.walk_node top n
                       | Raise _ => []
                       end).
Proof.
  intros Hnul. unfold FS.walk.
  destruct (FS.resolve fs top) as [n|e] eqn:Hres; [done|].
  destruct e; try done. apply resolve_ValueError in Hres. congruence.
Qed.

(** C3 (as amended): for a root path without a NUL character that does
    not exist or is not a directory, the listing raises nothing and is the
    empty list: [os.walk] swallows the error of listing the root, so no
    file is hashed. *)
Theorem list_all_files_not_a_directory (fs : FS.node) (folder_path folder_label : string) :
  FS.no_nul folder_path = true →
  (∀ st_size entries, FS.resolve fs folder_path ≠ Ok (FS.Dir st_size entries)) →
  list_all_files fs folder_path folder_label = Ok [].
Proof.
  intros Hnul Hnodir. unfold list_all_files. rewrite (walk_ok _ _ Hnul), bind_Ok.
  destruct (FS.resolve fs folder_path) as [[readable content|st_size entries|? ? ?]|e];
    try done.
  by destruct (Hnodir st_size entries).
Qed.

Lemma list_all_files_not_a_directory_witness :
  list_all_files sample_fs "no/such/folder" "Folder1" = Ok [].
Proof.
  apply (list_all_files_not_a_directory sample_fs "no/such/folder" "Folder1").
  - reflexivity.
  - intros st_size entries. vm_compute. discriminate.
Defined.

(** A root with an embedded NUL is the one case in which the walk itself
    raises: [scandir] refuses the path with [ValueError], which [os.walk]
    does not swallow. *)
Lemma list_all_files_nul (fs : FS.node) (folder_path folder_label : string) :
  FS.no_nul folder_path = false →
  list_all_files fs folder_path folder_label = Raise ValueError.
Proof.
  intros Hnul. unfold list_all_files, FS.walk.
  by rewrite (proj2 (resolve_ValueError fs folder_path) Hnul).
Qed.

(** A root written with [..] is the directory it names: it is listed. *)
Example list_all_files_dotdot :
  list_all_files sample_fs "folder1/sub/.." "Folder1"
  = list_all_files sample_fs "folder1" "Folder1"
  ∧ ∃ rows, list_all_files sample_fs "folder1/sub/.." "Folder1" = Ok rows ∧ length rows = 2%nat.
Proof. split; [|eexists; split]; vm_compute; reflexivity. Qed.

(** A name after a regular file is an error, also an empty one. *)
Example resolve_after_file :
  FS.resolve sample_fs "notes.txt/" = Raise (NotADirectoryError "notes.txt/")
  ∧ FS.resolve sample_fs "notes.txt/.." = Raise (NotADirectoryError "notes.txt/..").
Proof. split; vm_compute; reflexivity. Qed.

(** C3 as written fails: a missing root and a root that is a regular file
    both give the empty list, not an error. *)
Lemma list_all_files_missing_root :
  ¬ (∀ fs folder_path folder_label,
       (∀ st_size entries, FS.resolve fs folder_path ≠ Ok (FS.Dir st_size entries)) →
       ∃ e, list_all_files fs folder_path folder_label = Raise e).
Proof.
  intros H. destruct (H sample_fs "missing" "Folder1") as [e He].
  - intros st_size entries. vm_compute. discriminate.
  - vm_compute in He. discriminate.
Qed.

Example list_all_files_root_is_missing :
  FS.resolve sample_fs "missing" = Raise (FileNotFoundError "missing")
  ∧ list_all_files sample_fs "missing" "Folder1" = Ok [].
Proof. split; vm_compute; reflexivity. Qed.

Example list_all_files_root_is_file :
  FS.resolve sample_fs "notes.txt" = Ok (FS.File true (list_byte_of_string "abc"))
  ∧ list_all_files sample_fs "notes.txt" "Folder2" = Ok [].
Proof. split; vm_compute; reflexivity. Qed.

(** ** The store *)

Lemma alloc_store (o : obj) (w : world) :
  alloc o w = (fresh (dom (heap w)), store (fresh (dom (heap w))) o w).
Proof. reflexivity. Qed.

Lemma fresh_not_allocated (w : world) (l : loc) (o : obj) :
  heap w !! l = Some o → l ≠ fresh (dom (heap w)).
Proof.
  intros Hl ->. apply (is_fresh (dom (heap w))). apply elem_of_dom. eauto.
Qed.

Lemma mutate_store (l : loc) (f : obj → obj) (o : obj) (w : world) :
  mutate l f (store l o w) = store l (f o) w.
Proof.
  unfold mutate, store. simpl. f_equal.
  by rewrite alter_insert_eq.
Qed.

Lemma heap_store_eq (l : loc) (o : obj) (w : world) : heap (store l o w) !! l = Some o.
Proof. apply lookup_insert_eq. Qed.

Lemma heap_store_ne (l l' : loc) (o : obj) (w : world) :
  l ≠ l' → heap (store l o w) !! l' = heap w !! l'.
Proof. apply lookup_insert_ne. Qed.

Lemma sheet_at_store (wb : loc) (ws : Sheet.worksheet) (w : world) :
  sheet_at wb (store wb (PyWorkbook ws) w) = ws.
Proof. unfold sheet_at. by rewrite heap_store_eq. Qed.

(** ** Counting the hashes *)

Lemma count_hash_step (hash_counts : loc) (d : gmap string Z) (w : world) (h : string) :
  count_hash hash_counts (store hash_counts (PyDefaultDict d) w) h
  = store hash_counts (PyDefaultDict (count_step d h)) w.
Proof.
  unfold count_hash, dict_getitem, dict_setitem, count_step.
  rewrite heap_store_eq. destruct (d !! h) as [n|] eqn:Hd; simpl.
  - by rewrite mutate_store.
  - rewrite !mutate_store. simpl. by rewrite insert_insert_eq.
Qed.

Lemma count_hash_loop (hash_counts : loc) (hs : list string) (d : gmap string Z) (w : world) :
  foldl (count_hash hash_counts) (store hash_counts (PyDefaultDict d) w) hs
  = store hash_counts (PyDefaultDict (foldl count_step d hs)) w.
Proof.
  revert d. induction hs as [|h hs IH]; intros d; simpl; [done|].
  by rewrite count_hash_step, IH.
Qed.

(** The count stored for [h] is the number of times [h] was met. *)
Lemma count_step_total (hs : list string) (d : gmap string Z) (h : string) :
  default 0 (foldl count_step d hs !! h)
  = default 0 (d !! h) + Z.of_nat (length (filter (λ h', h' = h) hs)).
Proof.
  revert d. induction hs as [|h' hs IH]; intros d; simpl; [lia|].
  rewrite IH. unfold count_step. rewrite filter_cons.
  destruct (decide (h' = h)) as [->|Hne].
  - rewrite lookup_insert_eq. simpl. lia.
  - rewrite lookup_insert_ne by done. lia.
Qed.

Lemma count_step_keys (hs : list string) (d : gmap string Z) (h : string) :
  h ∈ hs ∨ is_Some (d !! h) → is_Some (foldl count_step d hs !! h).
Proof.
  revert d. induction hs as [|h' hs IH]; intros d; simpl.
  - intros [Hin|Hd]; [by apply elem_of_nil in Hin | done].
  - intros Hor. apply IH. unfold count_step.
    destruct (decide (h' = h)) as [->|Hne].
    + right. rewrite lookup_insert_eq. eauto.
    + rewrite lookup_insert_ne by done.
      destruct Hor as [Hin|Hd]; [|by right].
      apply elem_of_cons in Hin as [->|Hin]; [done | by left].
Qed.

(** ** The rows of the sheet *)

Section SheetRows.

Variable argsort : list Z → list nat.

Lemma alter_last {A} (f : A → A) (l : list A) (x : A) :
  alter f (length l) (l ++ [x]) = l ++ [f x].
Proof. rewrite <- (Nat.add_0_r (length l)). by rewrite alter_app_r. Qed.

Lemma header_sheet_eq :
  header_sheet = {| Sheet.title := "File List Report"; Sheet.grid := [header_cells];
                    Sheet.column_widths := ∅ |}.
Proof. reflexivity. Qed.

(** One pass of the loop adds one row, styled as [data_cells] says. *)
Lemma sheet_row_eq (counts : gmap string Z) (ws : Sheet.worksheet) (row : FileRecord) :
  sheet_row counts ws row
  = {| Sheet.title := Sheet.title ws;
       Sheet.grid := Sheet.grid ws ++ [data_cells counts row];
       Sheet.column_widths := Sheet.column_widths ws |}.
Proof.
  unfold sheet_row, data_cells, folder_fill, hash_fill.
  unfold Sheet.max_row, Sheet.append. simpl Sheet.grid.
  rewrite length_app. simpl length.
  replace (1 `max` (length (Sheet.grid ws) + 1))%nat with (S (length (Sheet.grid ws)))
    by lia.
  destruct (String.eqb (folder row) "Folder1"), (String.eqb (folder row) "Folder2"),
    (1 <? default 0 (counts !! file_hash row));
    unfold Sheet.style_row, Sheet.style_cell; simpl;
    rewrite ?Nat.sub_0_r, ?alter_last; reflexivity.
Qed.

Lemma sheet_rows_eq (counts : gmap string Z) (rows : list FileRecord) (ws : Sheet.worksheet) :
  foldl (sheet_row counts) ws rows
  = {| Sheet.title := Sheet.title ws;
       Sheet.grid := Sheet.grid ws ++ (data_cells counts <$> rows);
       Sheet.column_widths := Sheet.column_widths ws |}.
Proof.
  revert ws. induction rows as [|row rows IH]; intros ws; simpl.
  - rewrite app_nil_r. by destruct ws.
  - rewrite IH, sheet_row_eq. simpl. by rewrite <- app_assoc.
Qed.

End SheetRows.

(** ** Column widths *)

Lemma rendered_length_nonneg (c : Sheet.cell) : 0 ≤ rendered_length c.
Proof. unfold rendered_length, Str.len. lia. Qed.

Lemma foldl_max (a : Z) (xs : list Z) :
  0 ≤ a → foldl Z.max a xs = Z.max a (foldr Z.max 0 xs).
Proof.
  revert a. induction xs as [|x xs IH]; intros a Ha; simpl; [lia|].
  rewrite IH by lia. lia.
Qed.

Lemma py_max_lengths (col : list Sheet.cell) :
  col ≠ [] →
  py_max (rendered_length <$> col) = Ok (foldr Z.max 0 (rendered_length <$> col)).
Proof.
  destruct col as [|c col]; [done|]. intros _. simpl.
  by rewrite foldl_max by apply rendered_length_nonneg.
Qed.

(** The longest rendered value of a column is reached in the column and
    bounds every cell of it. *)
Lemma longest_in_column (col : list Sheet.cell) :
  col ≠ [] →
  (∃ c, c ∈ col ∧ foldr Z.max 0 (rendered_length <$> col) = rendered_length c)
  ∧ (∀ c, c ∈ col → rendered_length c ≤ foldr Z.max 0 (rendered_length <$> col)).
Proof.
  induction col as [|c col IH]; [done|]. intros _.
  rewrite fmap_cons. cbn [foldr].
  pose proof (rendered_length_nonneg c) as Hc.
  destruct (decide (col = [])) as [->|Hne].
  - simpl. split.
    + exists c. split; [left | lia].
    + intros c0 ->%list_elem_of_singleton. lia.
  - destruct (IH Hne) as [(c0 & Hin & Heq) Hle].
    set (m := foldr Z.max 0 (rendered_length <$> col)) in *. split.
    + destruct (Z.max_spec (rendered_length c) m) as [[_ ->]|[_ ->]].
      * exists c0. split; [by right | done].
      * exists c. split; [left | done].
    + intros c1 [->|Hin1]%elem_of_cons; [lia|]. specialize (Hle c1 Hin1). lia.
Qed.

Lemma fit_step_grid (jcols : list (nat * list Sheet.cell)) (ws : Sheet.worksheet) :
  Sheet.grid (foldl fit_step ws jcols) = Sheet.grid ws
  ∧ Sheet.title (foldl fit_step ws jcols) = Sheet.title ws.
Proof.
  revert ws. induction jcols as [|jc jcols IH]; intros ws; simpl; [done|].
  by destruct (IH (fit_step ws jc)) as [-> ->].
Qed.

Lemma columns_nonempty (ws : Sheet.worksheet) :
  Forall (λ col, col ≠ []) (Sheet.columns ws).
Proof.
  unfold Sheet.columns.
  destruct (Sheet.grid ws) as [|row grid]; [constructor|].
  apply Forall_fmap, Forall_forall. by intros j _.
Qed.

Lemma fit_column_step (wb : loc) (j : nat) (col : list Sheet.cell)
    (ws : Sheet.worksheet) (w : world) :
  col ≠ [] →
  fit_column wb (store wb (PyWorkbook ws) w) (j, col)
  = Ok (store wb (PyWorkbook (fit_step ws (j, col))) w).
Proof.
  intros Hcol. unfold fit_column, fit_step. cbn [fst snd].
  change (λ c, Str.len (Sheet.str (Sheet.value_of c))) with rendered_length.
  by rewrite (py_max_lengths col Hcol), bind_Ok, mutate_store.
Qed.

Lemma fit_column_loop (wb : loc) (jcols : list (nat * list Sheet.cell))
    (ws : Sheet.worksheet) (w : world) :
  Forall (λ col, col ≠ []) jcols.*2 →
  for_each (fit_column wb) jcols (store wb (PyWorkbook ws) w)
  = Ok (store wb (PyWorkbook (foldl fit_step ws jcols)) w).
Proof.
  revert ws. induction jcols as [|[j col] jcols IH]; intros ws Hne; [done|].
  rewrite fmap_cons in Hne. apply Forall_cons in Hne as [Hcol Hne].
  cbn [for_each foldl]. rewrite (fit_column_step _ _ _ _ _ Hcol), bind_Ok.
  by apply IH.
Qed.

(** ** Running the report builder *)

Section Run.

Variable argsort : list Z → list nat.

Lemma dict_getitem_present (hash_counts wb : loc) (d : gmap string Z) (o : obj)
    (w : world) (key : string) (n : Z) :
  wb ≠ hash_counts → d !! key = Some n →
  dict_getitem hash_counts key (store wb o (store hash_counts (PyDefaultDict d) w))
  = (n, store wb o (store hash_counts (PyDefaultDict d) w)).
Proof.
  intros Hne Hd. unfold dict_getitem.
  by rewrite heap_store_ne, heap_store_eq, Hd.
Qed.

Lemma write_row_step (hash_counts wb : loc) (d : gmap string Z) (ws : Sheet.worksheet)
    (w : world) (row : FileRecord) :
  wb ≠ hash_counts → is_Some (d !! file_hash row) →
  write_row hash_counts wb
    (store wb (PyWorkbook ws) (store hash_counts (PyDefaultDict d) w)) row
  = store wb (PyWorkbook (sheet_row d ws row)) (store hash_counts (PyDefaultDict d) w).
Proof.
  intros Hne [n Hd]. unfold write_row, write_values, sheet_row. cbv zeta.
  rewrite mutate_store. cbn [on_sheet]. rewrite sheet_at_store, Hd.
  change (default 0 (Some n)) with n.
  destruct (String.eqb (folder row) "Folder1"), (String.eqb (folder row) "Folder2");
    rewrite ?mutate_store; cbn [on_sheet];
    rewrite (dict_getitem_present _ _ _ _ _ _ n Hne Hd);
    destruct (1 <? n); by rewrite ?mutate_store; cbn [on_sheet].
Qed.

Lemma write_row_loop (hash_counts wb : loc) (d : gmap string Z) (rows : list FileRecord)
    (ws : Sheet.worksheet) (w : world) :
  wb ≠ hash_counts → Forall (λ row, is_Some (d !! file_hash row)) rows →
  foldl (write_row hash_counts wb)
    (store wb (PyWorkbook ws) (store hash_counts (PyDefaultDict d) w)) rows
  = store wb (PyWorkbook (foldl (sheet_row d) ws rows))
      (store hash_counts (PyDefaultDict d) w).
Proof.
  intros Hne. revert ws. induction rows as [|row rows IH]; intros ws Hd; [done|].
  apply Forall_cons in Hd as [Hrow Hd]. cbn [foldl].
  rewrite write_row_step by done. by apply IH.
Qed.

Lemma hash_counts_cover (rows : list FileRecord) :
  Forall (λ row, is_Some (hash_counts_of rows !! file_hash row)) rows.
Proof.
  apply Forall_forall. intros row Hrow. unfold hash_counts_of.
  apply count_step_keys. left. by apply list_elem_of_fmap_2.
Qed.

(** The function never raises on a list; it saves [report_sheet] of the
    list at the given path and leaves every object that was in the store
    as it was. *)
Lemma report_run (w : world) (file_list : loc) (report_path : string)
    (tuples : list FileRecord) :
  heap w !! file_list = Some (PyList tuples) →
  ∃ w', generate_styled_excel_report argsort file_list report_path w = Ok w'
        ∧ disk w' = <[report_path := report_sheet argsort tuples]> (disk w)
        ∧ ∀ l o, heap w !! l = Some o → heap w' !! l = Some o.
Proof.
  intros Hlist. unfold generate_styled_excel_report, DataFrame.
  rewrite Hlist, alloc_store, bind_Ok.
  set (df := fresh (dom (heap w))).
  rewrite mutate_store. cbn [on_df].
  set (rows := sort_values argsort tuples).
  set (w1 := store df (PyDataFrame rows) w).
  rewrite alloc_store. set (hc := fresh (dom (heap w1))).
  assert (Hdf : df ≠ hc) by (apply (fresh_not_allocated w1 df _ (heap_store_eq _ _ _))).
  assert (Hrows : ∀ wb o o', wb ≠ df →
            df_rows df (store wb o (store hc o' w1)) = rows).
  { intros wb o o' Hwb. unfold df_rows.
    rewrite !heap_store_ne by done. unfold w1. by rewrite heap_store_eq. }
  assert (Hrows' : ∀ o', df_rows df (store hc o' w1) = rows).
  { intros o'. unfold df_rows.
    rewrite !heap_store_ne by done. unfold w1. by rewrite heap_store_eq. }
  rewrite Hrows', count_hash_loop. fold (hash_counts_of rows).
  set (w2 := store hc (PyDefaultDict (hash_counts_of rows)) w1).
  rewrite alloc_store. set (wb := fresh (dom (heap w2))).
  assert (Hhc : hc ≠ wb) by (apply (fresh_not_allocated w2 hc _ (heap_store_eq _ _ _))).
  assert (Hdf' : df ≠ wb).
  { apply (fresh_not_allocated w2 df (PyDataFrame rows)).
    unfold w2. rewrite heap_store_ne by done. apply heap_store_eq. }
  rewrite !mutate_store. cbn [on_sheet]. fold header_sheet.
  assert (Hrows2 : df_rows df (store wb (PyWorkbook header_sheet) w2) = rows)
    by (unfold w2; by apply Hrows).
  rewrite !Hrows2.
  set (body := foldl (sheet_row (hash_counts_of rows)) header_sheet rows).
  assert (Hloop : foldl (write_row hc wb) (store wb (PyWorkbook header_sheet) w2) rows
                  = store wb (PyWorkbook body) w2).
  { unfold w2. apply write_row_loop; [done | apply hash_counts_cover]. }
  rewrite !Hloop, sheet_at_store.
  rewrite fit_column_loop.
  2:{ rewrite snd_zip by (rewrite length_seq; lia). apply columns_nonempty. }
  rewrite bind_Ok. eexists. split; [done|]. split.
  - unfold save. simpl disk. by rewrite sheet_at_store.
  - intros l o Hl. unfold save. simpl heap.
    assert (l ≠ df) by (apply (fresh_not_allocated w l o Hl)).
    assert (heap w1 !! l = Some o) as Hl1
      by (unfold w1; by rewrite heap_store_ne).
    assert (l ≠ hc) by (apply (fresh_not_allocated w1 l o Hl1)).
    assert (heap w2 !! l = Some o) as Hl2
      by (unfold w2; by rewrite heap_store_ne).
    assert (l ≠ wb) by (apply (fresh_not_allocated w2 l o Hl2)).
    by rewrite lookup_insert_ne.
Qed.

End Run.

(** ** The sort *)

Lemma omap_lookup_seq {A} (l1 l2 : list A) :
  omap (λ i, (l1 ++ l2) !! i) (seq (length l1) (length l2)) = l2.
Proof.
  revert l1. induction l2 as [|x l2 IH]; intros l1; [done|].
  cbn [length seq omap list_omap]. rewrite list_lookup_middle by done. f_equal.
  specialize (IH (l1 ++ [x])). rewrite <- app_assoc, length_app in IH. simpl in IH.
  by rewrite Nat.add_1_r in IH.
Qed.

Lemma omap_lookup_valid {A} (l : list A) (idx : list nat) (k i : nat) :
  Forall (λ i, i < length l)%nat idx → idx !! k = Some i →
  omap (λ i, l !! i) idx !! k = l !! i.
Proof.
  intros Hvalid. revert k. induction Hvalid as [|j idx Hj _ IH]; intros k Hk; [done|].
  apply lookup_lt_is_Some_2 in Hj as [x Hx]. cbn [omap list_omap]. rewrite Hx.
  destruct k as [|k]; simpl in *; [by injection Hk as <- | by apply IH].
Qed.

Lemma fmap_omap_lookup {A B} `{!Inhabited B} (f : A → B) (l : list A) (idx : list nat) :
  Forall (λ i, i < length l)%nat idx →
  f <$> omap (λ i, l !! i) idx = (λ i, (f <$> l) !!! i) <$> idx.
Proof.
  induction 1 as [|j idx Hj _ IH]; [done|].
  apply lookup_lt_is_Some_2 in Hj as [x Hx]. cbn [omap list_omap]. rewrite Hx.
  rewrite !fmap_cons, IH. f_equal.
  symmetry. apply list_lookup_total_correct. by rewrite list_lookup_fmap, Hx.
Qed.

Section Sorting.

Variable argsort : list Z → list nat.
Hypothesis argsort_ok : argsort_spec argsort.

Lemma argsort_valid (rows : list FileRecord) :
  Forall (λ i, i < length rows)%nat (argsort (file_size <$> rows)).
Proof.
  destruct (argsort_ok (file_size <$> rows)) as [Hperm _].
  apply Forall_forall. intros i Hi. rewrite Hperm in Hi.
  apply elem_of_seq in Hi. rewrite length_fmap in Hi. lia.
Qed.

Lemma sort_values_perm (rows : list FileRecord) : sort_values argsort rows ≡ₚ rows.
Proof.
  unfold sort_values. destruct (argsort_ok (file_size <$> rows)) as [Hperm _].
  rewrite Hperm, length_fmap.
  change (omap (λ i, ([] ++ rows) !! i) (seq (length (@nil FileRecord)) (length rows)) ≡ₚ rows).
  by rewrite omap_lookup_seq.
Qed.

Lemma sort_values_sorted (rows : list FileRecord) :
  Sorted Z.le (file_size <$> sort_values argsort rows).
Proof.
  unfold sort_values. rewrite fmap_omap_lookup by apply argsort_valid.
  apply argsort_ok.
Qed.

Lemma sort_values_lookup (rows : list FileRecord) (k i : nat) :
  argsort (file_size <$> rows) !! k = Some i →
  sort_values argsort rows !! k = rows !! i.
Proof. apply omap_lookup_valid, argsort_valid. Qed.

End Sorting.

Global Instance key_le_total : Total key_le.
Proof. intros a b. unfold key_le. lia. Qed.

Lemma merge_argsort_ok : argsort_spec merge_argsort.
Proof.
  intros ks. unfold merge_argsort.
  set (pairs := zip ks (seq 0 (length ks))).
  assert (Hperm : merge_sort key_le pairs ≡ₚ pairs) by apply merge_sort_Permutation.
  split.
  - rewrite Hperm. unfold pairs. by rewrite snd_zip by (rewrite length_seq; lia).
  - assert (Hfst : (λ i, ks !!! i) <$> (merge_sort key_le pairs).*2
                   = (merge_sort key_le pairs).*1).
    { rewrite <- list_fmap_compose. apply list_fmap_ext. intros j [k i] Hj. simpl.
      assert (Hin : (k, i) ∈ pairs).
      { rewrite <- Hperm. by apply list_elem_of_lookup_2 in Hj. }
      apply list_elem_of_lookup in Hin as [n Hn].
      apply lookup_zip_Some in Hn as [Hk Hi].
      apply lookup_seq in Hi as [-> _]. by apply list_lookup_total_correct. }
    rewrite Hfst. apply (Sorted_fmap fst key_le Z.le); [done|].
    apply (Sorted_merge_sort key_le).
Qed.

(** ** The saved report *)

Section Report.

Variable argsort : list Z → list nat.

Lemma report_sheet_grid (tuples : list FileRecord) :
  Sheet.grid (report_sheet argsort tuples)
  = header_cells
    :: (data_cells (hash_counts_of (sort_values argsort tuples))
          <$> sort_values argsort tuples).
Proof.
  unfold report_sheet, fit_columns. cbv zeta.
  rewrite (proj1 (fit_step_grid _ _)), sheet_rows_eq. reflexivity.
Qed.

Lemma sort_values_nil : sort_values argsort [] = [].
Proof. unfold sort_values. by induction (argsort (file_size <$> [])). Qed.

End Report.

(** C8: on the empty list the report is produced without error and its
    sheet holds the header row and no data row. *)
Theorem empty_report (argsort : list Z → list nat) (w : world) (file_list : loc)
    (report_path : string) :
  heap w !! file_list = Some (PyList []) →
  ∃ w' ws,
    generate_styled_excel_report argsort file_list report_path w = Ok w'
    ∧ disk w' !! report_path = Some ws
    ∧ Sheet.grid ws = [header_cells]
    ∧ Sheet.value_of <$> header_cells = Sheet.VStr <$> headers.
Proof.
  intros Hlist.
  destruct (report_run argsort w file_list report_path [] Hlist) as (w' & Hrun & Hdisk & _).
  exists w', (report_sheet argsort []). split_and!; [done| |..|done].
  - by rewrite Hdisk, lookup_insert_eq.
  - by rewrite report_sheet_grid, sort_values_nil.
Qed.

Lemma empty_report_witness :
  ∃ w' ws,
    generate_styled_excel_report merge_argsort 1%positive "all_files_report.xlsx" empty_world
    = Ok w'
    ∧ disk w' !! "all_files_report.xlsx" = Some ws
    ∧ Sheet.grid ws = [header_cells]
    ∧ Sheet.value_of <$> header_cells = Sheet.VStr <$> headers.
Proof.
  apply (empty_report merge_argsort empty_world 1%positive "all_files_report.xlsx").
  reflexivity.
Defined.

(** C10: the list handed to the report builder is the same list, with the
    same records in the same order, after the call; so is every other
    object that was in the store.  Sorting and counting work on the
    DataFrame and the dictionary the function creates. *)
Theorem input_list_unchanged (argsort : list Z → list nat) (w : world) (file_list : loc)
    (report_path : string) (tuples : list FileRecord) :
  heap w !! file_list = Some (PyList tuples) →
  ∃ w',
    generate_styled_excel_report argsort file_list report_path w = Ok w'
    ∧ heap w' !! file_list = Some (PyList tuples)
    ∧ ∀ l o, heap w !! l = Some o → heap w' !! l = Some o.
Proof.
  intros Hlist.
  destruct (report_run argsort w file_list report_path tuples Hlist) as (w' & Hrun & _ & Hframe).
  exists w'. split_and!; [done | by apply Hframe | done].
Qed.

Lemma input_list_unchanged_witness :
  ∃ w',
    generate_styled_excel_report merge_argsort 1%positive "all_files_report.xlsx" sample_world
    = Ok w'
    ∧ heap w' !! 1%positive = Some (PyList sample_files)
    ∧ ∀ l o, heap sample_world !! l = Some o → heap w' !! l = Some o.
Proof.
  apply (input_list_unchanged merge_argsort sample_world 1%positive
           "all_files_report.xlsx" sample_files).
  reflexivity.
Defined.

Lemma data_row_lookup (argsort : list Z → list nat) (tuples : list FileRecord)
    (k : nat) (row : FileRecord) :
  sort_values argsort tuples !! k = Some row →
  Sheet.grid (report_sheet argsort tuples) !! S k
  = Some (data_cells (hash_counts_of (sort_values argsort tuples)) row).
Proof.
  intros Hk. rewrite report_sheet_grid. simpl. by rewrite list_lookup_fmap, Hk.
Qed.

(** ** Cell text that the worksheet checks *)

Lemma str_take_all (n : nat) (s : string) : (String.length s ≤ n)%nat → Str.take n s = s.
Proof.
  revert n. induction s as [|a s IH]; intros [|n] Hn; simpl in *; try done; try lia.
  by rewrite IH by lia.
Qed.

Lemma check_string_accepted (s : string) :
  accepted s = true → Sheet.check_string s = Ok s.
Proof.
  unfold accepted, Sheet.check_string. intros [Hlen Hall]%andb_true_iff.
  apply Z.leb_le in Hlen. cbv zeta.
  assert (Str.slice_to s 32767 = s) as ->.
  { unfold Str.slice_to. apply str_take_all. rewrite bound_nonneg by lia.
    unfold Str.len in *. lia. }
  by rewrite Hall.
Qed.

Lemma bind_values_accepted (row : FileRecord) :
  record_accepted row = true → Sheet.bind_values (row_values row) = Ok (row_values row).
Proof.
  unfold record_accepted.
  intros [[[[H1 H2]%andb_true_iff H3]%andb_true_iff H4]%andb_true_iff H5]%andb_true_iff.
  unfold row_values. cbn [Sheet.bind_values Sheet.bind_value].
  by rewrite !check_string_accepted by done.
Qed.

Lemma bind_values_headers :
  Sheet.bind_values (Sheet.VStr <$> headers) = Ok (Sheet.VStr <$> headers).
Proof. vm_compute. reflexivity. Qed.

Lemma write_row_checked_accepted (hash_counts wb : loc) (w : world) (row : FileRecord) :
  record_accepted row = true →
  write_row_checked hash_counts wb w row = Ok (write_row hash_counts wb w row).
Proof.
  intros Hrow. unfold write_row_checked, write_row.
  by rewrite (bind_values_accepted _ Hrow).
Qed.

Lemma write_rows_checked (hash_counts wb : loc) (rows : list FileRecord) (w : world) :
  Forall (λ row, record_accepted row = true) rows →
  for_each (write_row_checked hash_counts wb) rows w
  = Ok (foldl (write_row hash_counts wb) w rows).
Proof.
  intros Hrows. revert w. induction Hrows as [|row rows Hrow _ IH]; intros w; [done|].
  cbn [for_each foldl]. rewrite (write_row_checked_accepted _ _ _ _ Hrow), bind_Ok.
  apply IH.
Qed.

Lemma sort_values_subset (argsort : list Z → list nat) (tuples : list FileRecord)
    (row : FileRecord) :
  row ∈ sort_values argsort tuples → row ∈ tuples.
Proof.
  unfold sort_values. intros (i & _ & Hrow)%list_elem_of_omap.
  by apply list_elem_of_lookup_2 in Hrow.
Qed.

(** On records whose text the cells store as given, the check changes
    nothing: both builders run alike. *)
Lemma checked_report_accepted (argsort : list Z → list nat) (w : world) (file_list : loc)
    (report_path : string) (tuples : list FileRecord) :
  heap w !! file_list = Some (PyList tuples) →
  Forall (λ row, record_accepted row = true) tuples →
  generate_styled_excel_report_checked argsort file_list report_path w
  = generate_styled_excel_report argsort file_list report_path w.
Proof.
  intros Hlist Haccepted.
  unfold generate_styled_excel_report_checked, generate_styled_excel_report, DataFrame.
  rewrite bind_values_headers, Hlist, alloc_store, !bind_Ok.
  set (df := fresh (dom (heap w))).
  rewrite mutate_store. cbn [on_df].
  set (rows := sort_values argsort tuples).
  set (w1 := store df (PyDataFrame rows) w).
  rewrite alloc_store. set (hc := fresh (dom (heap w1))).
  assert (Hdf : df ≠ hc) by (apply (fresh_not_allocated w1 df _ (heap_store_eq _ _ _))).
  assert (Hrows : ∀ wb o o', wb ≠ df →
            df_rows df (store wb o (store hc o' w1)) = rows).
  { intros wb o o' Hwb. unfold df_rows.
    rewrite !heap_store_ne by done. unfold w1. by rewrite heap_store_eq. }
  assert (Hrows' : ∀ o', df_rows df (store hc o' w1) = rows).
  { intros o'. unfold df_rows.
    rewrite !heap_store_ne by done. unfold w1. by rewrite heap_store_eq. }
  rewrite Hrows', count_hash_loop. fold (hash_counts_of rows).
  set (w2 := store hc (PyDefaultDict (hash_counts_of rows)) w1).
  rewrite alloc_store. set (wb := fresh (dom (heap w2))).
  assert (Hhc : hc ≠ wb) by (apply (fresh_not_allocated w2 hc _ (heap_store_eq _ _ _))).
  assert (Hdf' : df ≠ wb).
  { apply (fresh_not_allocated w2 df (PyDataFrame rows)).
    unfold w2. rewrite heap_store_ne by done. apply heap_store_eq. }
  rewrite bind_Ok, !mutate_store. cbn [on_sheet]. fold header_sheet.
  assert (Hrows2 : df_rows df (store wb (PyWorkbook header_sheet) w2) = rows)
    by (unfold w2; by apply Hrows).
  rewrite !Hrows2, write_rows_checked, bind_Ok; [done|].
  apply Forall_forall. intros row Hrow%sort_values_subset.
  by apply (proj1 (Forall_forall _ _) Haccepted).
Qed.

(** C7 (as amended): when every text field of the listed records is text
    a cell stores as given, rendering completes, and in every data row the
    "Folder" cell carries the light blue fill for the label "Folder1", the
    pink fill for "Folder2", and no fill for any other label. *)
Theorem folder_cell_fill (argsort : list Z → list nat) (w : world) (file_list : loc)
    (report_path : string) (tuples : list FileRecord) :
  argsort_spec argsort →
  heap w !! file_list = Some (PyList tuples) →
  Forall (λ row, record_accepted row = true) tuples →
  ∃ w' ws,
    generate_styled_excel_report_checked argsort file_list report_path w = Ok w'
    ∧ disk w' !! report_path = Some ws
    ∧ (∀ row, row ∈ tuples → ∃ k, sort_values argsort tuples !! k = Some row)
    ∧ ∀ k row, sort_values argsort tuples !! k = Some row →
        ∃ cells c,
          Sheet.grid ws !! S k = Some cells ∧ cells !! 4%nat = Some c
          ∧ Sheet.value_of c = Sheet.VStr (folder row)
          ∧ (folder row = "Folder1" → Sheet.fill c = Some folder1_fill)
          ∧ (folder row = "Folder2" → Sheet.fill c = Some folder2_fill)
          ∧ (folder row ≠ "Folder1" → folder row ≠ "Folder2" → Sheet.fill c = None).
Proof.
  intros Hsort Hlist Haccepted.
  rewrite (checked_report_accepted argsort w file_list report_path tuples Hlist Haccepted).
  destruct (report_run argsort w file_list report_path tuples Hlist) as (w' & Hrun & Hdisk & _).
  exists w', (report_sheet argsort tuples). split_and!; [done|..].
  - by rewrite Hdisk, lookup_insert_eq.
  - intros row Hrow. apply list_elem_of_lookup.
    by rewrite (sort_values_perm argsort Hsort tuples).
  - intros k row Hk. eexists _, _. split; [by apply data_row_lookup|].
    split; [reflexivity|]. split; [reflexivity|]. simpl. unfold folder_fill.
    split_and!.
    + by intros ->.
    + by intros ->.
    + intros H1 H2. apply String.eqb_neq in H1, H2. by rewrite H1, H2.
Qed.

Lemma folder_cell_fill_witness :
  ∃ w' ws,
    generate_styled_excel_report_checked merge_argsort 1%positive "all_files_report.xlsx"
      labelled_world
    = Ok w'
    ∧ disk w' !! "all_files_report.xlsx" = Some ws
    ∧ (∀ row, row ∈ labelled_files →
         ∃ k, sort_values merge_argsort labelled_files !! k = Some row)
    ∧ ∀ k row, sort_values merge_argsort labelled_files !! k = Some row →
        ∃ cells c,
          Sheet.grid ws !! S k = Some cells ∧ cells !! 4%nat = Some c
          ∧ Sheet.value_of c = Sheet.VStr (folder row)
          ∧ (folder row = "Folder1" → Sheet.fill c = Some folder1_fill)
          ∧ (folder row = "Folder2" → Sheet.fill c = Some folder2_fill)
          ∧ (folder row ≠ "Folder1" → folder row ≠ "Folder2" → Sheet.fill c = None).
Proof.
  apply (folder_cell_fill merge_argsort labelled_world 1%positive
           "all_files_report.xlsx" labelled_files).
  - exact merge_argsort_ok.
  - reflexivity.
  - repeat (constructor; [vm_compute; reflexivity|]). constructor.
Defined.

(** C7 as written fails: not every unknown label is rendered.  A label
    with a control character is refused by the worksheet when the row is
    appended, and the function raises instead of leaving the cell without
    a fill. *)
Lemma control_character_label_raises :
  ¬ (∀ w file_list report_path tuples,
       heap w !! file_list = Some (PyList tuples) →
       ∃ w', generate_styled_excel_report_checked Numpy.argsort file_list report_path w
             = Ok w').
Proof.
  intros Hruns.
  destruct (Hruns bad_label_world 1%positive "all_files_report.xlsx" bad_label_files eq_refl)
    as [w' Hrun].
  vm_compute in Hrun. discriminate.
Qed.

Example control_character_label :
  generate_styled_excel_report_checked Numpy.argsort 1%positive "all_files_report.xlsx"
    bad_label_world
  = Raise IllegalCharacterError
  ∧ folder <$> bad_label_files = ["Bad" +:+ String "001" "Label"].
Proof. split; vm_compute; reflexivity. Qed.

(** The rows of the three labels: blue, pink, and none for "Archive". *)
Example labelled_rows :
  ∃ w' ws,
    generate_styled_excel_report_checked Numpy.argsort 1%positive "all_files_report.xlsx"
      labelled_world = Ok w'
    ∧ disk w' !! "all_files_report.xlsx" = Some ws
    ∧ (λ cells, (λ c, (Sheet.value_of c, Sheet.fill c)) <$> cells !! 4%nat)
        <$> drop 1 (Sheet.grid ws)
      = [ Some (Sheet.VStr "Archive", None);
          Some (Sheet.VStr "Folder1", Some folder1_fill);
          Some (Sheet.VStr "Folder1", Some folder1_fill);
          Some (Sheet.VStr "Folder2", Some folder2_fill) ].
Proof.
  destruct (report_run Numpy.argsort labelled_world 1%positive "all_files_report.xlsx"
              labelled_files eq_refl) as (w' & Hrun & Hdisk & _).
  exists w', (report_sheet Numpy.argsort labelled_files).
  rewrite checked_report_accepted with (tuples := labelled_files);
    [|reflexivity|repeat (constructor; [vm_compute; reflexivity|]); constructor].
  split_and!; [done | by rewrite Hdisk, lookup_insert_eq |].
  vm_compute. reflexivity.
Qed.

(** A record with a third label: its "Folder" cell has no fill. *)
Example folder_cell_third_label :
  data_cells ∅ {| file_name := "z"; file_hash := "h"; file_type := ""; file_size := 1;
                   folder := "Archive"; content_type := "" |} !! 4%nat
  = Some (plain (Sheet.VStr "Archive") None).
Proof. reflexivity. Qed.

(** ** Column widths of the report *)

Lemma max_column_six (ws : Sheet.worksheet) :
  Sheet.grid ws ≠ [] → Forall (λ row, length row = 6%nat) (Sheet.grid ws) →
  Sheet.max_column ws = 6%nat.
Proof.
  unfold Sheet.max_column. destruct (Sheet.grid ws) as [|row grid]; [done|].
  intros _ Hall. apply Forall_cons in Hall as [Hrow Hall].
  assert (Hle : (max_list (length <$> grid) ≤ 6)%nat).
  { induction Hall as [|r grid Hr _ IH]; [simpl; lia|].
    rewrite fmap_cons.
    change (max_list (length r :: (length <$> grid)))
      with (length r `max` max_list (length <$> grid))%nat.
    lia. }
  rewrite fmap_cons.
  change (max_list (length row :: (length <$> grid)))
    with (length row `max` max_list (length <$> grid))%nat.
  lia.
Qed.

Lemma columns_six (ws : Sheet.worksheet) :
  Sheet.grid ws ≠ [] → Forall (λ row, length row = 6%nat) (Sheet.grid ws) →
  Sheet.columns ws
  = (λ j, (λ row, default (Sheet.new_cell Sheet.VNone) (row !! j)) <$> Sheet.grid ws)
      <$> seq 0 6.
Proof.
  intros Hne Hall. unfold Sheet.columns. rewrite (max_column_six ws Hne Hall).
  by destruct (Sheet.grid ws).
Qed.

Lemma fit_columns_width (ws : Sheet.worksheet) (j : nat) :
  Sheet.grid ws ≠ [] → Forall (λ row, length row = 6%nat) (Sheet.grid ws) →
  (j < 6)%nat →
  Sheet.column_widths (fit_columns ws) !! Sheet.column_letter j
  = Some (foldr Z.max 0
            (rendered_length
               <$> ((λ row, default (Sheet.new_cell Sheet.VNone) (row !! j)) <$> Sheet.grid ws))
          + 2).
Proof.
  intros Hne Hall Hj. unfold fit_columns. cbv zeta.
  rewrite (columns_six ws Hne Hall). rewrite length_fmap, length_seq.
  cbn [seq fmap list_fmap zip zip_with foldl]. unfold fit_step, Sheet.set_width.
  cbn [fst snd Sheet.column_widths].
  change (Sheet.column_letter 0) with "A". change (Sheet.column_letter 1) with "B".
  change (Sheet.column_letter 2) with "C". change (Sheet.column_letter 3) with "D".
  change (Sheet.column_letter 4) with "E". change (Sheet.column_letter 5) with "F".
  destruct j as [|[|[|[|[|[|j]]]]]]; [..|lia].
  - change (Sheet.column_letter 0) with "A". by simplify_map_eq.
  - change (Sheet.column_letter 1) with "B". by simplify_map_eq.
  - change (Sheet.column_letter 2) with "C". by simplify_map_eq.
  - change (Sheet.column_letter 3) with "D". by simplify_map_eq.
  - change (Sheet.column_letter 4) with "E". by simplify_map_eq.
  - change (Sheet.column_letter 5) with "F". by simplify_map_eq.
Qed.

Lemma report_rows_six (argsort : list Z → list nat) (tuples : list FileRecord) :
  Forall (λ row, length row = 6%nat) (Sheet.grid (report_sheet argsort tuples)).
Proof.
  rewrite report_sheet_grid. apply Forall_cons. split; [reflexivity|].
  apply Forall_fmap, Forall_forall. by intros row _.
Qed.

Lemma column_cells (grid : list (list Sheet.cell)) (j : nat) (c : Sheet.cell) :
  Forall (λ row, length row = 6%nat) grid → (j < 6)%nat →
  c ∈ (λ row, default (Sheet.new_cell Sheet.VNone) (row !! j)) <$> grid
  ↔ ∃ row, row ∈ grid ∧ row !! j = Some c.
Proof.
  intros Hall Hj. rewrite list_elem_of_fmap. split.
  - intros (row & -> & Hrow). exists row. split; [done|].
    rewrite Forall_forall in Hall. specialize (Hall row Hrow).
    destruct (lookup_lt_is_Some_2 row j) as [c Hc]; [lia|]. by rewrite Hc.
  - intros (row & Hrow & Hc). exists row. by rewrite Hc.
Qed.

(** C9: the report has six columns, and the width of each is the length
    of the longest rendered value among the cells of the column, header
    cell included, plus 2. *)
Theorem column_width_fits (argsort : list Z → list nat) (w : world) (file_list : loc)
    (report_path : string) (tuples : list FileRecord) :
  heap w !! file_list = Some (PyList tuples) →
  ∃ w' ws,
    generate_styled_excel_report argsort file_list report_path w = Ok w'
    ∧ disk w' !! report_path = Some ws
    ∧ (∀ row, row ∈ Sheet.grid ws → length row = 6%nat)
    ∧ ∀ j, (j < 6)%nat →
        ∃ width,
          Sheet.column_widths ws !! Sheet.column_letter j = Some width
          ∧ (∃ row c, row ∈ Sheet.grid ws ∧ row !! j = Some c
                      ∧ width = rendered_length c + 2)
          ∧ (∀ row c, row ∈ Sheet.grid ws → row !! j = Some c →
                      rendered_length c + 2 ≤ width).
Proof.
  intros Hlist.
  destruct (report_run argsort w file_list report_path tuples Hlist) as (w' & Hrun & Hdisk & _).
  exists w', (report_sheet argsort tuples). split_and!; [done|..].
  - by rewrite Hdisk, lookup_insert_eq.
  - apply Forall_forall, report_rows_six.
  - intros j Hj. pose proof (report_rows_six argsort tuples) as Hsix.
    unfold report_sheet in *. cbv zeta in *.
    set (body := foldl _ header_sheet _) in *.
    destruct (fit_step_grid (zip (seq 0 (length (Sheet.columns body))) (Sheet.columns body))
                body) as [Hgrid _].
    fold (fit_columns body) in Hgrid. rewrite Hgrid in *.
    assert (Hne : Sheet.grid body ≠ []).
    { unfold body. rewrite sheet_rows_eq. simpl. done. }
    rewrite (fit_columns_width body j Hne Hsix Hj).
    set (col := (λ row, default (Sheet.new_cell Sheet.VNone) (row !! j)) <$> Sheet.grid body).
    assert (Hcol : col ≠ []).
    { unfold col. destruct (Sheet.grid body); done. }
    destruct (longest_in_column col Hcol) as [(c & Hc & Hmax) Hbound].
    eexists. split; [done|]. split.
    + apply column_cells in Hc as (row & Hrow & Hlookup); [|done..].
      exists row, c. by rewrite Hmax.
    + intros row c' Hrow Hlookup.
      assert (Hc' : c' ∈ col) by (apply column_cells; eauto).
      specialize (Hbound c' Hc'). lia.
Qed.

Lemma column_width_fits_witness :
  ∃ w' ws,
    generate_styled_excel_report merge_argsort 1%positive "all_files_report.xlsx" sample_world
    = Ok w'
    ∧ disk w' !! "all_files_report.xlsx" = Some ws
    ∧ (∀ row, row ∈ Sheet.grid ws → length row = 6%nat)
    ∧ ∀ j, (j < 6)%nat →
        ∃ width,
          Sheet.column_widths ws !! Sheet.column_letter j = Some width
          ∧ (∃ row c, row ∈ Sheet.grid ws ∧ row !! j = Some c
                      ∧ width = rendered_length c + 2)
          ∧ (∀ row c, row ∈ Sheet.grid ws → row !! j = Some c →
                      rendered_length c + 2 ≤ width).
Proof.
  apply (column_width_fits merge_argsort sample_world 1%positive
           "all_files_report.xlsx" sample_files).
  reflexivity.
Defined.

(** The widths of the sample report: the hash column is 32 + 2 wide, the
    size column as wide as its header. *)
Example sample_widths :
  Sheet.column_widths (report_sheet merge_argsort sample_files)
  = {[ "A" := 11; "B" := 34; "C" := 11; "D" := 11; "E" := 9; "F" := 14 ]}.
Proof. vm_compute. reflexivity. Qed.

(** ** Duplicate hashes *)

Lemma filter_nonempty {A} (P : A → Prop) `{∀ x, Decision (P x)} (l : list A) (y : A) :
  y ∈ l → P y → (1 ≤ length (filter P l))%nat.
Proof.
  intros Hin HP. assert (Hy : y ∈ filter P l) by (by apply list_elem_of_filter).
  destruct (filter P l); [by apply elem_of_nil in Hy | simpl; lia].
Qed.

Lemma filter_witness {A} (P : A → Prop) `{∀ x, Decision (P x)} (l : list A) :
  (1 ≤ length (filter P l))%nat → ∃ n y, l !! n = Some y ∧ P y.
Proof.
  destruct (filter P l) as [|y ys] eqn:E; [simpl; lia|]. intros _.
  assert (Hy : y ∈ filter P l) by (rewrite E; left).
  apply list_elem_of_filter in Hy as [HP Hin].
  apply list_elem_of_lookup in Hin as [n Hn]. eauto.
Qed.

(** A value that satisfies [P] at position [i] is counted at least twice
    exactly when another position holds a value that satisfies [P]. *)
Lemma other_occurrence {A} (P : A → Prop) `{∀ x, Decision (P x)} (l : list A)
    (i : nat) (x : A) :
  l !! i = Some x → P x →
  (2 ≤ length (filter P l))%nat ↔ ∃ j y, j ≠ i ∧ l !! j = Some y ∧ P y.
Proof.
  intros Hi HP. pose proof (take_drop_middle l i x Hi) as Hsplit.
  assert (Hlen : length (filter P l)
                 = (length (filter P (take i l)) + S (length (filter P (drop (S i) l))))%nat).
  { rewrite <- Hsplit at 1. by rewrite filter_app, filter_cons_True, length_app by done. }
  rewrite Hlen. split.
  - intros Htwo.
    destruct (decide (1 ≤ length (filter P (take i l)))%nat) as [Hbefore|Hbefore].
    + apply filter_witness in Hbefore as (n & y & Hn & HPy).
      apply lookup_take_Some in Hn as [Hn Hlt]. exists n, y. split; [lia | done].
    + assert (Hafter : (1 ≤ length (filter P (drop (S i) l)))%nat) by lia.
      apply filter_witness in Hafter as (n & y & Hn & HPy).
      rewrite lookup_drop in Hn. exists (S i + n)%nat, y. split; [lia | done].
  - intros (j & y & Hne & Hj & HPy).
    destruct (decide (j < i)%nat) as [Hlt|Hge].
    + assert (Hin : y ∈ take i l).
      { apply list_elem_of_lookup. exists j. by apply lookup_take_Some. }
      pose proof (filter_nonempty P (take i l) y Hin HPy). lia.
    + assert (Hin : y ∈ drop (S i) l).
      { apply list_elem_of_lookup. exists (j - S i)%nat. rewrite lookup_drop.
        by replace (S i + (j - S i))%nat with j by lia. }
      pose proof (filter_nonempty P (drop (S i) l) y Hin HPy). lia.
Qed.

Lemma filter_fmap_length {A B} (f : A → B) (P : B → Prop) `{∀ y, Decision (P y)}
    (l : list A) :
  length (filter P (f <$> l)) = length (filter (λ x, P (f x)) l).
Proof.
  induction l as [|x l IH]; [done|]. rewrite fmap_cons, !filter_cons.
  destruct (decide (P (f x))); simpl; by rewrite IH.
Qed.

(** The count kept for the hash of a row is the number of rows of the
    list that carry this hash. *)
Lemma hash_count_is_occurrences (argsort : list Z → list nat) (tuples : list FileRecord)
    (h : string) :
  argsort_spec argsort →
  default 0 (hash_counts_of (sort_values argsort tuples) !! h)
  = Z.of_nat (length (filter (λ row, file_hash row = h) tuples)).
Proof.
  intros Hsort. unfold hash_counts_of. rewrite count_step_total, lookup_empty. simpl.
  rewrite filter_fmap_length. f_equal.
  by rewrite (sort_values_perm argsort Hsort tuples).
Qed.

(** C1: the "File Hash" cell of a record's row carries the duplicate
    highlight if and only if some other record of the list has the same
    hash, and has no fill otherwise. *)
Theorem duplicate_hash_highlight (argsort : list Z → list nat) (w : world) (file_list : loc)
    (report_path : string) (tuples : list FileRecord) :
  argsort_spec argsort →
  heap w !! file_list = Some (PyList tuples) →
  ∃ w' ws,
    generate_styled_excel_report argsort file_list report_path w = Ok w'
    ∧ disk w' !! report_path = Some ws
    ∧ ∀ i row, tuples !! i = Some row →
        ∃ k cells c,
          argsort (file_size <$> tuples) !! k = Some i
          ∧ Sheet.grid ws !! S k = Some cells ∧ cells !! 1%nat = Some c
          ∧ Sheet.value_of c = Sheet.VStr (file_hash row)
          ∧ (Sheet.fill c = Some duplicate_hash_fill
             ↔ ∃ j row', j ≠ i ∧ tuples !! j = Some row' ∧ file_hash row' = file_hash row)
          ∧ (Sheet.fill c = None
             ↔ ¬ ∃ j row', j ≠ i ∧ tuples !! j = Some row' ∧ file_hash row' = file_hash row).
Proof.
  intros Hsort Hlist.
  destruct (report_run argsort w file_list report_path tuples Hlist) as (w' & Hrun & Hdisk & _).
  exists w', (report_sheet argsort tuples). split_and!; [done|..].
  - by rewrite Hdisk, lookup_insert_eq.
  - intros i row Hi.
    assert (Hk : ∃ k, argsort (file_size <$> tuples) !! k = Some i).
    { apply list_elem_of_lookup. destruct (Hsort (file_size <$> tuples)) as [Hperm _].
      rewrite Hperm. apply elem_of_seq. rewrite length_fmap. apply lookup_lt_Some in Hi. lia. }
    destruct Hk as [k Hk]. exists k.
    assert (Hrow : sort_values argsort tuples !! k = Some row)
      by (by rewrite (sort_values_lookup argsort Hsort tuples k i Hk)).
    eexists _, _. split; [done|]. split; [by apply data_row_lookup|].
    split; [reflexivity|]. split; [reflexivity|]. simpl. unfold hash_fill.
    rewrite (hash_count_is_occurrences argsort tuples _ Hsort).
    pose proof (other_occurrence (λ row', file_hash row' = file_hash row) tuples i row
                  Hi eq_refl) as Hother.
    destruct (1 <? Z.of_nat (length (filter (λ row', file_hash row' = file_hash row) tuples)))
      eqn:Hcount.
    + apply Z.ltb_lt in Hcount.
      assert (Hex : ∃ j row', j ≠ i ∧ tuples !! j = Some row'
                              ∧ file_hash row' = file_hash row)
        by (apply Hother; lia).
      split; [split; [intros _; exact Hex | done]
             | split; [discriminate | intros Hnot; by destruct Hnot]].
    + apply Z.ltb_ge in Hcount.
      assert (Hnone : ¬ ∃ j row', j ≠ i ∧ tuples !! j = Some row'
                                  ∧ file_hash row' = file_hash row).
      { intros Hex. apply Hother in Hex. lia. }
      split; [split; [discriminate | intros Hex; by destruct Hnone]
             | split; [intros _; exact Hnone | done]].
Qed.

Lemma duplicate_hash_highlight_witness :
  ∃ w' ws,
    generate_styled_excel_report merge_argsort 1%positive "all_files_report.xlsx" sample_world
    = Ok w'
    ∧ disk w' !! "all_files_report.xlsx" = Some ws
    ∧ ∀ i row, sample_files !! i = Some row →
        ∃ k cells c,
          merge_argsort (file_size <$> sample_files) !! k = Some i
          ∧ Sheet.grid ws !! S k = Some cells ∧ cells !! 1%nat = Some c
          ∧ Sheet.value_of c = Sheet.VStr (file_hash row)
          ∧ (Sheet.fill c = Some duplicate_hash_fill
             ↔ ∃ j row', j ≠ i ∧ sample_files !! j = Some row'
                         ∧ file_hash row' = file_hash row)
          ∧ (Sheet.fill c = None
             ↔ ¬ ∃ j row', j ≠ i ∧ sample_files !! j = Some row'
                           ∧ file_hash row' = file_hash row).
Proof.
  apply (duplicate_hash_highlight merge_argsort sample_world 1%positive
           "all_files_report.xlsx" sample_files).
  - exact merge_argsort_ok.
  - reflexivity.
Defined.

(** The hash cells of the sample report: the 5-byte file is not
    highlighted, the two 10-byte files with one hash are. *)
Example sample_hash_fills :
  (λ cells, Sheet.fill <$> cells !! 1%nat)
    <$> Sheet.grid (report_sheet merge_argsort sample_files)
  = [ Some (Some header_fill); Some None;
      Some (Some duplicate_hash_fill); Some (Some duplicate_hash_fill) ].
Proof. vm_compute. reflexivity. Qed.

(** ** The order of the rows *)




Example twenty_files_order :
  Numpy.argsort (file_size <$> twenty_files)
  = [16; 6; 11; 17; 4; 8; 13; 1; 3; 7; 18; 10; 14; 0; 15; 9; 5; 2; 12; 19]%nat
  ∧ file_name <$> take 3 (sort_values Numpy.argsort twenty_files)
    = ["file16.dat"; "file6.dat"; "file11.dat"]
  ∧ file_name <$> filter (λ row, file_size row = 0) twenty_files
    = ["file6.dat"; "file11.dat"; "file16.dat"].
Proof. vm_compute. done. Qed.

(** Up to sixteen rows are sorted by insertion alone, which keeps equal
    sizes in order: on the three sample files nothing is swapped. *)
Example sample_row_order :
  file_name <$> sort_values Numpy.argsort sample_files = ["a5.txt"; "a10.bin"; "b10.bin"].
Proof. vm_compute. reflexivity. Qed.

(** * Further properties of the script *)

(** ** The content hash: chunk sizes, format, failures *)



Lemma read_refuses (f : FS.handle) (n : Z) :
  (- 2 ^ 63 ≤ n < -1 → FS.read f n = Raise ValueError)
  ∧ (n < - 2 ^ 63 ∨ 2 ^ 63 ≤ n → FS.read f n = Raise OverflowError).
Proof.
  unfold FS.read, FS.read_size.
  destruct (n <? - 2 ^ 63) eqn:E1; [apply Z.ltb_lt in E1|apply Z.ltb_ge in E1];
    (destruct (2 ^ 63 <=? n) eqn:E2; [apply Z.leb_le in E2|apply Z.leb_gt in E2]);
    (destruct (n <? -1) eqn:E3; [apply Z.ltb_lt in E3|apply Z.ltb_ge in E3]);
    simpl; split; intros ?; (done || lia).
Qed.

(** The other sizes are refused by the first read, before any byte is
    hashed: a negative size other than -1 with [ValueError], a size that
    does not fit 64 bits with [OverflowError]. *)
Lemma hash_refuses_chunk_size (fs : FS.node) (file_path : string)
    (content : list byte) (chunk_size : Z) :
  FS.resolve fs file_path = Ok (FS.File true content) →
  (- 2 ^ 63 ≤ chunk_size < -1 →
   calculate_full_hash fs file_path chunk_size = Raise ValueError)
  ∧ (chunk_size < - 2 ^ 63 ∨ 2 ^ 63 ≤ chunk_size →
     calculate_full_hash fs file_path chunk_size = Raise OverflowError).
Proof.
  intros Hres. unfold calculate_full_hash, FS.open_rb. rewrite Hres, !bind_Ok.
  generalize (wf_guard 32 lt_wf
                (FS.remaining {| FS.data := content; FS.pos := 0 |})).
  intros [a]. cbn [read_loop].
  split; intros Hsize;
    destruct (inspect _) as [[[chunk f']|e] Hread];
    pose proof Hread as Hr;
    first [ rewrite (proj1 (read_refuses _ _) Hsize) in Hr
          | rewrite (proj2 (read_refuses _ _) Hsize) in Hr ];
    first [ discriminate Hr | by injection Hr as <- ].
Qed.

Example hash_refuses_chunk_size_sample :
  calculate_full_hash sample_fs "folder1/x.txt" (-2) = Raise ValueError
  ∧ calculate_full_hash sample_fs "folder1/x.txt" (2 ^ 63) = Raise OverflowError.
Proof. split; vm_compute; reflexivity. Qed.

Lemma read_loop_zero (f : FS.handle) (h : MD5.md5) (acc : Acc lt (FS.remaining f)) :
  read_loop 0 f h acc = Ok h.
Proof.
  destruct acc as [a]. cbn [read_loop].
  destruct (inspect (FS.read f 0)) as [[[chunk f']|e] Hread];
    unfold FS.read in Hread; simpl in Hread; rewrite ?take_0 in Hread; [|done].
  injection Hread as <- <-. done.
Qed.

(** With chunk size 0 the first read is empty, the loop body never runs,
    and the result is the digest of the empty input whatever the file
    holds. *)
Theorem hash_with_chunk_size_zero (fs : FS.node) (file_path : string)
    (content : list byte) :
  FS.resolve fs file_path = Ok (FS.File true content) →
  calculate_full_hash fs file_path 0 = Ok "d41d8cd98f00b204e9800998ecf8427e".
Proof.
  intros Hres. unfold calculate_full_hash, FS.open_rb.
  rewrite Hres, !bind_Ok, read_loop_zero. vm_compute. reflexivity.
Qed.

Lemma hash_with_chunk_size_zero_witness :
  calculate_full_hash sample_fs "folder1/x.txt" 0 = Ok "d41d8cd98f00b204e9800998ecf8427e".
Proof.
  apply (hash_with_chunk_size_zero sample_fs "folder1/x.txt" (list_byte_of_string "hello")).
  vm_compute. reflexivity.
Defined.

Lemma length_le_bytes (k : nat) (n : Z) : length (MD5.le_bytes k n) = k.
Proof. revert n. induction k as [|k IH]; intros n; simpl; [done | by rewrite IH]. Qed.

Lemma length_digest (msg : list byte) : length (MD5.digest msg) = 16%nat.
Proof.
  unfold MD5.digest.
  destruct (foldl MD5.compress MD5.init (MD5.blocks (MD5.pad msg))) as [[[A B] C] D].
  by rewrite !length_app, !length_le_bytes.
Qed.

Lemma length_hex (bs : list Z) : String.length (MD5.hex bs) = (2 * length bs)%nat.
Proof. induction bs as [|b bs IH]; simpl; [done | rewrite IH; lia]. Qed.

Lemma hex_digit_is_hex (n : Z) : is_hex (MD5.hex_digit n) = true.
Proof.
  unfold MD5.hex_digit. generalize (Z.to_nat n). intros k.
  do 17 (destruct k as [|k]; [reflexivity|]). reflexivity.
Qed.

Lemma hex_is_hex (bs : list Z) : Str.all is_hex (MD5.hex bs) = true.
Proof.
  induction bs as [|b bs IH]; [done|].
  cbn [MD5.hex Str.all]. by rewrite !hex_digit_is_hex, IH.
Qed.

(** Whatever the file and the chunk size, a hash that is returned is 32
    lowercase hexadecimal digits. *)
Theorem hash_is_32_hex_digits (fs : FS.node) (file_path : string) (chunk_size : Z)
    (file_hash : string) :
  calculate_full_hash fs file_path chunk_size = Ok file_hash →
  String.length file_hash = 32%nat ∧ Str.all is_hex file_hash = true.
Proof.
  unfold calculate_full_hash. destruct (FS.open_rb fs file_path) as [f|e]; [|done].
  rewrite bind_Ok.
  match goal with |- context [read_loop ?c ?f ?h ?a] => generalize (read_loop c f h a) end.
  intros [h|e]; [|done]. rewrite bind_Ok. intros [= <-]. unfold MD5.hexdigest.
  by rewrite length_hex, length_digest, hex_is_hex.
Qed.

Lemma hash_is_32_hex_digits_witness :
  String.length "5d41402abc4b2a76b9719d911017c592" = 32%nat
  ∧ Str.all is_hex "5d41402abc4b2a76b9719d911017c592" = true.
Proof.
  apply (hash_is_32_hex_digits sample_fs "folder2/y.txt" default_chunk_size).
  vm_compute. reflexivity.
Defined.



(** ** The form heuristic: only the beginning of the name counts *)

(** Once a name has the hint, every longer name that begins with it has
    the hint too. *)
Theorem form_hint_kept_by_longer_names (name rest : string) :
  is_form_type name = "Form(maybe)" →
  is_form_type (name +:+ rest) = "Form(maybe)".
Proof.
  unfold is_form_type.
  destruct (Re.re_match form_pattern name) eqn:Hname; [|done]. intros _.
  apply re_match_form_pattern in Hname as (token & rest0 & -> & Hne & Hall).
  assert (Hlong : Re.re_match form_pattern ((("(" +:+ token +:+ ")" +:+ rest0)) +:+ rest) = true).
  { apply re_match_form_pattern. exists token, (rest0 +:+ rest).
    split; [by rewrite !str_app_assoc | done]. }
  by rewrite Hlong.
Qed.

Lemma form_hint_kept_by_longer_names_witness :
  is_form_type ("(AB12)" +:+ "invoice.pdf") = "Form(maybe)".
Proof. apply (form_hint_kept_by_longer_names "(AB12)" "invoice.pdf"). reflexivity. Defined.

Lemma first_stop_unique (p : ascii → bool) (s1 s2 r1 r2 : string) (c1 c2 : ascii) :
  Str.all p s1 = true → p c1 = false → Str.all p s2 = true → p c2 = false →
  s1 +:+ String c1 r1 = s2 +:+ String c2 r2 → c1 = c2.
Proof.
  revert s2. induction s1 as [|a s1 IH]; intros [|b s2] H1 Hc1 H2 Hc2 Heq;
    rewrite ?str_app_nil_l, ?str_app_cons in Heq; simpl in *.
  - by injection Heq.
  - injection Heq as -> _. apply andb_true_iff in H2 as [Hb _]. congruence.
  - injection Heq as -> _. apply andb_true_iff in H1 as [Ha _]. congruence.
  - injection Heq as -> Heq. apply andb_true_iff in H1 as [_ H1].
    apply andb_true_iff in H2 as [_ H2]. eauto.
Qed.

(** A character other than an ASCII letter or digit before the closing
    parenthesis (a space, a hyphen, an underscore, an accented letter)
    leaves the name without the hint. *)
Theorem form_hint_needs_alnum_token (token rest : string) (c : ascii) :
  Str.all is_alnum token = true → is_alnum c = false → c ≠ ")"%char →
  is_form_type ("(" +:+ token +:+ String c rest) = "".
Proof.
  intros Htoken Hc Hparen. unfold is_form_type.
  destruct (Re.re_match form_pattern ("(" +:+ token +:+ String c rest)) eqn:Hm; [|done].
  apply re_match_form_pattern in Hm as (token' & rest' & Heq & _ & Htoken').
  rewrite !str_app_cons, !str_app_nil_l in Heq. injection Heq as Heq.
  destruct Hparen.
  by apply (first_stop_unique is_alnum token token' rest rest' c ")"%char).
Qed.

Lemma form_hint_needs_alnum_token_witness : is_form_type ("(" +:+ "A" +:+ String "-" "1)x.pdf") = "".
Proof.
  apply (form_hint_needs_alnum_token "A" "1)x.pdf" "-"%char); [reflexivity | reflexivity |].
  discriminate.
Defined.

(** ** The extension: a lowered end of the name *)

Lemma str_take_drop (n : nat) (s : string) : Str.take n s +:+ Str.drop n s = s.
Proof.
  revert s. induction n as [|n IH]; intros [|a s]; simpl; try done.
  by rewrite str_app_cons, IH.
Qed.

Lemma rfind_absent (c : ascii) (s : string) : Str.rfind c s < 0 → no_char c s = true.
Proof.
  unfold no_char. induction s as [|a s IH]; simpl; [done|].
  pose proof (rfind_ge c s) as Hge.
  destruct (0 <=? Str.rfind c s) eqn:E; [apply Z.leb_le in E; lia|].
  apply Z.leb_gt in E. destruct (Ascii.eqb a c); [lia|]. intros _. simpl. by apply IH.
Qed.

Lemma rfind_split (c : ascii) (s : string) :
  0 ≤ Str.rfind c s →
  ∃ stem suffix, s = stem +:+ String c suffix ∧ no_char c suffix = true
                 ∧ Str.rfind c s = Str.len stem.
Proof.
  induction s as [|a s IH]; simpl; [lia|].
  destruct (0 <=? Str.rfind c s) eqn:E.
  - apply Z.leb_le in E. destruct (IH E) as (stem & suffix & -> & Hno & Hlen). intros _.
    exists (String a stem), suffix. rewrite str_app_cons. split_and!; [done..|].
    rewrite Hlen. unfold Str.len. simpl String.length. lia.
  - apply Z.leb_gt in E. destruct (Ascii.eqb_spec a c) as [->|Hne]; [|lia]. intros _.
    exists "", s. split_and!; [done | by apply rfind_absent | done].
Qed.

Lemma rfind_app_found (c : ascii) (stem t : string) :
  0 ≤ Str.rfind c t → Str.rfind c (stem +:+ t) = Str.len stem + Str.rfind c t.
Proof.
  intros Ht. induction stem as [|a stem IH]; [rewrite str_app_nil_l; unfold Str.len; simpl; lia|].
  rewrite str_app_cons. simpl. rewrite IH. unfold Str.len. simpl String.length.
  destruct (0 <=? Z.of_nat (String.length stem) + Str.rfind c t) eqn:E; [lia|].
  apply Z.leb_gt in E. lia.
Qed.

Lemma slice_to_app (s t : string) : Str.slice_to (s +:+ t) (Str.len s) = s.
Proof.
  unfold Str.slice_to. rewrite bound_nonneg by (unfold Str.len; lia).
  unfold Str.len. rewrite str_length_app.
  replace (Z.to_nat _) with (String.length s) by lia. apply str_take_app_len.
Qed.

(** What [splitext] returns for a path cut at its last dot. *)
Lemma splitext_cases (p : string) :
  PosixPath.splitext p = (p, "")
  ∨ ∃ stem suffix,
      p = stem +:+ String "." suffix ∧ PosixPath.splitext p = (stem, String "." suffix)
      ∧ no_char "." suffix = true ∧ no_char "/" suffix = true.
Proof.
  unfold PosixPath.splitext, PosixPath._splitext. cbv zeta.
  replace (Str.slice_to p 0) with "" by (by destruct p).
  destruct (Str.rfind "/" p <? Str.rfind "." p) eqn:Hlt; [|by left].
  apply Z.ltb_lt in Hlt. pose proof (rfind_ge "/" p) as Hsep.
  rewrite skip_leading_dots_spec.
  replace (Str.slice_to p 0) with "" by (by destruct p).
  destruct (forallb _ _); [by left|]. right.
  destruct (rfind_split "." p) as (stem & suffix & -> & Hno & Hlen); [lia|].
  exists stem, suffix. rewrite Hlen, slice_to_app, slice_from_app.
  split_and!; [done..|].
  destruct (decide (0 ≤ Str.rfind "/" (String "." suffix))) as [Hin|Hout].
  - rewrite (rfind_app_found _ _ _ Hin), (rfind_last _ _ _ Hno) in Hlt. lia.
  - assert (Hnone : no_char "/" (String "." suffix) = true) by (apply rfind_absent; lia).
    unfold no_char in *. by simpl in Hnone.
Qed.

(** For every name, with or without slashes: the extension is the end of
    the name, lowercased, and that end is either empty or one dot followed
    by characters that are neither dots nor slashes. *)
Theorem extension_is_lowered_suffix (name : string) :
  ∃ stem ext,
    name = stem +:+ ext ∧ file_extension name = Str.lower ext
    ∧ (ext = "" ∨ ∃ suffix, ext = String "." suffix ∧ no_char "." suffix = true
                            ∧ no_char "/" suffix = true).
Proof.
  unfold file_extension.
  destruct (splitext_cases name) as [->|(stem & suffix & Hname & -> & Hdot & Hsep)].
  - exists name, "". split_and!; [by rewrite str_app_nil_r | done | by left].
  - exists stem, (String "." suffix). split_and!; [done | done | right; eauto].
Qed.

Lemma lower_char_dot (a : ascii) : Ascii.eqb (Str.lower_char a) "." = Ascii.eqb a ".".
Proof. destruct a as [[|] [|] [|] [|] [|] [|] [|] [|]]; reflexivity. Qed.

Lemma lower_char_slash (a : ascii) : Ascii.eqb (Str.lower_char a) "/" = Ascii.eqb a "/".
Proof. destruct a as [[|] [|] [|] [|] [|] [|] [|] [|]]; reflexivity. Qed.

Lemma lower_char_idem (a : ascii) : Str.lower_char (Str.lower_char a) = Str.lower_char a.
Proof. destruct a as [[|] [|] [|] [|] [|] [|] [|] [|]]; reflexivity. Qed.

Lemma lower_idem (s : string) : Str.lower (Str.lower s) = Str.lower s.
Proof. induction s as [|a s IH]; simpl; [done|]. by rewrite lower_char_idem, IH. Qed.

Lemma rfind_lower (c : ascii) (s : string) :
  (∀ a, Ascii.eqb (Str.lower_char a) c = Ascii.eqb a c) →
  Str.rfind c (Str.lower s) = Str.rfind c s.
Proof. intros Hc. induction s as [|a s IH]; simpl; [done|]. by rewrite IH, Hc. Qed.

Lemma length_lower (s : string) : String.length (Str.lower s) = String.length s.
Proof. induction s as [|a s IH]; simpl; [done|]. by rewrite IH. Qed.

Lemma take_lower (n : nat) (s : string) : Str.take n (Str.lower s) = Str.lower (Str.take n s).
Proof. revert s. induction n as [|n IH]; intros [|a s]; simpl; try done. by rewrite IH. Qed.

Lemma drop_lower (n : nat) (s : string) : Str.drop n (Str.lower s) = Str.lower (Str.drop n s).
Proof. revert s. induction n as [|n IH]; intros [|a s]; simpl; try done. Qed.

Lemma bound_lower (s : string) (i : Z) : Str.bound (Str.lower s) i = Str.bound s i.
Proof. unfold Str.bound, Str.len. by rewrite length_lower. Qed.

Lemma slice_to_lower (s : string) (i : Z) :
  Str.slice_to (Str.lower s) i = Str.lower (Str.slice_to s i).
Proof. unfold Str.slice_to. by rewrite bound_lower, take_lower. Qed.

Lemma slice_from_lower (s : string) (i : Z) :
  Str.slice_from (Str.lower s) i = Str.lower (Str.slice_from s i).
Proof. unfold Str.slice_from. by rewrite bound_lower, drop_lower. Qed.

Lemma slice1_lower (s : string) (i : Z) :
  Str.slice1 (Str.lower s) i = Str.lower (Str.slice1 s i).
Proof. unfold Str.slice1. by rewrite !bound_lower, drop_lower, take_lower. Qed.

Lemma eqb_lower_dot (s : string) : String.eqb (Str.lower s) "." = String.eqb s ".".
Proof.
  destruct s as [|a [|b s]]; simpl; [done | | ].
  - by rewrite lower_char_dot.
  - rewrite lower_char_dot. by destruct (Ascii.eqb a ".").
Qed.

Lemma skip_leading_dots_lower (p : string) (dotIndex : Z) (indices : list Z) :
  PosixPath.skip_leading_dots (Str.lower p) "." dotIndex indices
  = (Str.lower (PosixPath.skip_leading_dots p "." dotIndex indices).1,
     Str.lower (PosixPath.skip_leading_dots p "." dotIndex indices).2).
Proof.
  induction indices as [|i indices IH]; simpl.
  - by rewrite slice_to_lower.
  - rewrite slice1_lower, eqb_lower_dot.
    destruct (String.eqb (Str.slice1 p i) "."); simpl; [done|].
    by rewrite slice_to_lower, slice_from_lower.
Qed.

Lemma splitext_lower (p : string) :
  PosixPath.splitext (Str.lower p)
  = (Str.lower (PosixPath.splitext p).1, Str.lower (PosixPath.splitext p).2).
Proof.
  unfold PosixPath.splitext, PosixPath._splitext. cbv zeta.
  rewrite (rfind_lower "/" p lower_char_slash), (rfind_lower "." p lower_char_dot).
  destruct (Str.rfind "/" p <? Str.rfind "." p).
  - apply skip_leading_dots_lower.
  - simpl. by rewrite slice_to_lower.
Qed.

(** For a name of ASCII characters the extension does not depend on the
    case of the name: "A.PDF", "a.pdf" and "A.Pdf" are filed under the same
    type. *)
Theorem extension_ignores_case (name : string) :
  Str.all is_ascii name = true →
  file_extension (Str.lower name) = file_extension name.
Proof.
  intros _. unfold file_extension. rewrite splitext_lower. cbn [snd]. apply lower_idem.
Qed.

Lemma extension_ignores_case_witness :
  file_extension (Str.lower "Report.Final.PDF") = file_extension "Report.Final.PDF".
Proof. apply (extension_ignores_case "Report.Final.PDF"). reflexivity. Defined.

(** ** Paths below a directory *)

Lemma node_induction (P : FS.node → Prop) :
  (∀ readable content, P (FS.File readable content)) →
  (∀ st_size entries, Forall (λ e, P e.2) entries → P (FS.Dir st_size entries)) →
  (∀ st_size searchable entries,
     Forall (λ e, P e.2) entries → P (FS.Locked st_size searchable entries)) →
  ∀ n, P n.
Proof.
  intros Hfile Hdir Hlocked. fix IH 1.
  intros [readable content|st_size entries|st_size searchable entries]; [apply Hfile|..].
  - apply Hdir. induction entries as [|[name x] entries IHentries]; constructor.
    + apply IH.
    + apply IHentries.
  - apply Hlocked. induction entries as [|[name x] entries IHentries]; constructor.
    + apply IH.
    + apply IHentries.
Qed.

Lemma components_nonempty (path : string) : FS.components path ≠ [].
Proof.
  induction path as [|a path IH]; simpl; [done|].
  destruct (Ascii.eqb a "/"); [done|]. by destruct (FS.components path).
Qed.

Lemma components_name (name : string) :
  no_char "/" name = true → FS.components name = [name].
Proof.
  unfold no_char. induction name as [|a name IH]; simpl; [done|].
  intros [Ha Hname]%andb_true_iff. apply negb_true_iff in Ha. rewrite Ha.
  by rewrite (IH Hname).
Qed.

Lemma components_slash (s t : string) :
  FS.components (s +:+ String "/" t) = FS.components s ++ FS.components t.
Proof.
  induction s as [|a s IH]; [done|].
  rewrite str_app_cons. simpl. rewrite IH.
  destruct (Ascii.eqb a "/"); [done|].
  pose proof (components_nonempty s). by destruct (FS.components s).
Qed.

Lemma resolve_from_app (up : list FS.node) (n : FS.node) (cs1 cs2 : list string) :
  FS.resolve_from up n (cs1 ++ cs2)
  = (r ← FS.resolve_from up n cs1; FS.resolve_from r.1 r.2 cs2).
Proof.
  revert up n. induction cs1 as [|c cs1 IH]; intros up n; [done|]. simpl.
  destruct (FS.step up n c) as [[up' n']|e]; [apply IH | done].
Qed.

Lemma endswith_slash (path : string) :
  Str.endswith_char "/" path = true → ∃ stem, path = stem +:+ "/".
Proof.
  induction path as [|a path IH]; [done|]. simpl.
  destruct path as [|b path].
  - intros ->%Ascii.eqb_eq. by exists "".
  - intros [stem ->]%IH. exists (String a stem). by rewrite str_app_cons.
Qed.

Lemma resolve_at_path (fs : FS.node) (path : string) (n : FS.node) :
  FS.resolve fs path = Ok n ↔ at_path fs path n.
Proof.
  unfold FS.resolve, at_path.
  destruct (FS.no_nul path); simpl; [|split; [done | by intros [? _]]].
  destruct (String.eqb_spec path "") as [->|Hne].
  - split; [done | by intros (_ & ? & _)].
  - destruct (FS.resolve_from [] fs (FS.components path)) as [[up m]|e].
    + split; [intros [= ->]; eauto | by intros (_ & _ & up' & [= _ ->])].
    + split; [by destruct e | by intros (_ & _ & ? & ?)].
Qed.

Lemma valid_name_parts (name : string) :
  valid_name name = true →
  name ≠ "" ∧ name ≠ "." ∧ name ≠ ".." ∧ no_char "/" name = true
  ∧ FS.no_nul name = true.
Proof.
  unfold valid_name.
  intros [[[[H1 H2]%andb_true_iff H3]%andb_true_iff H4]%andb_true_iff H5]%andb_true_iff.
  apply negb_true_iff, String.eqb_neq in H1. apply negb_true_iff, String.eqb_neq in H2.
  apply negb_true_iff, String.eqb_neq in H3. done.
Qed.

Lemma all_app (p : ascii → bool) (s t : string) :
  Str.all p (s +:+ t) = Str.all p s && Str.all p t.
Proof. induction s as [|a s IH]; simpl; [done|]. by rewrite IH, andb_assoc. Qed.

Lemma child_of_entry (name : string) (x : FS.node) (entries : list (string * FS.node)) :
  NoDup entries.*1 → (name, x) ∈ entries → FS.child name entries = Some x.
Proof.
  induction entries as [|[name' x'] entries IH]; intros Hnodup Hin.
  - by apply elem_of_nil in Hin.
  - rewrite fmap_cons in Hnodup. apply NoDup_cons in Hnodup as [Hfresh Hnodup]. simpl.
    apply elem_of_cons in Hin as [[= -> ->]|Hin].
    + by rewrite String.eqb_refl.
    + destruct (String.eqb_spec name' name) as [->|Hne]; [|by apply IH].
      destruct Hfresh. simpl. by apply (list_elem_of_fmap_2 fst) in Hin.
Qed.

(** Joining a directory's path with the name of one of its entries gives
    a path that names this entry. *)
Lemma at_path_child (fs : FS.node) (path name : string) (st_size : Z)
    (entries : list (string * FS.node)) (x : FS.node) :
  at_path fs path (FS.Dir st_size entries) →
  valid_name name = true → NoDup entries.*1 → (name, x) ∈ entries →
  at_path fs (PosixPath.join path name) x.
Proof.
  intros (Hnul & Hpath & up & Hres) (Hne & Hdot & Hdd & Hslash & Hnn)%valid_name_parts
    Hnodup Hin.
  assert (Hstep : FS.resolve_from up (FS.Dir st_size entries) [name]
                  = Ok (FS.Dir st_size entries :: up, x)).
  { simpl. apply String.eqb_neq in Hne, Hdot, Hdd. rewrite Hne, Hdot, Hdd. simpl.
    by rewrite (child_of_entry name x entries Hnodup Hin). }
  unfold PosixPath.join.
  assert (Str.startswith_char "/" name = false) as ->.
  { destruct name as [|a name]; [done|]. unfold no_char in Hslash. simpl in *.
    apply andb_true_iff in Hslash as [Ha _]. by apply negb_true_iff in Ha. }
  apply String.eqb_neq in Hpath as Hpath'. rewrite Hpath'. simpl.
  destruct (Str.endswith_char "/" path) eqn:Hend.
  - apply endswith_slash in Hend as [stem ->]. split_and!.
    + unfold FS.no_nul in *. rewrite all_app. by rewrite Hnul, Hnn.
    + destruct stem; by rewrite ?str_app_cons.
    + exists (FS.Dir st_size entries :: up).
      rewrite str_app_assoc. change ("/" +:+ name) with (String "/" name).
      change (stem +:+ "/") with (stem +:+ String "/" "") in Hres.
      rewrite components_slash, resolve_from_app in *.
      rewrite (components_name name Hslash).
      destruct (FS.resolve_from [] fs (FS.components stem)) as [[up0 m]|e]; [|done].
      rewrite bind_Ok in *. cbn [fst snd] in *.
      assert ((up0, m) = (up, FS.Dir st_size entries)) as [= -> ->]; [|done].
      destruct m as [? ?|? ?|? [] ?]; simpl in Hres; congruence.
  - split_and!.
    + unfold FS.no_nul in *. rewrite !all_app. by rewrite Hnul, Hnn.
    + destruct path; [done | by rewrite str_app_cons].
    + exists (FS.Dir st_size entries :: up).
      change ("/" +:+ name) with (String "/" name).
      rewrite components_slash, resolve_from_app, Hres, bind_Ok.
      by rewrite (components_name name Hslash).
Qed.

(** ** The listing of a tree *)

Lemma for_each_app {A S} (body : S → A → result S) (xs ys : list A) (s : S) :
  for_each body (xs ++ ys) s = (s' ← for_each body xs s; for_each body ys s').
Proof.
  revert s. induction xs as [|x xs IH]; intros s; [done|]. simpl.
  destruct (body s x) as [s'|e]; [|done]. rewrite !bind_Ok. apply IH.
Qed.

Lemma all_readable_dir (st_size : Z) (entries : list (string * FS.node)) :
  all_readable (FS.Dir st_size entries) = files_readable entries && dirs_readable entries.
Proof.
  unfold files_readable, dirs_readable. simpl.
  induction entries as [|[name [readable content|sz es|sz b es]] entries IH];
    simpl in *; [done|..].
  - rewrite IH. by destruct readable.
  - rewrite IH. by destruct (forallb _ es), (forallb _ entries), (forallb _ entries).
  - by rewrite IH.
Qed.

Lemma well_formed_dir (st_size : Z) (entries : list (string * FS.node)) :
  well_formed (FS.Dir st_size entries) = true →
  NoDup entries.*1
  ∧ Forall (λ e, valid_name e.1 = true ∧ well_formed e.2 = true) entries.
Proof.
  simpl. intros [Hnodup Hall]%andb_true_iff. apply bool_decide_eq_true in Hnodup.
  split; [done|]. apply Forall_forall. intros e He.
  rewrite forallb_forall in Hall. apply andb_true_iff, Hall. by apply list_elem_of_In.
Qed.

Lemma basename_name (name : string) :
  no_char "/" name = true → PosixPath.basename name = name.
Proof.
  intros Hname. unfold PosixPath.basename. rewrite (rfind_none _ _ Hname).
  unfold Str.slice_from. rewrite bound_nonneg by lia.
  replace (Z.to_nat (Z.min (-1 + 1) (Str.len name))) with 0%nat
    by (unfold Str.len; lia).
  by destruct name.
Qed.

(** What the loop body does for a regular file of the directory at
    [root]: one more record, or a [PermissionError]. *)
Lemma append_file_entry (fs : FS.node) (root folder_label name : string) (st_size : Z)
    (entries : list (string * FS.node)) (readable : bool) (content : list byte)
    (file_list : list FileRecord) :
  at_path fs root (FS.Dir st_size entries) → NoDup entries.*1 →
  valid_name name = true → (name, FS.File readable content) ∈ entries →
  append_file fs root folder_label file_list name
  = if readable then Ok (file_list ++ [record_of folder_label name content])
    else Raise (PermissionError (PosixPath.join root name)).
Proof.
  intros Hroot Hnodup Hname Hin.
  pose proof (at_path_child fs root name st_size entries _ Hroot Hname Hnodup Hin) as Hfile.
  apply resolve_at_path in Hfile.
  apply valid_name_parts in Hname as (_ & _ & _ & Hslash & _).
  unfold append_file. cbv zeta. unfold FS.getsize. rewrite Hfile, !bind_Ok.
  destruct readable.
  - rewrite (calculate_full_hash_ok fs _ content) by done.
    rewrite bind_Ok. unfold record_of. by rewrite basename_name.
  - unfold calculate_full_hash, FS.open_rb. by rewrite Hfile, bind_Ok, !bind_Raise.
Qed.

Lemma names_where_cons (p : FS.node → bool) (e : string * FS.node)
    (entries : list (string * FS.node)) :
  FS.names_where p (e :: entries)
  = if p e.2 then e.1 :: FS.names_where p entries else FS.names_where p entries.
Proof.
  unfold FS.names_where. rewrite filter_cons.
  destruct (p e.2); by destruct (decide _).
Qed.

Section Listing.

Variables (fs : FS.node) (folder_label root : string) (st_size : Z).
Variable entries : list (string * FS.node).
Hypothesis root_ok : at_path fs root (FS.Dir st_size entries).
Hypothesis names_differ : NoDup entries.*1.
Hypothesis entries_ok : Forall (λ e, valid_name e.1 = true ∧ well_formed e.2 = true) entries.

(** The files of the directory, in order: all recorded, or the loop stops
    at the first unreadable one. *)
Lemma files_loop (sub : list (string * FS.node)) (file_list : list FileRecord) :
  sub ⊆ entries →
  (files_readable sub = true →
   for_each (append_file fs root folder_label)
     (FS.names_where (λ x, negb (FS.is_dir x)) sub) file_list
   = Ok (file_list ++ file_records folder_label sub))
  ∧ (files_readable sub = false →
     ∃ path, for_each (append_file fs root folder_label)
               (FS.names_where (λ x, negb (FS.is_dir x)) sub) file_list
             = Raise (PermissionError path)).
Proof.
  revert file_list. induction sub as [|[name x] sub IH]; intros file_list Hsub.
  - split; [intros _; simpl; by rewrite app_nil_r | done].
  - assert (Hin : (name, x) ∈ entries) by (apply Hsub; left).
    assert (Hsub' : sub ⊆ entries) by (intros e He; apply Hsub; by right).
    rewrite Forall_forall in entries_ok. destruct (entries_ok _ Hin) as [Hname _].
    rewrite names_where_cons. unfold files_readable in *. simpl.
    destruct x as [readable content|sz es|sz b es]; simpl;
      [|apply (IH file_list Hsub')..].
    + rewrite (append_file_entry fs root folder_label name st_size entries readable content)
        by done.
      destruct readable; simpl.
      * rewrite ?bind_Ok. destruct (IH (file_list ++ [record_of folder_label name content]) Hsub')
          as [Hok Hfail].
        split; [intros Hr; rewrite (Hok Hr); by rewrite <- app_assoc | done].
      * split; [done | intros _; eauto].
Qed.

End Listing.

Lemma dirs_loop (fs : FS.node) (folder_label root : string) (st_size : Z)
    (entries sub : list (string * FS.node)) (file_list : list FileRecord) :
  at_path fs root (FS.Dir st_size entries) → NoDup entries.*1 →
  Forall (λ e, valid_name e.1 = true ∧ well_formed e.2 = true) entries →
  Forall (λ e, listing_of fs folder_label e.2) sub → sub ⊆ entries →
  (dirs_readable sub = true →
   for_each (listing_step fs folder_label)
     (flat_map (λ e, if FS.is_dir e.2 then FS.walk_node (PosixPath.join root e.1) e.2 else [])
        sub) file_list
   = Ok (file_list ++ flat_map (λ e, records_under folder_label e.2) sub))
  ∧ (dirs_readable sub = false →
     ∃ bad, for_each (listing_step fs folder_label)
              (flat_map (λ e, if FS.is_dir e.2
                              then FS.walk_node (PosixPath.join root e.1) e.2 else [])
                 sub) file_list
            = Raise (PermissionError bad)).
Proof.
  intros Hroot Hnodup Hentries Hsubs. revert file_list.
  induction Hsubs as [|[name x] sub Hx _ IH]; intros file_list Hsub.
  - split; [intros _; simpl; by rewrite app_nil_r | done].
  - assert (Hin : (name, x) ∈ entries) by (apply Hsub; left).
    assert (Hsub' : sub ⊆ entries) by (intros e He; apply Hsub; by right).
    rewrite Forall_forall in Hentries. destruct (Hentries _ Hin) as [Hname Hwf].
    simpl in Hname, Hwf, Hx. unfold dirs_readable in *. cbn [flat_map forallb fst snd].
    destruct x as [readable content|sz es|sz b es];
      [simpl; apply (IH file_list Hsub')| |simpl; apply (IH file_list Hsub')].
    + cbn [FS.is_dir]. rewrite for_each_app.
      pose proof (at_path_child fs root name st_size entries _ Hroot Hname Hnodup Hin) as Hat.
      destruct (Hx (PosixPath.join root name) file_list Hat Hwf eq_refl) as [Hok Hfail].
      destruct (all_readable (FS.Dir sz es)) eqn:Hread.
      * rewrite (Hok eq_refl), bind_Ok.
        destruct (IH (file_list ++ records_under folder_label (FS.Dir sz es)) Hsub')
          as [Hok' Hfail'].
        split; [|done]. intros Hr. rewrite (Hok' Hr). by rewrite <- app_assoc.
      * destruct (Hfail eq_refl) as [bad ->]. split; [done | intros _; eauto].
Qed.

Lemma listing_step_cons (fs : FS.node) (folder_label root : string)
    (dirs files : list string) (rest : list (string * list string * list string))
    (file_list : list FileRecord) :
  for_each (listing_step fs folder_label) ((root, dirs, files) :: rest) file_list
  = (file_list' ← for_each (append_file fs root folder_label) files file_list;
     for_each (listing_step fs folder_label) rest file_list').
Proof. reflexivity. Qed.

Lemma listing_of_every_node (fs : FS.node) (folder_label : string) (n : FS.node) :
  listing_of fs folder_label n.
Proof.
  induction n as [readable content|st_size entries IH|st_size searchable entries IH]
    using node_induction;
    intros path file_list Hat Hwf Hdir;
    [done| |split; [intros _; simpl; by rewrite app_nil_r | done]].
  apply well_formed_dir in Hwf as [Hnodup Hentries].
  rewrite all_readable_dir. cbn [FS.walk_node records_under]. rewrite listing_step_cons.
  destruct (files_loop fs folder_label path st_size entries Hat Hnodup Hentries
              entries file_list) as [Hfiles Hfiles_fail]; [done|].
  destruct (files_readable entries).
  - rewrite (Hfiles eq_refl), bind_Ok.
    destruct (dirs_loop fs folder_label path st_size entries entries
                (file_list ++ file_records folder_label entries) Hat Hnodup Hentries IH)
      as [Hdirs Hdirs_fail]; [done|].
    split; [|done]. intros Hr. rewrite (Hdirs Hr). by rewrite <- app_assoc.
  - destruct (Hfiles_fail eq_refl) as [bad ->]. split; [done | intros _; eauto].
Qed.

Lemma list_all_files_at (fs : FS.node) (folder_path folder_label : string) (n : FS.node) :
  FS.resolve fs folder_path = Ok n →
  list_all_files fs folder_path folder_label
  = for_each (listing_step fs folder_label) (FS.walk_node folder_path n) [].
Proof. intros Hres. unfold list_all_files, FS.walk. by rewrite Hres. Qed.



(** One unreadable file anywhere the walk reaches makes the whole listing
    raise [PermissionError]; no partial list is returned. *)
Theorem list_all_files_unreadable (fs : FS.node) (folder_path folder_label : string)
    (st_size : Z) (entries : list (string * FS.node)) :
  FS.resolve fs folder_path = Ok (FS.Dir st_size entries) →
  well_formed (FS.Dir st_size entries) = true →
  all_readable (FS.Dir st_size entries) = false →
  ∃ bad, list_all_files fs folder_path folder_label = Raise (PermissionError bad).
Proof.
  intros Hres Hwf Hread. rewrite (list_all_files_at _ _ _ _ Hres).
  apply resolve_at_path in Hres.
  destruct (listing_of_every_node fs folder_label _ folder_path [] Hres Hwf eq_refl)
    as [_ Hfail].
  by apply Hfail.
Qed.

Lemma list_all_files_unreadable_witness :
  ∃ bad, list_all_files sample_fs "locked" "Folder1" = Raise (PermissionError bad).
Proof.
  apply (list_all_files_unreadable sample_fs "locked" "Folder1" 4096
           [ ("secret", FS.File false (list_byte_of_string "x")) ]);
    vm_compute; reflexivity.
Defined.

(** ** What a listing holds, on any tree *)

Lemma append_file_ok (fs : FS.node) (root folder_label file : string)
    (file_list file_list' : list FileRecord) :
  append_file fs root folder_label file_list file = Ok file_list' →
  ∃ row, file_list' = file_list ++ [row] ∧ describes_a_file fs folder_label row.
Proof.
  unfold append_file. cbv zeta. unfold FS.getsize, calculate_full_hash, FS.open_rb.
  destruct (FS.resolve fs (PosixPath.join root file))
    as [[[|] content|sz es|sz b es]|e] eqn:Hres;
    rewrite ?bind_Ok, ?bind_Raise; try done.
  rewrite (read_loop_feeds default_chunk_size ltac:(done) ltac:(done) _ _ _ _ eq_refl).
  rewrite !bind_Ok. intros [= <-]. eexists. split; [done|].
  unfold describes_a_file. simpl. split_and!; [done | by exists file |].
  exists (PosixPath.join root file), content. by rewrite Hres.
Qed.

Lemma for_each_appends {A} (Q : FileRecord → Prop)
    (body : list FileRecord → A → result (list FileRecord)) (xs : list A)
    (file_list file_list' : list FileRecord) :
  (∀ l x l', body l x = Ok l' → Forall Q l → Forall Q l') →
  for_each body xs file_list = Ok file_list' → Forall Q file_list → Forall Q file_list'.
Proof.
  intros Hbody. revert file_list. induction xs as [|x xs IH]; intros file_list; simpl.
  - by intros [= <-].
  - destruct (body file_list x) as [l|e] eqn:Hx; [|done]. rewrite bind_Ok. eauto.
Qed.

(** Every record of a listing that succeeds, on any tree: it carries the
    label that was passed; name, type and hint come from one entry name;
    size and hash come from the content of one readable file, so the size
    is the number of bytes that were hashed. *)
Theorem list_all_files_records (fs : FS.node) (folder_path folder_label : string)
    (records : list FileRecord) :
  list_all_files fs folder_path folder_label = Ok records →
  Forall (describes_a_file fs folder_label) records.
Proof.
  intros Hlist. unfold list_all_files in Hlist.
  destruct (FS.walk fs folder_path) as [triples|e]; [|done]. rewrite bind_Ok in Hlist.
  eapply for_each_appends; [|exact Hlist|constructor].
  intros l [[root dirs] files] l' Hinner Hl.
  eapply for_each_appends; [|exact Hinner|exact Hl].
  intros l0 file l0' Hfile Hl0. apply append_file_ok in Hfile as (row & -> & Hrow).
  apply Forall_app. split; [done | by constructor].
Qed.

Lemma list_all_files_records_witness :
  Forall (describes_a_file sample_fs "Folder2")
    [ {| file_name := "y.txt"; file_hash := "5d41402abc4b2a76b9719d911017c592";
         file_type := ".txt"; file_size := 5; folder := "Folder2"; content_type := "" |};
      {| file_name := ".hidden"; file_hash := "d41d8cd98f00b204e9800998ecf8427e";
         file_type := ""; file_size := 0; folder := "Folder2"; content_type := "" |} ].
Proof.
  apply (list_all_files_records sample_fs "folder2" "Folder2"). vm_compute. reflexivity.
Defined.

(** ** The report: header, styles, rows, files written *)

(** For every list: the sheet is titled "File List Report"; its first row
    holds the six column names, each cell gold, bold and centred. *)
Theorem report_header_row (argsort : list Z → list nat) (w : world) (file_list : loc)
    (path : string) (tuples : list FileRecord) :
  heap w !! file_list = Some (PyList tuples) →
  ∃ w' ws header,
    generate_styled_excel_report argsort file_list path w = Ok w'
    ∧ disk w' !! path = Some ws
    ∧ Sheet.title ws = "File List Report"
    ∧ Sheet.grid ws !! 0%nat = Some header
    ∧ Sheet.value_of <$> header = Sheet.VStr <$> headers
    ∧ Forall (λ c, Sheet.fill c = Some header_fill
                   ∧ Sheet.font c = Some {| Sheet.bold := true |}
                   ∧ Sheet.alignment c = Some center_alignment) header.
Proof.
  intros Hlist.
  destruct (report_run argsort w file_list path tuples Hlist) as (w' & Hrun & Hdisk & _).
  exists w', (report_sheet argsort tuples), header_cells. split_and!; [done|..].
  - by rewrite Hdisk, lookup_insert_eq.
  - unfold report_sheet, fit_columns. cbv zeta.
    by rewrite (proj2 (fit_step_grid _ _)), sheet_rows_eq.
  - by rewrite report_sheet_grid.
  - reflexivity.
  - unfold header_cells, headers. simpl. by repeat constructor.
Qed.

Lemma report_header_row_witness :
  ∃ w' ws header,
    generate_styled_excel_report merge_argsort 1%positive "r.xlsx" sample_world = Ok w'
    ∧ disk w' !! "r.xlsx" = Some ws
    ∧ Sheet.title ws = "File List Report"
    ∧ Sheet.grid ws !! 0%nat = Some header
    ∧ Sheet.value_of <$> header = Sheet.VStr <$> headers
    ∧ Forall (λ c, Sheet.fill c = Some header_fill
                   ∧ Sheet.font c = Some {| Sheet.bold := true |}
                   ∧ Sheet.alignment c = Some center_alignment) header.
Proof.
  apply (report_header_row merge_argsort sample_world 1%positive "r.xlsx" sample_files).
  reflexivity.
Defined.

(** Every cell of the report is centred both ways.  In the data rows no
    cell is bold, and only the "File Hash" and "Folder" cells can carry a
    fill: name, type, size and content type never do. *)
Theorem report_cell_styles (argsort : list Z → list nat) (w : world) (file_list : loc)
    (path : string) (tuples : list FileRecord) :
  heap w !! file_list = Some (PyList tuples) →
  ∃ w' ws,
    generate_styled_excel_report argsort file_list path w = Ok w'
    ∧ disk w' !! path = Some ws
    ∧ (∀ cells c, cells ∈ Sheet.grid ws → c ∈ cells →
         Sheet.alignment c = Some center_alignment)
    ∧ (∀ k cells j c, Sheet.grid ws !! S k = Some cells → cells !! j = Some c →
         Sheet.font c = None ∧ (j ≠ 1%nat → j ≠ 4%nat → Sheet.fill c = None)).
Proof.
  intros Hlist.
  destruct (report_run argsort w file_list path tuples Hlist) as (w' & Hrun & Hdisk & _).
  exists w', (report_sheet argsort tuples). split_and!; [done|..].
  - by rewrite Hdisk, lookup_insert_eq.
  - rewrite report_sheet_grid. intros cells c [->|Hcells]%elem_of_cons Hc.
    + unfold header_cells in Hc. apply list_elem_of_fmap in Hc as (h & -> & _). done.
    + apply list_elem_of_fmap in Hcells as (row & -> & _).
      unfold data_cells in Hc. set_unfold. by destruct Hc as [->|[->|[->|[->|[->|[->|[]]]]]]].
  - rewrite report_sheet_grid. simpl. intros k cells j c Hk Hj.
    apply list_lookup_fmap_Some in Hk as (row & -> & _).
    unfold data_cells in Hj.
    destruct j as [|[|[|[|[|[|j]]]]]]; simpl in Hj; try done; injection Hj as <-; done.
Qed.

Lemma report_cell_styles_witness :
  ∃ w' ws,
    generate_styled_excel_report merge_argsort 1%positive "r.xlsx" sample_world = Ok w'
    ∧ disk w' !! "r.xlsx" = Some ws
    ∧ (∀ cells c, cells ∈ Sheet.grid ws → c ∈ cells →
         Sheet.alignment c = Some center_alignment)
    ∧ (∀ k cells j c, Sheet.grid ws !! S k = Some cells → cells !! j = Some c →
         Sheet.font c = None ∧ (j ≠ 1%nat → j ≠ 4%nat → Sheet.fill c = None)).
Proof.
  apply (report_cell_styles merge_argsort sample_world 1%positive "r.xlsx" sample_files).
  reflexivity.
Defined.

(** When every text field of the records is text a cell stores as given,
    the report has one data row for each record of the list, no more and
    no less, and each data row shows the six fields of its record. *)
Theorem report_one_row_per_record (argsort : list Z → list nat) (w : world)
    (file_list : loc) (path : string) (tuples : list FileRecord) :
  argsort_spec argsort →
  heap w !! file_list = Some (PyList tuples) →
  Forall (λ row, record_accepted row = true) tuples →
  ∃ w' ws rows,
    generate_styled_excel_report_checked argsort file_list path w = Ok w'
    ∧ disk w' !! path = Some ws
    ∧ length (Sheet.grid ws) = S (length tuples)
    ∧ rows ≡ₚ tuples
    ∧ (λ cells, Sheet.value_of <$> cells) <$> drop 1 (Sheet.grid ws) = row_values <$> rows.
Proof.
  intros Hsort Hlist Haccepted.
  rewrite (checked_report_accepted argsort w file_list path tuples Hlist Haccepted).
  destruct (report_run argsort w file_list path tuples Hlist) as (w' & Hrun & Hdisk & _).
  exists w', (report_sheet argsort tuples), (sort_values argsort tuples).
  pose proof (sort_values_perm argsort Hsort tuples) as Hperm.
  split_and!; [done|..|done|].
  - by rewrite Hdisk, lookup_insert_eq.
  - rewrite report_sheet_grid. simpl. by rewrite length_fmap, Hperm.
  - rewrite report_sheet_grid. simpl. rewrite drop_0, <- list_fmap_compose.
    by apply list_fmap_ext.
Qed.

Lemma report_one_row_per_record_witness :
  ∃ w' ws rows,
    generate_styled_excel_report_checked merge_argsort 1%positive "r.xlsx" sample_world
    = Ok w'
    ∧ disk w' !! "r.xlsx" = Some ws
    ∧ length (Sheet.grid ws) = S (length sample_files)
    ∧ rows ≡ₚ sample_files
    ∧ (λ cells, Sheet.value_of <$> cells) <$> drop 1 (Sheet.grid ws) = row_values <$> rows.
Proof.
  apply (report_one_row_per_record merge_argsort sample_world 1%positive "r.xlsx"
           sample_files).
  - exact merge_argsort_ok.
  - reflexivity.
  - repeat (constructor; [vm_compute; reflexivity|]). constructor.
Defined.

(** Saving writes the file at the report path and nothing else: a file
    that was there is replaced by the new report, every other file on disk
    is as before. *)
Theorem report_writes_one_file (argsort : list Z → list nat) (w : world) (file_list : loc)
    (path : string) (tuples : list FileRecord) :
  heap w !! file_list = Some (PyList tuples) →
  ∃ w',
    generate_styled_excel_report argsort file_list path w = Ok w'
    ∧ disk w' !! path = Some (report_sheet argsort tuples)
    ∧ ∀ other, other ≠ path → disk w' !! other = disk w !! other.
Proof.
  intros Hlist.
  destruct (report_run argsort w file_list path tuples Hlist) as (w' & Hrun & Hdisk & _).
  exists w'. rewrite Hdisk. split_and!; [done | apply lookup_insert_eq |].
  intros other Hne. by rewrite lookup_insert_ne.
Qed.

Lemma report_writes_one_file_witness :
  ∃ w',
    generate_styled_excel_report merge_argsort 1%positive "r.xlsx" sample_world = Ok w'
    ∧ disk w' !! "r.xlsx" = Some (report_sheet merge_argsort sample_files)
    ∧ ∀ other, other ≠ "r.xlsx" → disk w' !! other = disk sample_world !! other.
Proof.
  apply (report_writes_one_file merge_argsort sample_world 1%positive "r.xlsx" sample_files).
  reflexivity.
Defined.

Global Instance Z_le_antisymm : AntiSymm (=) Z.le.
Proof. intros x y ? ?. lia. Qed.

(** The "File Size" column depends only on which sizes are in the list:
    two lists with the same records in different orders, sorted by any two
    sorts that do what [sort_values] promises, show the same sizes row by
    row. *)
Theorem size_column_canonical (argsort1 argsort2 : list Z → list nat)
    (tuples1 tuples2 : list FileRecord) :
  argsort_spec argsort1 → argsort_spec argsort2 → tuples1 ≡ₚ tuples2 →
  (λ cells, Sheet.value_of <$> cells !! 3%nat) <$> Sheet.grid (report_sheet argsort1 tuples1)
  = (λ cells, Sheet.value_of <$> cells !! 3%nat) <$> Sheet.grid (report_sheet argsort2 tuples2).
Proof.
  intros H1 H2 Hperm. rewrite !report_sheet_grid, !fmap_cons. f_equal.
  rewrite <- !list_fmap_compose.
  change ((λ row, Some (Sheet.VInt (file_size row))) <$> sort_values argsort1 tuples1
          = (λ row, Some (Sheet.VInt (file_size row))) <$> sort_values argsort2 tuples2).
  rewrite !(list_fmap_compose file_size (λ n, Some (Sheet.VInt n))). f_equal.
  apply (Sorted_unique Z.le); [by apply sort_values_sorted..|].
  by rewrite !sort_values_perm, Hperm.
Qed.

Lemma size_column_canonical_witness :
  (λ cells, Sheet.value_of <$> cells !! 3%nat)
    <$> Sheet.grid (report_sheet merge_argsort sample_files)
  = (λ cells, Sheet.value_of <$> cells !! 3%nat)
      <$> Sheet.grid (report_sheet merge_argsort (reverse sample_files)).
Proof.
  apply (size_column_canonical merge_argsort merge_argsort sample_files (reverse sample_files)).
  - exact merge_argsort_ok.
  - exact merge_argsort_ok.
  - symmetry. apply reverse_Permutation.
Defined.

(** ** The table of hash counts *)

Lemma count_step_absent (hs : list string) (d : gmap string Z) (h : string) :
  h ∉ hs → foldl count_step d hs !! h = d !! h.
Proof.
  revert d. induction hs as [|h' hs IH]; intros d Hnot; [done|].
  apply not_elem_of_cons in Hnot as [Hne Hnot]. simpl. rewrite (IH _ Hnot).
  unfold count_step. by rewrite lookup_insert_ne.
Qed.

(** The counting loop, started on an empty [defaultdict], leaves a table
    whose keys are exactly the hashes met, each with the number of times it
    was met; nothing else in the world changes. *)
Theorem hash_counts_table (hash_counts : loc) (w : world) (hashes : list string) :
  ∃ table,
    foldl (count_hash hash_counts) (store hash_counts (PyDefaultDict ∅) w) hashes
    = store hash_counts (PyDefaultDict table) w
    ∧ ∀ h, table !! h
           = if decide (h ∈ hashes)
             then Some (Z.of_nat (length (filter (λ h', h' = h) hashes)))
             else None.
Proof.
  exists (foldl count_step ∅ hashes). split; [apply count_hash_loop|].
  intros h. destruct (decide (h ∈ hashes)) as [Hin|Hnot].
  - destruct (count_step_keys hashes ∅ h (or_introl Hin)) as [n Hn].
    pose proof (count_step_total hashes ∅ h) as Htotal.
    rewrite Hn, lookup_empty in Htotal. simpl in Htotal. by rewrite Hn, Htotal.
  - by rewrite count_step_absent, lookup_empty.
Qed.

(** ** The whole run *)

Lemma walk_non_directory (fs : FS.node) (folder_path : string) :
  FS.no_nul folder_path = true →
  (∀ st_size entries, FS.resolve fs folder_path ≠ Ok (FS.Dir st_size entries)) →
  FS.walk fs folder_path = Ok [].
Proof.
  intros Hnul Hnodir. rewrite (walk_ok _ _ Hnul).
  destruct (FS.resolve fs folder_path) as [[readable content|st_size entries|? ? ?]|e];
    try done.
  by destruct (Hnodir st_size entries).
Qed.

Section WholeRun.

Variable argsort : list Z → list nat.

Lemma main_run (fs : FS.node) (w : world) (files1 files2 : list FileRecord) :
  list_all_files fs folder1 "Folder1" = Ok files1 →
  list_all_files fs folder2 "Folder2" = Ok files2 →
  ∃ w', main argsort fs w = Ok (w', "Styled Excel report generated: all_files_report.xlsx")
        ∧ disk w' = <[report_path := report_sheet argsort (files1 ++ files2)]> (disk w)
        ∧ ∀ l o, heap w !! l = Some o → heap w' !! l = Some o.
Proof.
  intros H1 H2. unfold main. rewrite H1, H2, !bind_Ok, alloc_store.
  set (all_files := fresh (dom (heap w))).
  destruct (report_run argsort (store all_files (PyList (files1 ++ files2)) w) all_files
              report_path (files1 ++ files2) (heap_store_eq _ _ _))
    as (w' & -> & Hdisk & Hheap).
  exists w'. rewrite bind_Ok. split_and!; [done..|].
  intros l o Hl. apply Hheap. rewrite heap_store_ne; [done|].
  intros <-. by apply (fresh_not_allocated w all_files o).
Qed.

End WholeRun.

(** An unreadable file anywhere the walk of the first folder reaches
    stops the run with [PermissionError]: the second folder is not listed
    and no report is written. *)
Theorem main_stops_on_unreadable_file (argsort : list Z → list nat) (fs : FS.node)
    (w : world) (st_size : Z) (entries : list (string * FS.node)) :
  FS.resolve fs folder1 = Ok (FS.Dir st_size entries) →
  well_formed (FS.Dir st_size entries) = true →
  all_readable (FS.Dir st_size entries) = false →
  ∃ bad, main argsort fs w = Raise (PermissionError bad).
Proof.
  intros Hres Hwf Hread.
  assert (Hlist : ∃ bad, list_all_files fs folder1 "Folder1" = Raise (PermissionError bad)).
  { rewrite (list_all_files_at _ _ _ _ Hres). apply resolve_at_path in Hres.
    destruct (listing_of_every_node fs "Folder1" _ folder1 [] Hres Hwf eq_refl) as [_ Hfail].
    by apply Hfail. }
  destruct Hlist as [bad Hlist]. exists bad. unfold main. by rewrite Hlist, bind_Raise.
Qed.

Lemma main_stops_on_unreadable_file_witness :
  ∃ bad,
    main merge_argsort
      (FS.Dir 4096 [ ("folder1", FS.Dir 4096
                        [ ("ok.txt", FS.File true []);
                          ("deep", FS.Dir 4096 [ ("secret", FS.File false []) ]) ]) ])
      sample_world
    = Raise (PermissionError bad).
Proof.
  apply (main_stops_on_unreadable_file merge_argsort _ sample_world 4096
           [ ("ok.txt", FS.File true []);
             ("deep", FS.Dir 4096 [ ("secret", FS.File false []) ]) ]);
    vm_compute; reflexivity.
Defined.

(** When neither folder exists (or each is a regular file), the run still
    succeeds and writes a report that holds the header row alone. *)
Theorem main_without_folders (argsort : list Z → list nat) (fs : FS.node) (w : world) :
  (∀ st_size entries, FS.resolve fs folder1 ≠ Ok (FS.Dir st_size entries)) →
  (∀ st_size entries, FS.resolve fs folder2 ≠ Ok (FS.Dir st_size entries)) →
  ∃ w' ws,
    main argsort fs w = Ok (w', "Styled Excel report generated: all_files_report.xlsx")
    ∧ disk w' !! "all_files_report.xlsx" = Some ws
    ∧ Sheet.grid ws = [header_cells].
Proof.
  intros Hno1 Hno2.
  assert (H1 : list_all_files fs folder1 "Folder1" = Ok []).
  { unfold list_all_files. by rewrite (walk_non_directory fs folder1 eq_refl Hno1). }
  assert (H2 : list_all_files fs folder2 "Folder2" = Ok []).
  { unfold list_all_files. by rewrite (walk_non_directory fs folder2 eq_refl Hno2). }
  destruct (main_run argsort fs w [] [] H1 H2) as (w' & Hmain & Hdisk & _).
  exists w', (report_sheet argsort []). rewrite Hdisk. unfold report_path.
  split_and!; [done | apply lookup_insert_eq |].
  by rewrite report_sheet_grid, sort_values_nil.
Qed.

Lemma main_without_folders_witness :
  ∃ w' ws,
    main merge_argsort (FS.Dir 4096 [ ("folder1", FS.File true []) ]) sample_world
    = Ok (w', "Styled Excel report generated: all_files_report.xlsx")
    ∧ disk w' !! "all_files_report.xlsx" = Some ws
    ∧ Sheet.grid ws = [header_cells].
Proof.
  apply (main_without_folders merge_argsort _ sample_world);
    intros st_size entries; vm_compute; discriminate.
Defined.

(** The row of a record that shares its hash with a record at another
    position: its hash cell is highlighted. *)
Lemma duplicate_row (argsort : list Z → list nat) (tuples : list FileRecord)
    (i j : nat) (row other : FileRecord) :
  argsort_spec argsort →
  tuples !! i = Some row → tuples !! j = Some other → j ≠ i →
  file_hash other = file_hash row →
  ∃ k, argsort (file_size <$> tuples) !! k = Some i
       ∧ Sheet.grid (report_sheet argsort tuples) !! S k
         = Some (data_cells (hash_counts_of (sort_values argsort tuples)) row)
       ∧ hash_fill (hash_counts_of (sort_values argsort tuples)) (file_hash row)
         = Some duplicate_hash_fill.
Proof.
  intros Hsort Hi Hj Hne Hhash.
  assert (Hk : ∃ k, argsort (file_size <$> tuples) !! k = Some i).
  { apply list_elem_of_lookup. destruct (Hsort (file_size <$> tuples)) as [Hperm _].
    rewrite Hperm. apply elem_of_seq. rewrite length_fmap. apply lookup_lt_Some in Hi. lia. }
  destruct Hk as [k Hk]. exists k. split; [done|]. split.
  - apply data_row_lookup. by rewrite (sort_values_lookup argsort Hsort tuples k i Hk).
  - unfold hash_fill. rewrite (hash_count_is_occurrences argsort tuples _ Hsort).
    assert (2 ≤ length (filter (λ row', file_hash row' = file_hash row) tuples))%nat as Htwo.
    { apply (other_occurrence (λ row', file_hash row' = file_hash row) tuples i row Hi eq_refl).
      eauto. }
    assert ((1 <? Z.of_nat (length (filter (λ row', file_hash row' = file_hash row) tuples)))
            = true) as -> by (apply Z.ltb_lt; lia).
    done.
Qed.

(** Two files with one hash, one listed from each folder: the report has a
    row for each, on different lines, and the "File Hash" cells of both
    rows are highlighted. *)
Theorem cross_folder_duplicates (argsort : list Z → list nat) (fs : FS.node) (w : world)
    (files1 files2 : list FileRecord) (row1 row2 : FileRecord) :
  argsort_spec argsort →
  list_all_files fs folder1 "Folder1" = Ok files1 →
  list_all_files fs folder2 "Folder2" = Ok files2 →
  row1 ∈ files1 → row2 ∈ files2 → file_hash row1 = file_hash row2 →
  ∃ w' message ws k1 k2 cells1 cells2 c1 c2,
    main argsort fs w = Ok (w', message)
    ∧ disk w' !! "all_files_report.xlsx" = Some ws
    ∧ k1 ≠ k2
    ∧ Sheet.grid ws !! S k1 = Some cells1 ∧ Sheet.value_of <$> cells1 = row_values row1
    ∧ Sheet.grid ws !! S k2 = Some cells2 ∧ Sheet.value_of <$> cells2 = row_values row2
    ∧ cells1 !! 1%nat = Some c1 ∧ Sheet.fill c1 = Some duplicate_hash_fill
    ∧ cells2 !! 1%nat = Some c2 ∧ Sheet.fill c2 = Some duplicate_hash_fill.
Proof.
  intros Hsort H1 H2 Hin1 Hin2 Hhash.
  destruct (main_run argsort fs w files1 files2 H1 H2) as (w' & Hmain & Hdisk & _).
  apply list_elem_of_lookup in Hin1 as [i Hi]. apply list_elem_of_lookup in Hin2 as [j Hj].
  assert (Hi' : (files1 ++ files2) !! i = Some row1).
  { rewrite lookup_app_l; [done | by apply lookup_lt_Some in Hi]. }
  assert (Hj' : (files1 ++ files2) !! (length files1 + j)%nat = Some row2).
  { by rewrite lookup_app_r, Nat.add_comm, Nat.add_sub by lia. }
  assert (Hne : (length files1 + j)%nat ≠ i) by (apply lookup_lt_Some in Hi; lia).
  destruct (duplicate_row argsort _ i _ row1 row2 Hsort Hi' Hj' Hne (eq_sym Hhash))
    as (k1 & Hk1 & Hrow1 & Hfill1).
  destruct (duplicate_row argsort _ _ i row2 row1 Hsort Hj' Hi' (not_eq_sym Hne) Hhash)
    as (k2 & Hk2 & Hrow2 & Hfill2).
  eexists w', _, (report_sheet argsort (files1 ++ files2)), k1, k2, _, _, _, _.
  split; [exact Hmain|]. rewrite Hdisk. unfold report_path.
  split; [apply lookup_insert_eq|]. split; [intros ->; congruence|].
  split; [exact Hrow1|]. split; [reflexivity|].
  split; [exact Hrow2|]. split; [reflexivity|].
  split; [reflexivity|]. split; [exact Hfill1|]. split; [reflexivity | exact Hfill2].
Qed.

Lemma cross_folder_duplicates_witness :
  ∃ w' message ws k1 k2 cells1 cells2 c1 c2,
    main merge_argsort sample_fs sample_world = Ok (w', message)
    ∧ disk w' !! "all_files_report.xlsx" = Some ws
    ∧ k1 ≠ k2
    ∧ Sheet.grid ws !! S k1 = Some cells1
    ∧ Sheet.value_of <$> cells1
      = row_values (record_of "Folder1" "x.txt" (list_byte_of_string "hello"))
    ∧ Sheet.grid ws !! S k2 = Some cells2
    ∧ Sheet.value_of <$> cells2
      = row_values (record_of "Folder2" "y.txt" (list_byte_of_string "hello"))
    ∧ cells1 !! 1%nat = Some c1 ∧ Sheet.fill c1 = Some duplicate_hash_fill
    ∧ cells2 !! 1%nat = Some c2 ∧ Sheet.fill c2 = Some duplicate_hash_fill.
Proof.
  apply (cross_folder_duplicates merge_argsort sample_fs sample_world
           (records_under "Folder1"
              (FS.Dir 4096
                 [ ("x.txt", FS.File true (list_byte_of_string "hello"));
                   ("sub", FS.Dir 4096
                      [ ("(A1)Form.PDF", FS.File true (list_byte_of_string "0123456789")) ]) ]))
           (records_under "Folder2"
              (FS.Dir 4096
                 [ ("y.txt", FS.File true (list_byte_of_string "hello"));
                   (".hidden", FS.File true []) ]))).
  - exact merge_argsort_ok.
  - vm_compute. reflexivity.
  - vm_compute. reflexivity.
  - vm_compute. left.
  - vm_compute. left.
  - vm_compute. reflexivity.
Defined.
